(** * TaxiFleet backend: permission masks, report lifecycle and tenant scoping

    A shallow embedding of the Go packages [permissions], [repository],
    [service], [middleware] and [handlers] of the TaxiFleet backend, with the
    properties of the authorization-and-lifecycle core stated over it.

    Conventions of the embedding.
    - Go [int] (64 bit, signed) is [Z]; the only operations on masks are
      comparisons and the bitwise AND, which agree with [Z.land] on two's
      complement integers, so no wrap-around arises.
    - Go [uint] identifiers are [N].
    - Go [float64] is Rocq's primitive binary64 [float]; [x != 0] is
      [negb (PrimFloat.eqb x 0)] and [+=] is [PrimFloat.add].
    - [time.Time] is an instant counted in [Z] from the zero time, so that
      [IsZero] is the comparison with [0]; [time.Now()] is an explicit [now]
      argument of the operation that reads the clock.
    - A Go result [(v, err)] is a Rocq pair [(v, option error)]; the
      database is threaded explicitly through every operation, which returns
      the database it leaves behind next to its result.
    - The database is the list of rows of each table.  GORM is modelled as it
      is used: [First], [Where ... Find], [Create], [Save] and the soft
      [Delete].  The database refuses a write whose foreign keys do not
      resolve, and for tenants, users and sessions one that repeats a value
      of a unique index or whose [permission] does not fit its column; other
      failures of the database (lost connection, column widths, the range
      of the decimal columns) are not modelled, nor is the rounding of a
      value to the type of its column ([DECIMAL(10,2)], [DATE]).
    - [time.Parse], the HS256 signer, [jwt.Parse] and the two functions of
      [bcrypt] are library functions; the services that call them take them
      as parameters.
    - A run-time panic is a result of its own where the code can raise
      one. *)

From Stdlib Require Import ZArith NArith List String Bool Lia.
From Stdlib Require Import Floats.PrimFloat.
Import ListNotations.

Local Open Scope string_scope.
Local Open Scope Z_scope.

(* ================================================================== *)
(** ** Package [permissions] *)
(* ================================================================== *)

Module permissions.

(** Permission bits (bit flags). *)
Definition PermissionViewReports : Z := Z.shiftl 1 0.
Definition PermissionAddReports : Z := Z.shiftl 1 1.
Definition PermissionEditReports : Z := Z.shiftl 1 2.
Definition PermissionDeleteReports : Z := Z.shiftl 1 3.

Definition PermissionViewTaxis : Z := Z.shiftl 1 4.
Definition PermissionAddTaxis : Z := Z.shiftl 1 5.
Definition PermissionEditTaxis : Z := Z.shiftl 1 6.
Definition PermissionDeleteTaxis : Z := Z.shiftl 1 7.

Definition PermissionViewExpenses : Z := Z.shiftl 1 8.
Definition PermissionAddExpenses : Z := Z.shiftl 1 9.
Definition PermissionEditExpenses : Z := Z.shiftl 1 10.
Definition PermissionDeleteExpenses : Z := Z.shiftl 1 11.

Definition PermissionViewDeposits : Z := Z.shiftl 1 12.
Definition PermissionAddDeposits : Z := Z.shiftl 1 13.
Definition PermissionEditDeposits : Z := Z.shiftl 1 14.
Definition PermissionDeleteDeposits : Z := Z.shiftl 1 15.

Definition PermissionViewUsers : Z := Z.shiftl 1 16.
Definition PermissionAddUsers : Z := Z.shiftl 1 17.
Definition PermissionEditUsers : Z := Z.shiftl 1 18.
Definition PermissionDeleteUsers : Z := Z.shiftl 1 19.

Definition PermissionManageTenants : Z := Z.shiftl 1 20.

(** The role masks are package-level variables, overwritten once at process
    start by [SetPermissionMasks]; they are modelled as a record that every
    function reading them takes as its first argument. *)
Record Masks : Type := mkMasks {
  PermissionAdmin : Z;
  PermissionOwner : Z;
  PermissionManager : Z;
  PermissionMechanic : Z;
  PermissionDriver : Z
}.

Definition lor_all (bits : list Z) : Z := fold_left Z.lor bits 0.

(** The initial values of the package variables. *)
Definition initial : Masks := {|
  PermissionAdmin := 0xFFFFFFFF;
  PermissionOwner :=
    lor_all [PermissionViewReports; PermissionAddReports; PermissionEditReports; PermissionDeleteReports;
             PermissionViewTaxis; PermissionAddTaxis; PermissionEditTaxis; PermissionDeleteTaxis;
             PermissionViewExpenses; PermissionAddExpenses; PermissionEditExpenses; PermissionDeleteExpenses;
             PermissionViewDeposits; PermissionAddDeposits; PermissionEditDeposits; PermissionDeleteDeposits];
  PermissionManager :=
    lor_all [PermissionViewReports; PermissionAddReports; PermissionEditReports;
             PermissionViewDeposits; PermissionAddDeposits; PermissionEditDeposits;
             PermissionViewTaxis];
  PermissionMechanic := lor_all [PermissionViewTaxis; PermissionViewReports];
  PermissionDriver := lor_all [PermissionViewReports; PermissionAddReports]
|}.

Definition SetPermissionMasks (admin owner manager mechanic driver : Z) : Masks :=
  {| PermissionAdmin := admin;
     PermissionOwner := owner;
     PermissionManager := manager;
     PermissionMechanic := mechanic;
     PermissionDriver := driver |}.

(** What [main] installs when no environment variable overrides a mask
    (the defaults of [config.Load]). *)
Definition configured : Masks :=
  SetPermissionMasks 0xFFFFFFFF 0xFFFFF 0x3 0x70 0x3.

Definition HasPermission (g : Masks) (userPermission requiredPermission : Z) : bool :=
  if (userPermission =? -1) || (userPermission =? PermissionAdmin g) then true
  else if Z.land userPermission (PermissionAdmin g) =? PermissionAdmin g then true
  else negb (Z.land userPermission requiredPermission =? 0).

Fixpoint anyLoop (userPermission : Z) (requiredPermissions : list Z) : bool :=
  match requiredPermissions with
  | [] => false
  | perm :: rest =>
      if negb (Z.land userPermission perm =? 0) then true
      else anyLoop userPermission rest
  end.

Definition HasAnyPermission (g : Masks) (userPermission : Z) (requiredPermissions : list Z) : bool :=
  if (userPermission =? -1) || (userPermission =? PermissionAdmin g) then true
  else if Z.land userPermission (PermissionAdmin g) =? PermissionAdmin g then true
  else anyLoop userPermission requiredPermissions.

Fixpoint allLoop (userPermission : Z) (requiredPermissions : list Z) : bool :=
  match requiredPermissions with
  | [] => true
  | perm :: rest =>
      if Z.land userPermission perm =? 0 then false
      else allLoop userPermission rest
  end.

Definition HasAllPermissions (g : Masks) (userPermission : Z) (requiredPermissions : list Z) : bool :=
  if (userPermission =? -1) || (userPermission =? PermissionAdmin g) then true
  else if Z.land userPermission (PermissionAdmin g) =? PermissionAdmin g then true
  else allLoop userPermission requiredPermissions.

Definition GetPermissionForRole (g : Masks) (role : string) : Z :=
  if String.eqb role "admin" then PermissionAdmin g
  else if String.eqb role "owner" then PermissionOwner g
  else if String.eqb role "manager" then PermissionManager g
  else if String.eqb role "mechanic" then PermissionMechanic g
  else if String.eqb role "driver" then PermissionDriver g
  else PermissionDriver g.

(** [permission&PermissionAdmin != 0 && permission&PermissionAdmin == PermissionAdmin]
    is the third alternative of the admin test. *)
Definition GetRoleName (g : Masks) (permission : Z) : string :=
  if (permission =? -1) || (permission =? PermissionAdmin g)
     || (negb (Z.land permission (PermissionAdmin g) =? 0)
         && (Z.land permission (PermissionAdmin g) =? PermissionAdmin g))
  then "admin"
  else if permission =? PermissionOwner g then "owner"
  else if permission =? PermissionManager g then "manager"
  else if permission =? PermissionMechanic g then "mechanic"
  else if permission =? PermissionDriver g then "driver"
  else "custom".

End permissions.

(* ================================================================== *)
(** ** Values shared by the packages *)
(* ================================================================== *)

(** An instant; [0] is the zero [time.Time]. *)
Definition Time : Type := Z.

Definition IsZero (t : Time) : bool := t =? 0.

(** Go's [error]: the sentinel of GORM, a constraint failure reported by the
    database, or a value built by [errors.New]. *)
Inductive error : Type :=
| ErrRecordNotFound
| ErrConstraint
| New (msg : string).

(** [if p == nil] on a pointer field. *)
Definition isNil {A : Type} (p : option A) : bool :=
  match p with
  | None => true
  | Some _ => false
  end.

(* ================================================================== *)
(** ** GORM over in-memory tables *)
(* ================================================================== *)

(** A table is the list of its rows in storage order together with the last
    value handed out by its [SERIAL] sequence.  Soft-deleted rows stay in the
    table with [deleted_at] set, as GORM leaves them.  A query without
    [ORDER BY] returns the matching rows in storage order. *)
Module gorm.

Record Table (A : Type) : Type := mkTable {
  rows : list A;
  seq : N
}.
Arguments mkTable {A} _ _.
Arguments rows {A} _.
Arguments seq {A} _.

(** What GORM reads of a model struct: its primary key and its
    [gorm.DeletedAt] column. *)
Class Model (A : Type) : Type := {
  pk : A -> N;
  deleted_at : A -> option Time
}.

(** What GORM writes by itself: the key it obtains from the sequence, the
    soft-delete mark and the timestamps. *)
Class Writable (A : Type) `{Model A} : Type := {
  set_pk : N -> A -> A;
  set_deleted_at : option Time -> A -> A;
  stamp_created : Time -> A -> A;
  stamp_updated : Time -> A -> A
}.

Section Queries.
Context {A : Type} `{Model A}.

Definition live (x : A) : bool := isNil (deleted_at x).

Definition has_pk (id : N) (x : A) : bool := (pk x =? id)%N.

(** [db.First(&x, id)]: the row with that key that is not soft-deleted. *)
Definition First (id : N) (t : Table A) : option A :=
  find (fun x => live x && has_pk id x) (rows t).

(** [db.Where(cond).Find(&xs)]. *)
Definition Where (cond : A -> bool) (t : Table A) : list A :=
  filter (fun x => live x && cond x) (rows t).

(** Whether a key is present at all: what a foreign key reference needs
    (a soft-deleted row still satisfies it). *)
Definition references (id : N) (t : Table A) : bool :=
  existsb (has_pk id) (rows t).

End Queries.

Section Statements.
Context {A : Type} `{Writable A}.

Definition replace_where (p : A -> bool) (x : A) (l : list A) : list A :=
  map (fun y => if p y then x else y) l.

(** [db.Create(&x)] of a struct whose key is zero: the sequence supplies the
    key; [constraints] tells whether the database accepts the row.  The
    sequence advances even when the row is refused. *)
Definition Create (constraints : bool) (now : Time) (x : A) (t : Table A)
  : Table A * A * option error :=
  let id := N.succ (seq t) in
  let x' := stamp_created now (set_pk id x) in
  if constraints then (mkTable (rows t ++ [x']) id, x', None)
  else (mkTable (rows t) id, x, Some ErrConstraint).

(** [db.Save(&x)]: an insert when the key is zero; otherwise an update of
    the live row with that key, and when no row was updated an insert that
    overwrites on a key conflict. *)
Definition Save (constraints : bool) (now : Time) (x : A) (t : Table A)
  : Table A * A * option error :=
  if (pk x =? 0)%N then Create constraints now x t
  else
    let x' := stamp_updated now x in
    if negb constraints then (t, x, Some ErrConstraint)
    else if existsb (fun y => live y && has_pk (pk x) y) (rows t) then
      (mkTable (replace_where (fun y => live y && has_pk (pk x) y) x' (rows t)) (seq t), x', None)
    else if references (pk x) t then
      (mkTable (replace_where (has_pk (pk x)) x' (rows t)) (seq t), x', None)
    else (mkTable (rows t ++ [x']) (seq t), x', None).

(** [db.Delete(&T{}, id)] on a model with [DeletedAt]: a soft delete. *)
Definition Delete (now : Time) (id : N) (t : Table A) : Table A :=
  mkTable
    (map (fun y => if live y && has_pk id y then set_deleted_at (Some now) y else y) (rows t))
    (seq t).

End Statements.

Section QueriesByCondition.
Context {A : Type} `{Model A}.

(** [db.Where(cond).First(&x)]: of the live rows that match, the one with
    the smallest key ([ORDER BY id LIMIT 1]). *)
Definition FirstWhere (cond : A -> bool) (t : Table A) : option A :=
  fold_left
    (fun best x =>
       match best with
       | None => Some x
       | Some b => if (pk x <? pk b)%N then Some x else Some b
       end)
    (Where cond t) None.

End QueriesByCondition.

Section StatementsByCondition.
Context {A : Type} `{Writable A}.

(** [db.Where(cond).Delete(&T{})]: a soft delete of the live rows that
    match. *)
Definition DeleteWhere (now : Time) (cond : A -> bool) (t : Table A) : Table A :=
  mkTable
    (map (fun y => if live y && cond y then set_deleted_at (Some now) y else y) (rows t))
    (seq t).

End StatementsByCondition.

End gorm.

(* ================================================================== *)
(** ** Package [repository] *)
(* ================================================================== *)

(** The model structs carry the columns of the tables; the association
    fields that [Preload] fills for the JSON output ([Tenant], [Taxi],
    [Driver], ...) play no part in the services and are left out. *)
Module repository.

(** A multi-tenant organization. *)
Module Tenant.

Record t : Type := mk {
  ID : N;
  Name : string;
  Subdomain : string;
  Logo : string;
  Settings : string;
  CreatedAt : Time;
  UpdatedAt : Time;
  DeletedAt : option Time
}.

(** The zero value of the struct. *)
Definition zero : t :=
  mk 0%N EmptyString EmptyString EmptyString EmptyString 0 0 None.

#[global] Instance model : gorm.Model t := {|
  gorm.pk := ID;
  gorm.deleted_at := DeletedAt
|}.

Definition set_ID (v : N) (x : t) : t :=
  mk v (Name x) (Subdomain x) (Logo x) (Settings x) (CreatedAt x) (UpdatedAt x) (DeletedAt x).

Definition set_CreatedAt (v : Time) (x : t) : t :=
  mk (ID x) (Name x) (Subdomain x) (Logo x) (Settings x) v (UpdatedAt x) (DeletedAt x).

Definition set_UpdatedAt (v : Time) (x : t) : t :=
  mk (ID x) (Name x) (Subdomain x) (Logo x) (Settings x) (CreatedAt x) v (DeletedAt x).

Definition set_DeletedAt (v : option Time) (x : t) : t :=
  mk (ID x) (Name x) (Subdomain x) (Logo x) (Settings x) (CreatedAt x) (UpdatedAt x) v.

(** GORM fills the timestamps that are still zero when it inserts, and
    refreshes [UpdatedAt] when it updates. *)
Definition stamp_created (now : Time) (x : t) : t :=
  set_UpdatedAt (if IsZero (UpdatedAt x) then now else UpdatedAt x)
    (set_CreatedAt (if IsZero (CreatedAt x) then now else CreatedAt x) x).

Definition stamp_updated (now : Time) (x : t) : t := set_UpdatedAt now x.

#[global] Instance writable : gorm.Writable t := {|
  gorm.set_pk := set_ID;
  gorm.set_deleted_at := set_DeletedAt;
  gorm.stamp_created := stamp_created;
  gorm.stamp_updated := stamp_updated
|}.

End Tenant.

(** A system user; [Permission] is the integer permission mask. *)
Module User.

Record t : Type := mk {
  ID : N;
  TenantID : N;
  Email : string;
  PasswordHash : string;
  Permission : Z;
  FirstName : string;
  LastName : string;
  Phone : string;
  Active : bool;
  CreatedAt : Time;
  UpdatedAt : Time;
  DeletedAt : option Time
}.

(** The zero value of the struct. *)
Definition zero : t :=
  mk 0%N 0%N EmptyString EmptyString 0 EmptyString EmptyString EmptyString false 0 0 None.

#[global] Instance model : gorm.Model t := {|
  gorm.pk := ID;
  gorm.deleted_at := DeletedAt
|}.

Definition set_ID (v : N) (x : t) : t :=
  mk v (TenantID x) (Email x) (PasswordHash x) (Permission x) (FirstName x) (LastName x) (Phone x)
    (Active x) (CreatedAt x) (UpdatedAt x) (DeletedAt x).

Definition set_TenantID (v : N) (x : t) : t :=
  mk (ID x) v (Email x) (PasswordHash x) (Permission x) (FirstName x) (LastName x) (Phone x)
    (Active x) (CreatedAt x) (UpdatedAt x) (DeletedAt x).

Definition set_Email (v : string) (x : t) : t :=
  mk (ID x) (TenantID x) v (PasswordHash x) (Permission x) (FirstName x) (LastName x) (Phone x)
    (Active x) (CreatedAt x) (UpdatedAt x) (DeletedAt x).

Definition set_PasswordHash (v : string) (x : t) : t :=
  mk (ID x) (TenantID x) (Email x) v (Permission x) (FirstName x) (LastName x) (Phone x)
    (Active x) (CreatedAt x) (UpdatedAt x) (DeletedAt x).

Definition set_Permission (v : Z) (x : t) : t :=
  mk (ID x) (TenantID x) (Email x) (PasswordHash x) v (FirstName x) (LastName x) (Phone x)
    (Active x) (CreatedAt x) (UpdatedAt x) (DeletedAt x).

Definition set_FirstName (v : string) (x : t) : t :=
  mk (ID x) (TenantID x) (Email x) (PasswordHash x) (Permission x) v (LastName x) (Phone x)
    (Active x) (CreatedAt x) (UpdatedAt x) (DeletedAt x).

Definition set_LastName (v : string) (x : t) : t :=
  mk (ID x) (TenantID x) (Email x) (PasswordHash x) (Permission x) (FirstName x) v (Phone x)
    (Active x) (CreatedAt x) (UpdatedAt x) (DeletedAt x).

Definition set_Phone (v : string) (x : t) : t :=
  mk (ID x) (TenantID x) (Email x) (PasswordHash x) (Permission x) (FirstName x) (LastName x) v
    (Active x) (CreatedAt x) (UpdatedAt x) (DeletedAt x).

Definition set_Active (v : bool) (x : t) : t :=
  mk (ID x) (TenantID x) (Email x) (PasswordHash x) (Permission x) (FirstName x) (LastName x)
    (Phone x) v (CreatedAt x) (UpdatedAt x) (DeletedAt x).

Definition set_CreatedAt (v : Time) (x : t) : t :=
  mk (ID x) (TenantID x) (Email x) (PasswordHash x) (Permission x) (FirstName x) (LastName x)
    (Phone x) (Active x) v (UpdatedAt x) (DeletedAt x).

Definition set_UpdatedAt (v : Time) (x : t) : t :=
  mk (ID x) (TenantID x) (Email x) (PasswordHash x) (Permission x) (FirstName x) (LastName x)
    (Phone x) (Active x) (CreatedAt x) v (DeletedAt x).

Definition set_DeletedAt (v : option Time) (x : t) : t :=
  mk (ID x) (TenantID x) (Email x) (PasswordHash x) (Permission x) (FirstName x) (LastName x)
    (Phone x) (Active x) (CreatedAt x) (UpdatedAt x) v.

(** GORM fills the timestamps that are still zero when it inserts, and
    refreshes [UpdatedAt] when it updates. *)
Definition stamp_created (now : Time) (x : t) : t :=
  set_UpdatedAt (if IsZero (UpdatedAt x) then now else UpdatedAt x)
    (set_CreatedAt (if IsZero (CreatedAt x) then now else CreatedAt x) x).

Definition stamp_updated (now : Time) (x : t) : t := set_UpdatedAt now x.

#[global] Instance writable : gorm.Writable t := {|
  gorm.set_pk := set_ID;
  gorm.set_deleted_at := set_DeletedAt;
  gorm.stamp_created := stamp_created;
  gorm.stamp_updated := stamp_updated
|}.

End User.

(** An issued refresh token. *)
Module Session.

Record t : Type := mk {
  ID : N;
  UserID : N;
  Token : string;
  ExpiresAt : Time;
  CreatedAt : Time;
  DeletedAt : option Time
}.

(** The zero value of the struct. *)
Definition zero : t :=
  mk 0%N 0%N EmptyString 0 0 None.

#[global] Instance model : gorm.Model t := {|
  gorm.pk := ID;
  gorm.deleted_at := DeletedAt
|}.

Definition set_ID (v : N) (x : t) : t :=
  mk v (UserID x) (Token x) (ExpiresAt x) (CreatedAt x) (DeletedAt x).

Definition set_CreatedAt (v : Time) (x : t) : t :=
  mk (ID x) (UserID x) (Token x) (ExpiresAt x) v (DeletedAt x).

Definition set_DeletedAt (v : option Time) (x : t) : t :=
  mk (ID x) (UserID x) (Token x) (ExpiresAt x) (CreatedAt x) v.

(** GORM fills [CreatedAt] when it is still zero at the insert; the struct
    has no [UpdatedAt]. *)
Definition stamp_created (now : Time) (x : t) : t :=
  set_CreatedAt (if IsZero (CreatedAt x) then now else CreatedAt x) x.

Definition stamp_updated (now : Time) (x : t) : t := x.

#[global] Instance writable : gorm.Writable t := {|
  gorm.set_pk := set_ID;
  gorm.set_deleted_at := set_DeletedAt;
  gorm.stamp_created := stamp_created;
  gorm.stamp_updated := stamp_updated
|}.

End Session.

(** A taxi vehicle. *)
Module Taxi.

Record t : Type := mk {
  ID : N;
  TenantID : N;
  LicensePlate : string;
  Model : string;
  Year : Z;
  Color : string;
  VIN : string;
  Status : string;
  AssignedDriverID : option N;
  CreatedAt : Time;
  UpdatedAt : Time;
  DeletedAt : option Time
}.

(** The zero value of the struct. *)
Definition zero : t :=
  mk 0%N 0%N EmptyString EmptyString 0 EmptyString EmptyString EmptyString None 0 0 None.

#[global] Instance model : gorm.Model t := {|
  gorm.pk := ID;
  gorm.deleted_at := DeletedAt
|}.

Definition set_ID (v : N) (x : t) : t :=
  mk v (TenantID x) (LicensePlate x) (Model x) (Year x) (Color x) (VIN x) (Status x)
    (AssignedDriverID x) (CreatedAt x) (UpdatedAt x) (DeletedAt x).

Definition set_LicensePlate (v : string) (x : t) : t :=
  mk (ID x) (TenantID x) v (Model x) (Year x) (Color x) (VIN x) (Status x) (AssignedDriverID x)
    (CreatedAt x) (UpdatedAt x) (DeletedAt x).

Definition set_Model (v : string) (x : t) : t :=
  mk (ID x) (TenantID x) (LicensePlate x) v (Year x) (Color x) (VIN x) (Status x)
    (AssignedDriverID x) (CreatedAt x) (UpdatedAt x) (DeletedAt x).

Definition set_Year (v : Z) (x : t) : t :=
  mk (ID x) (TenantID x) (LicensePlate x) (Model x) v (Color x) (VIN x) (Status x)
    (AssignedDriverID x) (CreatedAt x) (UpdatedAt x) (DeletedAt x).

Definition set_Color (v : string) (x : t) : t :=
  mk (ID x) (TenantID x) (LicensePlate x) (Model x) (Year x) v (VIN x) (Status x)
    (AssignedDriverID x) (CreatedAt x) (UpdatedAt x) (DeletedAt x).

Definition set_VIN (v : string) (x : t) : t :=
  mk (ID x) (TenantID x) (LicensePlate x) (Model x) (Year x) (Color x) v (Status x)
    (AssignedDriverID x) (CreatedAt x) (UpdatedAt x) (DeletedAt x).

Definition set_Status (v : string) (x : t) : t :=
  mk (ID x) (TenantID x) (LicensePlate x) (Model x) (Year x) (Color x) (VIN x) v
    (AssignedDriverID x) (CreatedAt x) (UpdatedAt x) (DeletedAt x).

Definition set_AssignedDriverID (v : option N) (x : t) : t :=
  mk (ID x) (TenantID x) (LicensePlate x) (Model x) (Year x) (Color x) (VIN x) (Status x) v
    (CreatedAt x) (UpdatedAt x) (DeletedAt x).

Definition set_CreatedAt (v : Time) (x : t) : t :=
  mk (ID x) (TenantID x) (LicensePlate x) (Model x) (Year x) (Color x) (VIN x) (Status x)
    (AssignedDriverID x) v (UpdatedAt x) (DeletedAt x).

Definition set_UpdatedAt (v : Time) (x : t) : t :=
  mk (ID x) (TenantID x) (LicensePlate x) (Model x) (Year x) (Color x) (VIN x) (Status x)
    (AssignedDriverID x) (CreatedAt x) v (DeletedAt x).

Definition set_DeletedAt (v : option Time) (x : t) : t :=
  mk (ID x) (TenantID x) (LicensePlate x) (Model x) (Year x) (Color x) (VIN x) (Status x)
    (AssignedDriverID x) (CreatedAt x) (UpdatedAt x) v.

(** GORM fills the timestamps that are still zero when it inserts, and
    refreshes [UpdatedAt] when it updates. *)
Definition stamp_created (now : Time) (x : t) : t :=
  set_UpdatedAt (if IsZero (UpdatedAt x) then now else UpdatedAt x)
    (set_CreatedAt (if IsZero (CreatedAt x) then now else CreatedAt x) x).

Definition stamp_updated (now : Time) (x : t) : t := set_UpdatedAt now x.

#[global] Instance writable : gorm.Writable t := {|
  gorm.set_pk := set_ID;
  gorm.set_deleted_at := set_DeletedAt;
  gorm.stamp_created := stamp_created;
  gorm.stamp_updated := stamp_updated
|}.

End Taxi.

(** A driver's weekly report; [Status] is one of draft, submitted, approved, rejected. *)
Module WeeklyReport.

Record t : Type := mk {
  ID : N;
  TenantID : N;
  TaxiID : N;
  DriverID : N;
  WeekStartDate : Time;
  Earnings : float;
  TotalExpenses : float;
  Status : string;
  Notes : string;
  SubmittedAt : option Time;
  ApprovedAt : option Time;
  ApprovedByID : option N;
  CreatedAt : Time;
  UpdatedAt : Time;
  DeletedAt : option Time
}.

(** The zero value of the struct. *)
Definition zero : t :=
  mk 0%N 0%N 0%N 0%N 0 0%float 0%float EmptyString EmptyString None None None 0 0 None.

#[global] Instance model : gorm.Model t := {|
  gorm.pk := ID;
  gorm.deleted_at := DeletedAt
|}.

Definition set_ID (v : N) (x : t) : t :=
  mk v (TenantID x) (TaxiID x) (DriverID x) (WeekStartDate x) (Earnings x) (TotalExpenses x)
    (Status x) (Notes x) (SubmittedAt x) (ApprovedAt x) (ApprovedByID x) (CreatedAt x)
    (UpdatedAt x) (DeletedAt x).

Definition set_WeekStartDate (v : Time) (x : t) : t :=
  mk (ID x) (TenantID x) (TaxiID x) (DriverID x) v (Earnings x) (TotalExpenses x) (Status x)
    (Notes x) (SubmittedAt x) (ApprovedAt x) (ApprovedByID x) (CreatedAt x) (UpdatedAt x)
    (DeletedAt x).

Definition set_Earnings (v : float) (x : t) : t :=
  mk (ID x) (TenantID x) (TaxiID x) (DriverID x) (WeekStartDate x) v (TotalExpenses x) (Status x)
    (Notes x) (SubmittedAt x) (ApprovedAt x) (ApprovedByID x) (CreatedAt x) (UpdatedAt x)
    (DeletedAt x).

Definition set_Notes (v : string) (x : t) : t :=
  mk (ID x) (TenantID x) (TaxiID x) (DriverID x) (WeekStartDate x) (Earnings x) (TotalExpenses x)
    (Status x) v (SubmittedAt x) (ApprovedAt x) (ApprovedByID x) (CreatedAt x) (UpdatedAt x)
    (DeletedAt x).

Definition set_TotalExpenses (v : float) (x : t) : t :=
  mk (ID x) (TenantID x) (TaxiID x) (DriverID x) (WeekStartDate x) (Earnings x) v (Status x)
    (Notes x) (SubmittedAt x) (ApprovedAt x) (ApprovedByID x) (CreatedAt x) (UpdatedAt x)
    (DeletedAt x).

Definition set_Status (v : string) (x : t) : t :=
  mk (ID x) (TenantID x) (TaxiID x) (DriverID x) (WeekStartDate x) (Earnings x) (TotalExpenses x)
    v (Notes x) (SubmittedAt x) (ApprovedAt x) (ApprovedByID x) (CreatedAt x) (UpdatedAt x)
    (DeletedAt x).

Definition set_SubmittedAt (v : option Time) (x : t) : t :=
  mk (ID x) (TenantID x) (TaxiID x) (DriverID x) (WeekStartDate x) (Earnings x) (TotalExpenses x)
    (Status x) (Notes x) v (ApprovedAt x) (ApprovedByID x) (CreatedAt x) (UpdatedAt x)
    (DeletedAt x).

Definition set_ApprovedAt (v : option Time) (x : t) : t :=
  mk (ID x) (TenantID x) (TaxiID x) (DriverID x) (WeekStartDate x) (Earnings x) (TotalExpenses x)
    (Status x) (Notes x) (SubmittedAt x) v (ApprovedByID x) (CreatedAt x) (UpdatedAt x)
    (DeletedAt x).

Definition set_ApprovedByID (v : option N) (x : t) : t :=
  mk (ID x) (TenantID x) (TaxiID x) (DriverID x) (WeekStartDate x) (Earnings x) (TotalExpenses x)
    (Status x) (Notes x) (SubmittedAt x) (ApprovedAt x) v (CreatedAt x) (UpdatedAt x)
    (DeletedAt x).

Definition set_CreatedAt (v : Time) (x : t) : t :=
  mk (ID x) (TenantID x) (TaxiID x) (DriverID x) (WeekStartDate x) (Earnings x) (TotalExpenses x)
    (Status x) (Notes x) (SubmittedAt x) (ApprovedAt x) (ApprovedByID x) v (UpdatedAt x)
    (DeletedAt x).

Definition set_UpdatedAt (v : Time) (x : t) : t :=
  mk (ID x) (TenantID x) (TaxiID x) (DriverID x) (WeekStartDate x) (Earnings x) (TotalExpenses x)
    (Status x) (Notes x) (SubmittedAt x) (ApprovedAt x) (ApprovedByID x) (CreatedAt x) v
    (DeletedAt x).

Definition set_DeletedAt (v : option Time) (x : t) : t :=
  mk (ID x) (TenantID x) (TaxiID x) (DriverID x) (WeekStartDate x) (Earnings x) (TotalExpenses x)
    (Status x) (Notes x) (SubmittedAt x) (ApprovedAt x) (ApprovedByID x) (CreatedAt x)
    (UpdatedAt x) v.

(** GORM fills the timestamps that are still zero when it inserts, and
    refreshes [UpdatedAt] when it updates. *)
Definition stamp_created (now : Time) (x : t) : t :=
  set_UpdatedAt (if IsZero (UpdatedAt x) then now else UpdatedAt x)
    (set_CreatedAt (if IsZero (CreatedAt x) then now else CreatedAt x) x).

Definition stamp_updated (now : Time) (x : t) : t := set_UpdatedAt now x.

#[global] Instance writable : gorm.Writable t := {|
  gorm.set_pk := set_ID;
  gorm.set_deleted_at := set_DeletedAt;
  gorm.stamp_created := stamp_created;
  gorm.stamp_updated := stamp_updated
|}.

End WeeklyReport.

(** An expense entry, standalone or part of a report. *)
Module Expense.

Record t : Type := mk {
  ID : N;
  TenantID : N;
  ReportID : option N;
  TaxiID : option N;
  Category : string;
  Amount : float;
  Reason : string;
  ReceiptURL : string;
  Date : Time;
  CreatedByID : N;
  CreatedAt : Time;
  UpdatedAt : Time;
  DeletedAt : option Time
}.

(** The zero value of the struct. *)
Definition zero : t :=
  mk 0%N 0%N None None EmptyString 0%float EmptyString EmptyString 0 0%N 0 0 None.

#[global] Instance model : gorm.Model t := {|
  gorm.pk := ID;
  gorm.deleted_at := DeletedAt
|}.

Definition set_ID (v : N) (x : t) : t :=
  mk v (TenantID x) (ReportID x) (TaxiID x) (Category x) (Amount x) (Reason x) (ReceiptURL x)
    (Date x) (CreatedByID x) (CreatedAt x) (UpdatedAt x) (DeletedAt x).

Definition set_Category (v : string) (x : t) : t :=
  mk (ID x) (TenantID x) (ReportID x) (TaxiID x) v (Amount x) (Reason x) (ReceiptURL x) (Date x)
    (CreatedByID x) (CreatedAt x) (UpdatedAt x) (DeletedAt x).

Definition set_Amount (v : float) (x : t) : t :=
  mk (ID x) (TenantID x) (ReportID x) (TaxiID x) (Category x) v (Reason x) (ReceiptURL x)
    (Date x) (CreatedByID x) (CreatedAt x) (UpdatedAt x) (DeletedAt x).

Definition set_Reason (v : string) (x : t) : t :=
  mk (ID x) (TenantID x) (ReportID x) (TaxiID x) (Category x) (Amount x) v (ReceiptURL x)
    (Date x) (CreatedByID x) (CreatedAt x) (UpdatedAt x) (DeletedAt x).

Definition set_ReceiptURL (v : string) (x : t) : t :=
  mk (ID x) (TenantID x) (ReportID x) (TaxiID x) (Category x) (Amount x) (Reason x) v (Date x)
    (CreatedByID x) (CreatedAt x) (UpdatedAt x) (DeletedAt x).

Definition set_Date (v : Time) (x : t) : t :=
  mk (ID x) (TenantID x) (ReportID x) (TaxiID x) (Category x) (Amount x) (Reason x)
    (ReceiptURL x) v (CreatedByID x) (CreatedAt x) (UpdatedAt x) (DeletedAt x).

Definition set_CreatedAt (v : Time) (x : t) : t :=
  mk (ID x) (TenantID x) (ReportID x) (TaxiID x) (Category x) (Amount x) (Reason x)
    (ReceiptURL x) (Date x) (CreatedByID x) v (UpdatedAt x) (DeletedAt x).

Definition set_UpdatedAt (v : Time) (x : t) : t :=
  mk (ID x) (TenantID x) (ReportID x) (TaxiID x) (Category x) (Amount x) (Reason x)
    (ReceiptURL x) (Date x) (CreatedByID x) (CreatedAt x) v (DeletedAt x).

Definition set_DeletedAt (v : option Time) (x : t) : t :=
  mk (ID x) (TenantID x) (ReportID x) (TaxiID x) (Category x) (Amount x) (Reason x)
    (ReceiptURL x) (Date x) (CreatedByID x) (CreatedAt x) (UpdatedAt x) v.

(** GORM fills the timestamps that are still zero when it inserts, and
    refreshes [UpdatedAt] when it updates. *)
Definition stamp_created (now : Time) (x : t) : t :=
  set_UpdatedAt (if IsZero (UpdatedAt x) then now else UpdatedAt x)
    (set_CreatedAt (if IsZero (CreatedAt x) then now else CreatedAt x) x).

Definition stamp_updated (now : Time) (x : t) : t := set_UpdatedAt now x.

#[global] Instance writable : gorm.Writable t := {|
  gorm.set_pk := set_ID;
  gorm.set_deleted_at := set_DeletedAt;
  gorm.stamp_created := stamp_created;
  gorm.stamp_updated := stamp_updated
|}.

End Expense.

(** A bank deposit record. *)
Module BankDeposit.

Record t : Type := mk {
  ID : N;
  TenantID : N;
  Amount : float;
  DepositDate : Time;
  PeriodStart : Time;
  PeriodEnd : Time;
  BankAccount : string;
  ProofURL : string;
  Notes : string;
  CreatedAt : Time;
  UpdatedAt : Time;
  DeletedAt : option Time
}.

(** The zero value of the struct. *)
Definition zero : t :=
  mk 0%N 0%N 0%float 0 0 0 EmptyString EmptyString EmptyString 0 0 None.

#[global] Instance model : gorm.Model t := {|
  gorm.pk := ID;
  gorm.deleted_at := DeletedAt
|}.

Definition set_ID (v : N) (x : t) : t :=
  mk v (TenantID x) (Amount x) (DepositDate x) (PeriodStart x) (PeriodEnd x) (BankAccount x)
    (ProofURL x) (Notes x) (CreatedAt x) (UpdatedAt x) (DeletedAt x).

Definition set_Amount (v : float) (x : t) : t :=
  mk (ID x) (TenantID x) v (DepositDate x) (PeriodStart x) (PeriodEnd x) (BankAccount x)
    (ProofURL x) (Notes x) (CreatedAt x) (UpdatedAt x) (DeletedAt x).

Definition set_DepositDate (v : Time) (x : t) : t :=
  mk (ID x) (TenantID x) (Amount x) v (PeriodStart x) (PeriodEnd x) (BankAccount x) (ProofURL x)
    (Notes x) (CreatedAt x) (UpdatedAt x) (DeletedAt x).

Definition set_PeriodStart (v : Time) (x : t) : t :=
  mk (ID x) (TenantID x) (Amount x) (DepositDate x) v (PeriodEnd x) (BankAccount x) (ProofURL x)
    (Notes x) (CreatedAt x) (UpdatedAt x) (DeletedAt x).

Definition set_PeriodEnd (v : Time) (x : t) : t :=
  mk (ID x) (TenantID x) (Amount x) (DepositDate x) (PeriodStart x) v (BankAccount x)
    (ProofURL x) (Notes x) (CreatedAt x) (UpdatedAt x) (DeletedAt x).

Definition set_BankAccount (v : string) (x : t) : t :=
  mk (ID x) (TenantID x) (Amount x) (DepositDate x) (PeriodStart x) (PeriodEnd x) v (ProofURL x)
    (Notes x) (CreatedAt x) (UpdatedAt x) (DeletedAt x).

Definition set_ProofURL (v : string) (x : t) : t :=
  mk (ID x) (TenantID x) (Amount x) (DepositDate x) (PeriodStart x) (PeriodEnd x) (BankAccount x)
    v (Notes x) (CreatedAt x) (UpdatedAt x) (DeletedAt x).

Definition set_Notes (v : string) (x : t) : t :=
  mk (ID x) (TenantID x) (Amount x) (DepositDate x) (PeriodStart x) (PeriodEnd x) (BankAccount x)
    (ProofURL x) v (CreatedAt x) (UpdatedAt x) (DeletedAt x).

Definition set_CreatedAt (v : Time) (x : t) : t :=
  mk (ID x) (TenantID x) (Amount x) (DepositDate x) (PeriodStart x) (PeriodEnd x) (BankAccount x)
    (ProofURL x) (Notes x) v (UpdatedAt x) (DeletedAt x).

Definition set_UpdatedAt (v : Time) (x : t) : t :=
  mk (ID x) (TenantID x) (Amount x) (DepositDate x) (PeriodStart x) (PeriodEnd x) (BankAccount x)
    (ProofURL x) (Notes x) (CreatedAt x) v (DeletedAt x).

Definition set_DeletedAt (v : option Time) (x : t) : t :=
  mk (ID x) (TenantID x) (Amount x) (DepositDate x) (PeriodStart x) (PeriodEnd x) (BankAccount x)
    (ProofURL x) (Notes x) (CreatedAt x) (UpdatedAt x) v.

(** GORM fills the timestamps that are still zero when it inserts, and
    refreshes [UpdatedAt] when it updates. *)
Definition stamp_created (now : Time) (x : t) : t :=
  set_UpdatedAt (if IsZero (UpdatedAt x) then now else UpdatedAt x)
    (set_CreatedAt (if IsZero (CreatedAt x) then now else CreatedAt x) x).

Definition stamp_updated (now : Time) (x : t) : t := set_UpdatedAt now x.

#[global] Instance writable : gorm.Writable t := {|
  gorm.set_pk := set_ID;
  gorm.set_deleted_at := set_DeletedAt;
  gorm.stamp_created := stamp_created;
  gorm.stamp_updated := stamp_updated
|}.

End BankDeposit.

(** The database behind [Repository.db]. *)
Record DB : Type := mkDB {
  tenants : gorm.Table Tenant.t;
  users : gorm.Table User.t;
  sessions : gorm.Table Session.t;
  taxis : gorm.Table Taxi.t;
  weekly_reports : gorm.Table WeeklyReport.t;
  expenses : gorm.Table Expense.t;
  bank_deposits : gorm.Table BankDeposit.t
}.

Definition set_weekly_reports (t : gorm.Table WeeklyReport.t) (db : DB) : DB :=
  mkDB (tenants db) (users db) (sessions db) (taxis db) t (expenses db) (bank_deposits db).

Definition set_expenses (t : gorm.Table Expense.t) (db : DB) : DB :=
  mkDB (tenants db) (users db) (sessions db) (taxis db) (weekly_reports db) t (bank_deposits db).

Definition set_bank_deposits (t : gorm.Table BankDeposit.t) (db : DB) : DB :=
  mkDB (tenants db) (users db) (sessions db) (taxis db) (weekly_reports db) (expenses db) t.

(** *** The foreign keys of [migrations/001_initial_schema.up.sql]

    They are what the database checks when a row is written.  Column widths
    and the range of [DECIMAL(10, 2)] are not modelled: a row whose
    references resolve is accepted. *)

Definition references_opt {A : Type} `{gorm.Model A} (id : option N) (t : gorm.Table A) : bool :=
  match id with
  | None => true
  | Some i => gorm.references i t
  end.

Definition report_constraints (db : DB) (r : WeeklyReport.t) : bool :=
  gorm.references (WeeklyReport.TenantID r) (tenants db)
  && gorm.references (WeeklyReport.TaxiID r) (taxis db)
  && gorm.references (WeeklyReport.DriverID r) (users db)
  && references_opt (WeeklyReport.ApprovedByID r) (users db).

Definition expense_constraints (db : DB) (e : Expense.t) : bool :=
  gorm.references (Expense.TenantID e) (tenants db)
  && references_opt (Expense.ReportID e) (weekly_reports db)
  && references_opt (Expense.TaxiID e) (taxis db)
  && gorm.references (Expense.CreatedByID e) (users db).

Definition deposit_constraints (db : DB) (d : BankDeposit.t) : bool :=
  gorm.references (BankDeposit.TenantID d) (tenants db).

(** *** Methods of [Repository] *)

(** [var x T; err := db.First(&x, id).Error; return &x, err]: the zero struct
    comes back with the error, and the pointer is never nil. *)
Definition orZero {A : Type} (zero : A) (o : option A) : A * option error :=
  match o with
  | Some x => (x, None)
  | None => (zero, Some ErrRecordNotFound)
  end.

(** [ORDER BY key DESC]: insertion into a list kept in descending order. *)
Fixpoint insertDesc {A : Type} (key : A -> Z) (x : A) (l : list A) : list A :=
  match l with
  | [] => [x]
  | y :: rest => if key y <? key x then x :: l else y :: insertDesc key x rest
  end.

Definition orderDesc {A : Type} (key : A -> Z) (l : list A) : list A :=
  fold_right (insertDesc key) [] l.

Definition GetUserByID (id : N) (db : DB) : User.t * option error :=
  orZero User.zero (gorm.First id (users db)).

Definition GetTaxiByID (id : N) (db : DB) : Taxi.t * option error :=
  orZero Taxi.zero (gorm.First id (taxis db)).

Definition CreateReport (now : Time) (report : WeeklyReport.t) (db : DB)
  : DB * WeeklyReport.t * option error :=
  let '(t, report', err) := gorm.Create (report_constraints db report) now report (weekly_reports db) in
  (set_weekly_reports t db, report', err).

Definition GetReportByID (id : N) (db : DB) : WeeklyReport.t * option error :=
  orZero WeeklyReport.zero (gorm.First id (weekly_reports db)).

Definition GetReportsByTenant (tenantID : N) (db : DB) : list WeeklyReport.t * option error :=
  (orderDesc WeeklyReport.WeekStartDate
     (gorm.Where (fun r => (WeeklyReport.TenantID r =? tenantID)%N) (weekly_reports db)), None).

Definition GetReportsByDriver (driverID : N) (db : DB) : list WeeklyReport.t * option error :=
  (orderDesc WeeklyReport.WeekStartDate
     (gorm.Where (fun r => (WeeklyReport.DriverID r =? driverID)%N) (weekly_reports db)), None).

Definition UpdateReport (now : Time) (report : WeeklyReport.t) (db : DB)
  : DB * WeeklyReport.t * option error :=
  let '(t, report', err) := gorm.Save (report_constraints db report) now report (weekly_reports db) in
  (set_weekly_reports t db, report', err).

Definition DeleteReport (now : Time) (id : N) (db : DB) : DB * option error :=
  (set_weekly_reports (gorm.Delete now id (weekly_reports db)) db, None).

Definition CreateExpense (now : Time) (expense : Expense.t) (db : DB)
  : DB * Expense.t * option error :=
  let '(t, expense', err) := gorm.Create (expense_constraints db expense) now expense (expenses db) in
  (set_expenses t db, expense', err).

Definition GetExpenseByID (id : N) (db : DB) : Expense.t * option error :=
  orZero Expense.zero (gorm.First id (expenses db)).

Definition GetExpensesByTenant (tenantID : N) (db : DB) : list Expense.t * option error :=
  (orderDesc Expense.Date
     (gorm.Where (fun e => (Expense.TenantID e =? tenantID)%N) (expenses db)), None).

Definition linkedTo (reportID : N) (e : Expense.t) : bool :=
  match Expense.ReportID e with
  | Some r => (r =? reportID)%N
  | None => false
  end.

(** [WHERE report_id = ?], no [ORDER BY]. *)
Definition GetExpensesByReport (reportID : N) (db : DB) : list Expense.t * option error :=
  (gorm.Where (linkedTo reportID) (expenses db), None).

Definition UpdateExpense (now : Time) (expense : Expense.t) (db : DB)
  : DB * Expense.t * option error :=
  let '(t, expense', err) := gorm.Save (expense_constraints db expense) now expense (expenses db) in
  (set_expenses t db, expense', err).

Definition DeleteExpense (now : Time) (id : N) (db : DB) : DB * option error :=
  (set_expenses (gorm.Delete now id (expenses db)) db, None).

Definition CreateDeposit (now : Time) (deposit : BankDeposit.t) (db : DB)
  : DB * BankDeposit.t * option error :=
  let '(t, deposit', err) := gorm.Create (deposit_constraints db deposit) now deposit (bank_deposits db) in
  (set_bank_deposits t db, deposit', err).

Definition GetDepositByID (id : N) (db : DB) : BankDeposit.t * option error :=
  orZero BankDeposit.zero (gorm.First id (bank_deposits db)).

Definition GetDepositsByTenant (tenantID : N) (db : DB) : list BankDeposit.t * option error :=
  (orderDesc BankDeposit.DepositDate
     (gorm.Where (fun d => (BankDeposit.TenantID d =? tenantID)%N) (bank_deposits db)), None).

Definition UpdateDeposit (now : Time) (deposit : BankDeposit.t) (db : DB)
  : DB * BankDeposit.t * option error :=
  let '(t, deposit', err) := gorm.Save (deposit_constraints db deposit) now deposit (bank_deposits db) in
  (set_bank_deposits t db, deposit', err).

Definition DeleteDeposit (now : Time) (id : N) (db : DB) : DB * option error :=
  (set_bank_deposits (gorm.Delete now id (bank_deposits db)) db, None).

(** [WHERE token = ? AND expires_at > NOW()], first row by key. *)
Definition GetSessionByToken (token : string) (now : Time) (db : DB) : Session.t * option error :=
  orZero Session.zero
    (hd_error (gorm.Where (fun s => String.eqb (Session.Token s) token && (Session.ExpiresAt s >? now))
                 (sessions db))).

(** *** The remaining tables

    [taxis] has the foreign keys [tenant_id] and [assigned_driver_id];
    [sessions] has the foreign key [user_id] and [token TEXT NOT NULL UNIQUE];
    [tenants] has [subdomain VARCHAR(100) UNIQUE NOT NULL]; [users] has the
    foreign key [tenant_id], [UNIQUE (tenant_id, email)], the unique index
    on [phone] of migration 003, which leaves out the empty phone, and
    [permission INTEGER], a signed 32-bit column.  A unique index covers
    every row of its table, soft-deleted or not.

    The structs also carry the associations that [Preload] fills
    ([Taxi.AssignedDriver], [User.Tenant], [WeeklyReport.ApprovedBy], ...),
    which the model leaves out.  [Save] of a struct with a loaded
    association writes the association first and takes the foreign key
    from it, so the model of [Save] is exact for a struct whose foreign
    keys are the ones it was loaded with, or were empty then. *)

Definition set_tenants (t : gorm.Table Tenant.t) (db : DB) : DB :=
  mkDB t (users db) (sessions db) (taxis db) (weekly_reports db) (expenses db) (bank_deposits db).

Definition set_users (t : gorm.Table User.t) (db : DB) : DB :=
  mkDB (tenants db) t (sessions db) (taxis db) (weekly_reports db) (expenses db) (bank_deposits db).

Definition set_sessions (t : gorm.Table Session.t) (db : DB) : DB :=
  mkDB (tenants db) (users db) t (taxis db) (weekly_reports db) (expenses db) (bank_deposits db).

Definition set_taxis (t : gorm.Table Taxi.t) (db : DB) : DB :=
  mkDB (tenants db) (users db) (sessions db) t (weekly_reports db) (expenses db) (bank_deposits db).

Definition taxi_constraints (db : DB) (t : Taxi.t) : bool :=
  gorm.references (Taxi.TenantID t) (tenants db)
  && references_opt (Taxi.AssignedDriverID t) (users db).

Definition hasToken (token : string) (s : Session.t) : bool :=
  String.eqb (Session.Token s) token.

Definition session_constraints (db : DB) (s : Session.t) : bool :=
  gorm.references (Session.UserID s) (users db)
  && negb (existsb (hasToken (Session.Token s)) (gorm.rows (sessions db))).


Definition otherUser (u : User.t) (y : User.t) : bool := negb (User.ID y =? User.ID u)%N.


Definition user_constraints (db : DB) (u : User.t) : bool :=
  gorm.references (User.TenantID u) (tenants db)
  && negb (existsb (fun y => otherUser u y && (User.TenantID y =? User.TenantID u)%N
                             && String.eqb (User.Email y) (User.Email u))
             (gorm.rows (users db)))
  && (String.eqb (User.Phone u) ""
      || negb (existsb (fun y => otherUser u y && String.eqb (User.Phone y) (User.Phone u))
                 (gorm.rows (users db))))
  && ((- 2 ^ 31 <=? User.Permission u) && (User.Permission u <? 2 ^ 31)).

(** The tags [default:3] of [Permission] and [default:true] of [Active]: on
    insert GORM puts the default of the tag in place of the zero value of
    the field, in the row and in the struct.  ([Taxi.Status] and
    [Tenant.Settings] carry such a tag too; their services never insert the
    empty string there.) *)
Definition userDefaults (user : User.t) : User.t :=
  let user := if User.Permission user =? 0 then User.set_Permission 3 user else user in
  if User.Active user then user else User.set_Active true user.

Definition CreateUser (now : Time) (user : User.t) (db : DB) : DB * User.t * option error :=
  let user := userDefaults user in
  let '(t, user', err) := gorm.Create (user_constraints db user) now user (users db) in
  (set_users t db, user', err).

Definition GetUserByPhone (phone : string) (db : DB) : User.t * option error :=
  orZero User.zero (gorm.FirstWhere (fun u => String.eqb (User.Phone u) phone) (users db)).

Definition UpdateUser (now : Time) (user : User.t) (db : DB) : DB * User.t * option error :=
  let '(t, user', err) := gorm.Save (user_constraints db user) now user (users db) in
  (set_users t db, user', err).


Definition GetTenantByID (id : N) (db : DB) : Tenant.t * option error :=
  orZero Tenant.zero (gorm.First id (tenants db)).

Definition DeleteTenant (now : Time) (id : N) (db : DB) : DB * option error :=
  (set_tenants (gorm.Delete now id (tenants db)) db, None).

Definition GetUserByEmail (email : string) (db : DB) : User.t * option error :=
  orZero User.zero (gorm.FirstWhere (fun u => String.eqb (User.Email u) email) (users db)).

Definition DeleteUser (now : Time) (id : N) (db : DB) : DB * option error :=
  (set_users (gorm.Delete now id (users db)) db, None).

Definition CreateTaxi (now : Time) (taxi : Taxi.t) (db : DB) : DB * Taxi.t * option error :=
  let '(t, taxi', err) := gorm.Create (taxi_constraints db taxi) now taxi (taxis db) in
  (set_taxis t db, taxi', err).

(** [WHERE tenant_id = ?], no [ORDER BY]. *)
Definition GetTaxisByTenant (tenantID : N) (db : DB) : list Taxi.t * option error :=
  (gorm.Where (fun t => (Taxi.TenantID t =? tenantID)%N) (taxis db), None).

Definition UpdateTaxi (now : Time) (taxi : Taxi.t) (db : DB) : DB * Taxi.t * option error :=
  let '(t, taxi', err) := gorm.Save (taxi_constraints db taxi) now taxi (taxis db) in
  (set_taxis t db, taxi', err).

Definition DeleteTaxi (now : Time) (id : N) (db : DB) : DB * option error :=
  (set_taxis (gorm.Delete now id (taxis db)) db, None).

Definition CreateSession (now : Time) (session : Session.t) (db : DB)
  : DB * Session.t * option error :=
  let '(t, session', err) :=
    gorm.Create (session_constraints db session) now session (sessions db) in
  (set_sessions t db, session', err).

Definition DeleteSession (now : Time) (token : string) (db : DB) : DB * option error :=
  (set_sessions (gorm.DeleteWhere now (hasToken token) (sessions db)) db, None).

End repository.

(* ================================================================== *)
(** ** Package [service] *)
(* ================================================================== *)

(** A method returning a pointer and an error yields
    [(option T, option error)], with [None] for the nil pointer, next to the
    database it leaves behind. *)
Module service.

Import permissions repository.

(** [total := 0.0; for _, exp := range expenses { total += exp.Amount }] *)
Definition totalAmount (expenses : list Expense.t) : float :=
  fold_left (fun total exp => PrimFloat.add total (Expense.Amount exp)) expenses 0%float.

Module CreateReportRequest.
Record t : Type := mk {
  TaxiID : N;
  WeekStartDate : Time;
  Earnings : float;
  Notes : string
}.
End CreateReportRequest.

Module UpdateReportRequest.
Record t : Type := mk {
  WeekStartDate : Time;
  Earnings : float;
  Notes : string
}.
End UpdateReportRequest.

Module ReportService.

Definition Create (tenantID driverID : N) (req : CreateReportRequest.t) (now : Time) (db : DB)
  : DB * (option WeeklyReport.t * option error) :=
  let '(taxi, err) := GetTaxiByID (CreateReportRequest.TaxiID req) db in
  if negb (isNil err) then (db, (None, Some (New "taxi not found"))) else
  if negb (Taxi.TenantID taxi =? tenantID)%N then (db, (None, Some (New "taxi not found"))) else
  let report :=
    WeeklyReport.mk 0 tenantID (CreateReportRequest.TaxiID req) driverID
      (CreateReportRequest.WeekStartDate req) (CreateReportRequest.Earnings req)
      0%float "draft" (CreateReportRequest.Notes req) None None None 0 0 None in
  let '(db, report, err) := CreateReport now report db in
  match err with
  | Some e => (db, (None, Some e))
  | None =>
      let '(r, err) := GetReportByID (WeeklyReport.ID report) db in
      (db, (Some r, err))
  end.

Definition GetByID (id tenantID : N) (db : DB) : DB * (option WeeklyReport.t * option error) :=
  let '(report, err) := GetReportByID id db in
  match err with
  | Some e => (db, (None, Some e))
  | None =>
      if negb (WeeklyReport.TenantID report =? tenantID)%N
      then (db, (None, Some (New "report not found")))
      else (db, (Some report, None))
  end.

Definition List (g : Masks) (tenantID userID : N) (permission : Z) (db : DB)
  : DB * (list WeeklyReport.t * option error) :=
  if permission =? PermissionDriver g then (db, GetReportsByDriver userID db)
  else (db, GetReportsByTenant tenantID db).

Definition Update (g : Masks) (id tenantID driverID : N) (permission : Z)
    (req : UpdateReportRequest.t) (now : Time) (db : DB)
  : DB * (option WeeklyReport.t * option error) :=
  let '(report, err) := GetReportByID id db in
  match err with
  | Some e => (db, (None, Some e))
  | None =>
      if negb (WeeklyReport.TenantID report =? tenantID)%N
      then (db, (None, Some (New "report not found"))) else
      let hasEditPermission := HasPermission g permission PermissionEditReports in
      let refusal :=
        if negb hasEditPermission then
          if negb (WeeklyReport.DriverID report =? driverID)%N
          then Some (New "unauthorized")
          else if negb (String.eqb (WeeklyReport.Status report) "draft")
          then Some (New "can only edit draft reports")
          else None
        else
          if String.eqb (WeeklyReport.Status report) "approved"
          then Some (New "cannot edit approved reports")
          else None in
      if negb (isNil refusal) then (db, (None, refusal)) else
      let report :=
        if negb (IsZero (UpdateReportRequest.WeekStartDate req))
        then WeeklyReport.set_WeekStartDate (UpdateReportRequest.WeekStartDate req) report
        else report in
      let report :=
        if negb (PrimFloat.eqb (UpdateReportRequest.Earnings req) 0)
        then WeeklyReport.set_Earnings (UpdateReportRequest.Earnings req) report
        else report in
      let report :=
        if negb (String.eqb (UpdateReportRequest.Notes req) "")
        then WeeklyReport.set_Notes (UpdateReportRequest.Notes req) report
        else report in
      let '(expenses, _) := GetExpensesByReport (WeeklyReport.ID report) db in
      let total := totalAmount expenses in
      let report := WeeklyReport.set_TotalExpenses total report in
      let '(db, report, err) := UpdateReport now report db in
      match err with
      | Some e => (db, (None, Some e))
      | None =>
          let '(r, err) := GetReportByID (WeeklyReport.ID report) db in
          (db, (Some r, err))
      end
  end.

Definition Submit (id tenantID driverID : N) (now : Time) (db : DB)
  : DB * (option WeeklyReport.t * option error) :=
  let '(report, err) := GetReportByID id db in
  match err with
  | Some e => (db, (None, Some e))
  | None =>
      if negb (WeeklyReport.TenantID report =? tenantID)%N
      then (db, (None, Some (New "report not found"))) else
      if negb (WeeklyReport.DriverID report =? driverID)%N
      then (db, (None, Some (New "unauthorized"))) else
      if negb (String.eqb (WeeklyReport.Status report) "draft")
      then (db, (None, Some (New "report already submitted"))) else
      let report := WeeklyReport.set_Status "submitted" report in
      let report := WeeklyReport.set_SubmittedAt (Some now) report in
      let '(db, report, err) := UpdateReport now report db in
      match err with
      | Some e => (db, (None, Some e))
      | None =>
          let '(r, err) := GetReportByID (WeeklyReport.ID report) db in
          (db, (Some r, err))
      end
  end.

Definition Approve (g : Masks) (id tenantID approvedByID : N) (permission : Z) (now : Time) (db : DB)
  : DB * (option WeeklyReport.t * option error) :=
  if negb (HasAnyPermission g permission [PermissionOwner g; PermissionAdmin g])
  then (db, (None, Some (New "only owner or admin can approve reports"))) else
  let '(report, err) := GetReportByID id db in
  match err with
  | Some e => (db, (None, Some e))
  | None =>
      if negb (WeeklyReport.TenantID report =? tenantID)%N
      then (db, (None, Some (New "report not found"))) else
      if negb (String.eqb (WeeklyReport.Status report) "submitted")
      then (db, (None, Some (New "report must be submitted before approval"))) else
      let report := WeeklyReport.set_Status "approved" report in
      let report := WeeklyReport.set_ApprovedAt (Some now) report in
      let report := WeeklyReport.set_ApprovedByID (Some approvedByID) report in
      let '(db, report, err) := UpdateReport now report db in
      match err with
      | Some e => (db, (None, Some e))
      | None =>
          let '(r, err) := GetReportByID (WeeklyReport.ID report) db in
          (db, (Some r, err))
      end
  end.

Definition Reject (id tenantID : N) (now : Time) (db : DB)
  : DB * (option WeeklyReport.t * option error) :=
  let '(report, err) := GetReportByID id db in
  match err with
  | Some e => (db, (None, Some e))
  | None =>
      if negb (WeeklyReport.TenantID report =? tenantID)%N
      then (db, (None, Some (New "report not found"))) else
      if negb (String.eqb (WeeklyReport.Status report) "submitted")
      then (db, (None, Some (New "report must be submitted before rejection"))) else
      let report := WeeklyReport.set_Status "rejected" report in
      let '(db, report, err) := UpdateReport now report db in
      match err with
      | Some e => (db, (None, Some e))
      | None =>
          let '(r, err) := GetReportByID (WeeklyReport.ID report) db in
          (db, (Some r, err))
      end
  end.

Definition Delete (g : Masks) (id tenantID driverID : N) (permission : Z) (now : Time) (db : DB)
  : DB * option error :=
  let '(report, err) := GetReportByID id db in
  match err with
  | Some e => (db, Some e)
  | None =>
      if negb (WeeklyReport.TenantID report =? tenantID)%N
      then (db, Some (New "report not found")) else
      if HasAnyPermission g permission [PermissionOwner g; PermissionAdmin g]
      then DeleteReport now id db else
      if permission =? PermissionDriver g then
        if negb (WeeklyReport.DriverID report =? driverID)%N
        then (db, Some (New "unauthorized")) else
        if negb (String.eqb (WeeklyReport.Status report) "draft")
        then (db, Some (New "can only delete draft reports")) else
        DeleteReport now id db
      else (db, Some (New "unauthorized"))
  end.

End ReportService.

Module CreateExpenseRequest.
Record t : Type := mk {
  ReportID : option N;
  TaxiID : option N;
  Category : string;
  Amount : float;
  Reason : string;
  ReceiptURL : string;
  Date : string
}.
End CreateExpenseRequest.

Module UpdateExpenseRequest.
Record t : Type := mk {
  Category : string;
  Amount : float;
  Reason : string;
  ReceiptURL : string;
  Date : string
}.
End UpdateExpenseRequest.

Module ExpenseService.

Section WithTimeParse.

(** [time.Parse("2006-01-02", s)] of the standard library: the instant, or
    [None] when it reports an error (it then returns the zero time). *)
Variable time_Parse : string -> option Time.

Definition Create (tenantID createdByID : N) (req : CreateExpenseRequest.t) (now : Time) (db : DB)
  : DB * (option Expense.t * option error) :=
  let expense :=
    Expense.mk 0 tenantID (CreateExpenseRequest.ReportID req) (CreateExpenseRequest.TaxiID req)
      (CreateExpenseRequest.Category req) (CreateExpenseRequest.Amount req)
      (CreateExpenseRequest.Reason req) (CreateExpenseRequest.ReceiptURL req)
      0 createdByID 0 0 None in
  let date :=
    if negb (String.eqb (CreateExpenseRequest.Date req) "")
    then time_Parse (CreateExpenseRequest.Date req)
    else Some now in
  match date with
  | None => (db, (None, Some (New "invalid date format")))
  | Some date =>
      let expense := Expense.set_Date date expense in
      let '(db, expense, err) := CreateExpense now expense db in
      match err with
      | Some e => (db, (None, Some e))
      | None =>
          let db :=
            match CreateExpenseRequest.ReportID req with
            | Some reportID =>
                (* [report != nil] always holds: the repository returns the
                   address of its local struct. *)
                let '(report, _) := GetReportByID reportID db in
                if (WeeklyReport.TenantID report =? tenantID)%N then
                  let '(expenses, _) := GetExpensesByReport (WeeklyReport.ID report) db in
                  let total := totalAmount expenses in
                  let report := WeeklyReport.set_TotalExpenses total report in
                  let '(db, _, _) := UpdateReport now report db in
                  db
                else db
            | None => db
            end in
          let '(e, err) := GetExpenseByID (Expense.ID expense) db in
          (db, (Some e, err))
      end
  end.

Definition GetByID (id tenantID : N) (db : DB) : DB * (option Expense.t * option error) :=
  let '(expense, err) := GetExpenseByID id db in
  match err with
  | Some e => (db, (None, Some e))
  | None =>
      if negb (Expense.TenantID expense =? tenantID)%N
      then (db, (None, Some (New "expense not found")))
      else (db, (Some expense, None))
  end.

Definition List (tenantID : N) (db : DB) : DB * (list Expense.t * option error) :=
  (db, GetExpensesByTenant tenantID db).

Definition Update (id tenantID : N) (req : UpdateExpenseRequest.t) (now : Time) (db : DB)
  : DB * (option Expense.t * option error) :=
  let '(expense, err) := GetExpenseByID id db in
  match err with
  | Some e => (db, (None, Some e))
  | None =>
      if negb (Expense.TenantID expense =? tenantID)%N
      then (db, (None, Some (New "expense not found"))) else
      let expense :=
        if negb (String.eqb (UpdateExpenseRequest.Category req) "")
        then Expense.set_Category (UpdateExpenseRequest.Category req) expense
        else expense in
      let expense :=
        if negb (PrimFloat.eqb (UpdateExpenseRequest.Amount req) 0)
        then Expense.set_Amount (UpdateExpenseRequest.Amount req) expense
        else expense in
      let expense :=
        if negb (String.eqb (UpdateExpenseRequest.Reason req) "")
        then Expense.set_Reason (UpdateExpenseRequest.Reason req) expense
        else expense in
      let expense :=
        if negb (String.eqb (UpdateExpenseRequest.ReceiptURL req) "")
        then Expense.set_ReceiptURL (UpdateExpenseRequest.ReceiptURL req) expense
        else expense in
      let dated :=
        if negb (String.eqb (UpdateExpenseRequest.Date req) "") then
          match time_Parse (UpdateExpenseRequest.Date req) with
          | None => None
          | Some date => Some (Expense.set_Date date expense)
          end
        else Some expense in
      match dated with
      | None => (db, (None, Some (New "invalid date format")))
      | Some expense =>
          let '(db, expense, err) := UpdateExpense now expense db in
          match err with
          | Some e => (db, (None, Some e))
          | None =>
              let db :=
                match Expense.ReportID expense with
                | Some reportID =>
                    let '(report, _) := GetReportByID reportID db in
                    let '(expenses, _) := GetExpensesByReport (WeeklyReport.ID report) db in
                    let total := totalAmount expenses in
                    let report := WeeklyReport.set_TotalExpenses total report in
                    let '(db, _, _) := UpdateReport now report db in
                    db
                | None => db
                end in
              let '(e, err) := GetExpenseByID (Expense.ID expense) db in
              (db, (Some e, err))
          end
      end
  end.

Definition Delete (id tenantID : N) (now : Time) (db : DB) : DB * option error :=
  let '(expense, err) := GetExpenseByID id db in
  match err with
  | Some e => (db, Some e)
  | None =>
      if negb (Expense.TenantID expense =? tenantID)%N
      then (db, Some (New "expense not found")) else
      let reportID := Expense.ReportID expense in
      let '(db, err) := DeleteExpense now id db in
      match err with
      | Some e => (db, Some e)
      | None =>
          let db :=
            match reportID with
            | Some reportID =>
                let '(report, _) := GetReportByID reportID db in
                let '(expenses, _) := GetExpensesByReport (WeeklyReport.ID report) db in
                let total := totalAmount expenses in
                let report := WeeklyReport.set_TotalExpenses total report in
                let '(db, _, _) := UpdateReport now report db in
                db
            | None => db
            end in
          (db, None)
      end
  end.

End WithTimeParse.

End ExpenseService.

Module CreateDepositRequest.
Record t : Type := mk {
  Amount : float;
  DepositDate : string;
  PeriodStart : string;
  PeriodEnd : string;
  BankAccount : string;
  ProofURL : string;
  Notes : string
}.
End CreateDepositRequest.

Module UpdateDepositRequest.
Record t : Type := mk {
  Amount : float;
  DepositDate : string;
  PeriodStart : string;
  PeriodEnd : string;
  BankAccount : string;
  ProofURL : string;
  Notes : string
}.
End UpdateDepositRequest.

Module DepositService.

Section WithTimeParse.

Variable time_Parse : string -> option Time.

(** [t, _ := time.Parse("2006-01-02", s)]: the error is dropped and the zero
    time is used. *)
Definition parseOrZero (s : string) : Time :=
  match time_Parse s with
  | Some t => t
  | None => 0
  end.

Definition Create (tenantID : N) (req : CreateDepositRequest.t) (now : Time) (db : DB)
  : DB * (option BankDeposit.t * option error) :=
  let depositDate := parseOrZero (CreateDepositRequest.DepositDate req) in
  let periodStart := parseOrZero (CreateDepositRequest.PeriodStart req) in
  let periodEnd := parseOrZero (CreateDepositRequest.PeriodEnd req) in
  let deposit :=
    BankDeposit.mk 0 tenantID (CreateDepositRequest.Amount req) depositDate periodStart periodEnd
      (CreateDepositRequest.BankAccount req) (CreateDepositRequest.ProofURL req)
      (CreateDepositRequest.Notes req) 0 0 None in
  let '(db, deposit, err) := CreateDeposit now deposit db in
  match err with
  | Some e => (db, (None, Some e))
  | None =>
      let '(d, err) := GetDepositByID (BankDeposit.ID deposit) db in
      (db, (Some d, err))
  end.

Definition GetByID (id tenantID : N) (db : DB) : DB * (option BankDeposit.t * option error) :=
  let '(deposit, err) := GetDepositByID id db in
  match err with
  | Some e => (db, (None, Some e))
  | None =>
      if negb (BankDeposit.TenantID deposit =? tenantID)%N
      then (db, (None, Some (New "deposit not found")))
      else (db, (Some deposit, None))
  end.

Definition List (tenantID : N) (db : DB) : DB * (list BankDeposit.t * option error) :=
  (db, GetDepositsByTenant tenantID db).

Definition Update (id tenantID : N) (req : UpdateDepositRequest.t) (now : Time) (db : DB)
  : DB * (option BankDeposit.t * option error) :=
  let '(deposit, err) := GetDepositByID id db in
  match err with
  | Some e => (db, (None, Some e))
  | None =>
      if negb (BankDeposit.TenantID deposit =? tenantID)%N
      then (db, (None, Some (New "deposit not found"))) else
      let deposit :=
        if negb (PrimFloat.eqb (UpdateDepositRequest.Amount req) 0)
        then BankDeposit.set_Amount (UpdateDepositRequest.Amount req) deposit
        else deposit in
      let deposit :=
        if negb (String.eqb (UpdateDepositRequest.DepositDate req) "")
        then BankDeposit.set_DepositDate (parseOrZero (UpdateDepositRequest.DepositDate req)) deposit
        else deposit in
      let deposit :=
        if negb (String.eqb (UpdateDepositRequest.PeriodStart req) "")
        then BankDeposit.set_PeriodStart (parseOrZero (UpdateDepositRequest.PeriodStart req)) deposit
        else deposit in
      let deposit :=
        if negb (String.eqb (UpdateDepositRequest.PeriodEnd req) "")
        then BankDeposit.set_PeriodEnd (parseOrZero (UpdateDepositRequest.PeriodEnd req)) deposit
        else deposit in
      let deposit :=
        if negb (String.eqb (UpdateDepositRequest.BankAccount req) "")
        then BankDeposit.set_BankAccount (UpdateDepositRequest.BankAccount req) deposit
        else deposit in
      let deposit :=
        if negb (String.eqb (UpdateDepositRequest.ProofURL req) "")
        then BankDeposit.set_ProofURL (UpdateDepositRequest.ProofURL req) deposit
        else deposit in
      let deposit :=
        if negb (String.eqb (UpdateDepositRequest.Notes req) "")
        then BankDeposit.set_Notes (UpdateDepositRequest.Notes req) deposit
        else deposit in
      let '(db, deposit, err) := UpdateDeposit now deposit db in
      match err with
      | Some e => (db, (None, Some e))
      | None =>
          let '(d, err) := GetDepositByID (BankDeposit.ID deposit) db in
          (db, (Some d, err))
      end
  end.

Definition Delete (id tenantID : N) (now : Time) (db : DB) : DB * option error :=
  let '(deposit, err) := GetDepositByID id db in
  match err with
  | Some e => (db, Some e)
  | None =>
      if negb (BankDeposit.TenantID deposit =? tenantID)%N
      then (db, Some (New "deposit not found"))
      else DeleteDeposit now id db
  end.

End WithTimeParse.

End DepositService.

(** The part of [config.JWTConfig] the tokens depend on; durations are in
    the unit of [Time]. *)
Module JWTConfig.
Record t : Type := mk {
  Secret : string;
  Expiration : Z;
  RefreshExpiration : Z
}.
End JWTConfig.

(** The claims put in a token; [email] is absent from a refresh token. *)
Module MapClaims.
Record t : Type := mk {
  user_id : N;
  email : option string;
  permission : Z;
  iat : Z;
  exp : Z
}.
End MapClaims.

Module RegisterRequest.
Record t : Type := mk {
  Email : string;
  Password : string;
  FirstName : string;
  LastName : string;
  Phone : string;
  Role : string
}.
End RegisterRequest.

Module LoginRequest.
Record t : Type := mk {
  Email : string;
  Password : string
}.
End LoginRequest.

Module AuthResponse.
Record t : Type := mk {
  Token : string;
  RefreshToken : string;
  User : User.t
}.
End AuthResponse.

(** [err != gorm.ErrRecordNotFound] on an error that is not nil. *)
Definition isRecordNotFound (err : option error) : bool :=
  match err with
  | Some ErrRecordNotFound => true
  | _ => false
  end.

Module AuthService.

Section WithSigner.

(** [jwt.NewWithClaims(jwt.SigningMethodHS256, claims).SignedString(key)]:
    with an HMAC method and a byte-slice key the library reports no error. *)
Variable SignedString : MapClaims.t -> string -> string.

Variable cfg : JWTConfig.t.

Definition generateTokens (user : User.t) (now : Time) : string * string * option error :=
  let accessClaims :=
    MapClaims.mk (User.ID user) (Some (User.Email user)) (User.Permission user)
      now (now + JWTConfig.Expiration cfg) in
  let accessTokenString := SignedString accessClaims (JWTConfig.Secret cfg) in
  let refreshClaims :=
    MapClaims.mk (User.ID user) None (User.Permission user)
      now (now + JWTConfig.RefreshExpiration cfg) in
  let refreshTokenString := SignedString refreshClaims (JWTConfig.Secret cfg) in
  (accessTokenString, refreshTokenString, None).

Definition RefreshToken (refreshToken : string) (now : Time) (db : DB)
  : DB * (string * option error) :=
  let '(session, err) := GetSessionByToken refreshToken now db in
  if negb (isNil err) then (db, ("", Some (New "invalid refresh token"))) else
  let '(user, err) := GetUserByID (Session.UserID session) db in
  if negb (isNil err) then (db, ("", Some (New "user not found"))) else
  let '(token, _, err) := generateTokens user now in
  match err with
  | Some e => (db, ("", Some e))
  | None => (db, (token, None))
  end.

End WithSigner.

(** What [jwt.Parse] with the key function of [ValidateToken] reports: an
    error, which is or is not [jwt.ErrTokenExpired], or a token with its
    [Valid] flag and the number under the claim [user_id] converted by
    [uint(...)], if that claim is a number. *)
Inductive Parsed : Type :=
| ParseError (expired : bool)
| Token (Valid : bool) (user_id : option N).

(** [email[:len(email)-len("@example.com")]]: the slice expression panics
    when the email has fewer bytes than the suffix; [None] is the panic. *)
Definition generateSubdomain (email : string) : option string :=
  let n := (Z.of_nat (String.length email) - Z.of_nat (String.length "@example.com")) in
  if n <? 0 then None else Some (substring 0 (Z.to_nat n) email).

Section WithLibraries.

Variable SignedString : MapClaims.t -> string -> string.

(** [bcrypt.CompareHashAndPassword(hash, password) == nil]. *)
Variable CompareHashAndPassword : string -> string -> bool.

(** [bcrypt.GenerateFromPassword(password, bcrypt.DefaultCost)]. *)
Variable GenerateFromPassword : string -> string * option error.

(** [jwt.Parse(tokenString, keyFunc)] for a secret, at an instant. *)
Variable jwt_Parse : string -> string -> Time -> Parsed.

Variable cfg : JWTConfig.t.

(** The role masks the package [permissions] holds. *)
Variable g : Masks.


Definition Login (req : LoginRequest.t) (now : Time) (db : DB)
  : DB * (option AuthResponse.t * option error) :=
  let '(user, err) := GetUserByEmail (LoginRequest.Email req) db in
  if negb (isNil err) then (db, (None, Some (New "invalid credentials"))) else
  if negb (CompareHashAndPassword (User.PasswordHash user) (LoginRequest.Password req))
  then (db, (None, Some (New "invalid credentials"))) else
  if negb (User.Active user) then (db, (None, Some (New "user account is inactive"))) else
  let '(token, refreshToken, err) := generateTokens SignedString cfg user now in
  match err with
  | Some e => (db, (None, Some e))
  | None =>
      let session :=
        Session.mk 0 (User.ID user) refreshToken (now + JWTConfig.RefreshExpiration cfg) 0 None in
      let '(db, _, err) := CreateSession now session db in
      match err with
      | Some e => (db, (None, Some e))
      | None => (db, (Some (AuthResponse.mk token refreshToken user), None))
      end
  end.

Definition Logout (refreshToken : string) (now : Time) (db : DB) : DB * option error :=
  DeleteSession now refreshToken db.

Definition ValidateToken (tokenString : string) (now : Time) (db : DB)
  : DB * (option User.t * option error) :=
  match jwt_Parse tokenString (JWTConfig.Secret cfg) now with
  | ParseError expired =>
      if expired then (db, (None, Some (New "token expired")))
      else (db, (None, Some (New "invalid token")))
  | Token Valid user_id =>
      if negb Valid then (db, (None, Some (New "invalid token"))) else
      match user_id with
      | None => (db, (None, Some (New "invalid user ID in token")))
      | Some userID =>
          let '(user, err) := GetUserByID userID db in
          if negb (isNil err) then (db, (None, Some (New "user not found"))) else
          if negb (User.Active user) then (db, (None, Some (New "user account is inactive")))
          else (db, (Some user, None))
      end
  end.

End WithLibraries.

End AuthService.

Module CreateTaxiRequest.
Record t : Type := mk {
  LicensePlate : string;
  Model : string;
  Year : Z;
  Color : string;
  VIN : string;
  Status : string;
  AssignedDriverID : option N
}.
End CreateTaxiRequest.

Module UpdateTaxiRequest.
Record t : Type := mk {
  LicensePlate : string;
  Model : string;
  Year : Z;
  Color : string;
  VIN : string;
  Status : string;
  AssignedDriverID : option N
}.
End UpdateTaxiRequest.

Module TaxiService.

Definition Create (tenantID : N) (req : CreateTaxiRequest.t) (now : Time) (db : DB)
  : DB * (option Taxi.t * option error) :=
  let taxi :=
    Taxi.mk 0 tenantID (CreateTaxiRequest.LicensePlate req) (CreateTaxiRequest.Model req)
      (CreateTaxiRequest.Year req) (CreateTaxiRequest.Color req) (CreateTaxiRequest.VIN req)
      (CreateTaxiRequest.Status req) (CreateTaxiRequest.AssignedDriverID req) 0 0 None in
  let taxi :=
    if String.eqb (Taxi.Status taxi) "" then Taxi.set_Status "active" taxi else taxi in
  let '(db, taxi, err) := CreateTaxi now taxi db in
  match err with
  | Some e => (db, (None, Some e))
  | None =>
      let '(t, err) := GetTaxiByID (Taxi.ID taxi) db in
      (db, (Some t, err))
  end.

Definition GetByID (id tenantID : N) (db : DB) : DB * (option Taxi.t * option error) :=
  let '(taxi, err) := GetTaxiByID id db in
  match err with
  | Some e => (db, (None, Some e))
  | None =>
      if negb (Taxi.TenantID taxi =? tenantID)%N
      then (db, (None, Some (New "taxi not found")))
      else (db, (Some taxi, None))
  end.

Definition List (tenantID : N) (db : DB) : DB * (list Taxi.t * option error) :=
  (db, GetTaxisByTenant tenantID db).

Definition Update (id tenantID : N) (req : UpdateTaxiRequest.t) (now : Time) (db : DB)
  : DB * (option Taxi.t * option error) :=
  let '(taxi, err) := GetTaxiByID id db in
  match err with
  | Some e => (db, (None, Some e))
  | None =>
      if negb (Taxi.TenantID taxi =? tenantID)%N
      then (db, (None, Some (New "taxi not found"))) else
      let taxi :=
        if negb (String.eqb (UpdateTaxiRequest.LicensePlate req) "")
        then Taxi.set_LicensePlate (UpdateTaxiRequest.LicensePlate req) taxi else taxi in
      let taxi :=
        if negb (String.eqb (UpdateTaxiRequest.Model req) "")
        then Taxi.set_Model (UpdateTaxiRequest.Model req) taxi else taxi in
      let taxi :=
        if negb (UpdateTaxiRequest.Year req =? 0)
        then Taxi.set_Year (UpdateTaxiRequest.Year req) taxi else taxi in
      let taxi :=
        if negb (String.eqb (UpdateTaxiRequest.Color req) "")
        then Taxi.set_Color (UpdateTaxiRequest.Color req) taxi else taxi in
      let taxi :=
        if negb (String.eqb (UpdateTaxiRequest.VIN req) "")
        then Taxi.set_VIN (UpdateTaxiRequest.VIN req) taxi else taxi in
      let taxi :=
        if negb (String.eqb (UpdateTaxiRequest.Status req) "")
        then Taxi.set_Status (UpdateTaxiRequest.Status req) taxi else taxi in
      let taxi :=
        if negb (isNil (UpdateTaxiRequest.AssignedDriverID req))
        then Taxi.set_AssignedDriverID (UpdateTaxiRequest.AssignedDriverID req) taxi
        else taxi in
      let '(db, taxi, err) := UpdateTaxi now taxi db in
      match err with
      | Some e => (db, (None, Some e))
      | None =>
          let '(t, err) := GetTaxiByID (Taxi.ID taxi) db in
          (db, (Some t, err))
      end
  end.

Definition Delete (id tenantID : N) (now : Time) (db : DB) : DB * option error :=
  let '(taxi, err) := GetTaxiByID id db in
  match err with
  | Some e => (db, Some e)
  | None =>
      if negb (Taxi.TenantID taxi =? tenantID)%N
      then (db, Some (New "taxi not found"))
      else DeleteTaxi now id db
  end.

End TaxiService.

Module DashboardStats.
Record t : Type := mk {
  TotalTaxis : Z;
  ActiveDrivers : Z;
  PendingReports : Z;
  TotalRevenue : float;
  TotalExpenses : float;
  NetRevenue : float
}.
End DashboardStats.

Module DashboardService.

(** [m[k] = true] on a [map[uint]bool] that only ever stores [true]: the map
    is the list of its keys, each once. *)
Definition mapStore (k : N) (m : list N) : list N :=
  if existsb (N.eqb k) m then m else k :: m.

Definition GetStats (tenantID : N) (db : DB) : DB * (option DashboardStats.t * option error) :=
  let '(taxis, err) := GetTaxisByTenant tenantID db in
  match err with
  | Some e => (db, (None, Some e))
  | None =>
      let totalTaxis := Z.of_nat (List.length taxis) in
      let activeDriversMap :=
        fold_left
          (fun m taxi =>
             match Taxi.AssignedDriverID taxi with
             | Some driver =>
                 if String.eqb (Taxi.Status taxi) "active" then mapStore driver m else m
             | None => m
             end)
          taxis [] in
      let activeDrivers := Z.of_nat (List.length activeDriversMap) in
      let '(reports, err) := GetReportsByTenant tenantID db in
      match err with
      | Some e => (db, (None, Some e))
      | None =>
          let '(pendingReports, totalRevenue) :=
            fold_left
              (fun '(pendingReports, totalRevenue) report =>
                 (if String.eqb (WeeklyReport.Status report) "draft"
                  then pendingReports + 1 else pendingReports,
                  if String.eqb (WeeklyReport.Status report) "approved"
                  then PrimFloat.add totalRevenue (WeeklyReport.Earnings report)
                  else totalRevenue))
              reports (0, 0%float) in
          let '(expenses, err) := GetExpensesByTenant tenantID db in
          match err with
          | Some e => (db, (None, Some e))
          | None =>
              let totalExpenses := totalAmount expenses in
              let netRevenue := PrimFloat.sub totalRevenue totalExpenses in
              (db, (Some (DashboardStats.mk totalTaxis activeDrivers pendingReports
                            totalRevenue totalExpenses netRevenue), None))
          end
      end
  end.

End DashboardService.

Module CreateUserRequest.
Record t : Type := mk {
  TenantID : N;
  Email : string;
  Password : string;
  Permission : Z;
  FirstName : string;
  LastName : string;
  Phone : string;
  Active : bool
}.
End CreateUserRequest.

(** [Active] is a [*bool]: [None] when the request leaves it out. *)
Module UpdateUserRequest.
Record t : Type := mk {
  TenantID : N;
  Email : string;
  Password : string;
  Permission : Z;
  FirstName : string;
  LastName : string;
  Phone : string;
  Active : option bool
}.
End UpdateUserRequest.

Module AdminService.

Section WithBcrypt.

Variable GenerateFromPassword : string -> string * option error.

Definition hashPassword (password : string) : string * option error :=
  let '(hashedPassword, err) := GenerateFromPassword password in
  match err with
  | Some e => ("", Some e)
  | None => (hashedPassword, None)
  end.

Definition DeleteTenant (id : N) (now : Time) (db : DB) : DB * option error :=
  repository.DeleteTenant now id db.

Definition CreateUser (req : CreateUserRequest.t) (now : Time) (db : DB)
  : DB * (option User.t * option error) :=
  let '(_, err) := repository.GetTenantByID (CreateUserRequest.TenantID req) db in
  if negb (isNil err) then (db, (None, Some (New "tenant not found"))) else
  let '(_, err) := GetUserByEmail (CreateUserRequest.Email req) db in
  if isNil err then (db, (None, Some (New "email already exists"))) else
  if negb (isRecordNotFound err) then (db, (None, err)) else
  let '(_, err) := GetUserByPhone (CreateUserRequest.Phone req) db in
  if isNil err then (db, (None, Some (New "phone number already exists"))) else
  if negb (isRecordNotFound err) then (db, (None, err)) else
  let '(hashedPassword, err) := hashPassword (CreateUserRequest.Password req) in
  if negb (isNil err) then (db, (None, Some (New "failed to hash password"))) else
  let active := CreateUserRequest.Active req in
  let active := if negb active then true else active in
  let user :=
    User.mk 0 (CreateUserRequest.TenantID req) (CreateUserRequest.Email req) hashedPassword
      (CreateUserRequest.Permission req) (CreateUserRequest.FirstName req)
      (CreateUserRequest.LastName req) (CreateUserRequest.Phone req) active 0 0 None in
  let '(db, user, err) := repository.CreateUser now user db in
  match err with
  | Some e => (db, (None, Some e))
  | None =>
      let '(u, err) := GetUserByID (User.ID user) db in
      (db, (Some u, err))
  end.

(** The checks of [UpdateUser] return early; [inr] carries the error of an
    early return, [inl] the user as changed so far. *)
Definition UpdateUser (id : N) (req : UpdateUserRequest.t) (now : Time) (db : DB)
  : DB * (option User.t * option error) :=
  let '(user, err) := repository.GetUserByID id db in
  if negb (isNil err) then (db, (None, Some (New "user not found"))) else
  let step1 : User.t + error :=
    if negb (UpdateUserRequest.TenantID req =? 0)%N then
      let '(_, err) := repository.GetTenantByID (UpdateUserRequest.TenantID req) db in
      if negb (isNil err) then inr (New "tenant not found")
      else inl (User.set_TenantID (UpdateUserRequest.TenantID req) user)
    else inl user in
  match step1 with
  | inr e => (db, (None, Some e))
  | inl user =>
  let step2 : User.t + error :=
    if negb (String.eqb (UpdateUserRequest.Email req) "") then
      if negb (String.eqb (User.Email user) (UpdateUserRequest.Email req)) then
        let '(_, err) := GetUserByEmail (UpdateUserRequest.Email req) db in
        if isNil err then inr (New "email already exists")
        else if negb (isRecordNotFound err)
        then match err with Some e => inr e | None => inl user end
        else inl (User.set_Email (UpdateUserRequest.Email req) user)
      else inl user
    else inl user in
  match step2 with
  | inr e => (db, (None, Some e))
  | inl user =>
  let step3 : option error :=
    if negb (String.eqb (UpdateUserRequest.Phone req) "")
       && negb (String.eqb (User.Phone user) (UpdateUserRequest.Phone req)) then
      let '(_, err) := GetUserByPhone (UpdateUserRequest.Phone req) db in
      if isNil err then Some (New "phone number already exists")
      else if negb (isRecordNotFound err) then err
      else None
    else None in
  match step3 with
  | Some e => (db, (None, Some e))
  | None =>
  let step4 : User.t + error :=
    if negb (String.eqb (UpdateUserRequest.Password req) "") then
      let '(hashedPassword, err) := hashPassword (UpdateUserRequest.Password req) in
      if negb (isNil err) then inr (New "failed to hash password")
      else inl (User.set_PasswordHash hashedPassword user)
    else inl user in
  match step4 with
  | inr e => (db, (None, Some e))
  | inl user =>
      let user :=
        if negb (UpdateUserRequest.Permission req =? 0)
        then User.set_Permission (UpdateUserRequest.Permission req) user else user in
      let user :=
        if negb (String.eqb (UpdateUserRequest.FirstName req) "")
        then User.set_FirstName (UpdateUserRequest.FirstName req) user else user in
      let user :=
        if negb (String.eqb (UpdateUserRequest.LastName req) "")
        then User.set_LastName (UpdateUserRequest.LastName req) user else user in
      let user :=
        if negb (String.eqb (UpdateUserRequest.Phone req) "")
        then User.set_Phone (UpdateUserRequest.Phone req) user else user in
      let user :=
        match UpdateUserRequest.Active req with
        | Some active => User.set_Active active user
        | None => user
        end in
      let '(db, user, err) := repository.UpdateUser now user db in
      match err with
      | Some e => (db, (None, Some e))
      | None =>
          let '(u, err) := repository.GetUserByID (User.ID user) db in
          (db, (Some u, err))
      end
  end
  end
  end
  end.

End WithBcrypt.

Definition DeleteUser (id : N) (now : Time) (db : DB) : DB * option error :=
  repository.DeleteUser now id db.

End AdminService.

End service.

(* ================================================================== *)
(** ** Package [strings] of the standard library *)
(* ================================================================== *)

From Stdlib Require Import Ascii.

Module strings.

(** [strings.Split(s, sep)] for a separator of one byte: the pieces between
    the separators, one more than there are separators. *)
Fixpoint Split (s : string) (sep : ascii) : list string :=
  match s with
  | EmptyString => [EmptyString]
  | String c rest =>
      if Ascii.eqb c sep then EmptyString :: Split rest sep
      else
        match Split rest sep with
        | piece :: pieces => String c piece :: pieces
        | [] => [String c EmptyString]
        end
  end.

End strings.

(* ================================================================== *)
(** ** Package [middleware] *)
(* ================================================================== *)

(** A handler of the chain either aborts the request with a status and the
    error it puts in the JSON body, or hands the context on ([c.Next()]);
    [Panic] is the run-time panic of a nil pointer dereference. *)
Module middleware.

Import permissions repository service.

(** The keys the middleware stores in the [gin.Context]. *)
Module Context.
Record t : Type := mk {
  user : option User.t;
  userID : option N;
  tenantID : option N;
  permission : option Z
}.

Definition empty : t := mk None None None None.
End Context.

Inductive outcome : Type :=
| Abort (status : Z) (err : error)
| Next (c : Context.t)
| Panic.

Definition StatusUnauthorized : Z := 401.
Definition StatusForbidden : Z := 403.
Definition StatusInternalServerError : Z := 500.
Definition StatusOK : Z := 200.

Section WithAuthService.

Variable jwt_Parse : string -> string -> Time -> AuthService.Parsed.
Variable cfg : JWTConfig.t.

Definition Auth (authHeader : string) (now : Time) (db : DB) (c : Context.t) : outcome :=
  if String.eqb authHeader ""
  then Abort StatusUnauthorized (New "Authorization header required") else
  let parts := strings.Split authHeader " "%char in
  match parts with
  | [scheme; token] =>
      if negb (String.eqb scheme "Bearer")
      then Abort StatusUnauthorized (New "Invalid authorization header format") else
      if String.eqb token "" then Abort StatusUnauthorized (New "Token is empty") else
      let '(_, (user, err)) := AuthService.ValidateToken jwt_Parse cfg token now db in
      match err, user with
      | Some e, _ => Abort StatusUnauthorized e
      | None, Some user =>
          Next (Context.mk (Some user) (Some (User.ID user)) (Some (User.TenantID user))
                  (Some (User.Permission user)))
      | None, None => Panic
      end
  | _ => Abort StatusUnauthorized (New "Invalid authorization header format")
  end.

End WithAuthService.

Fixpoint hasPermissionLoop (g : Masks) (userPermission : Z) (requiredPermissions : list Z) : bool :=
  match requiredPermissions with
  | [] => false
  | perm :: rest =>
      if HasPermission g userPermission perm then true
      else hasPermissionLoop g userPermission rest
  end.

(** The key [user] is only ever set by [Auth], to a [*repository.User]; the
    branch of the failed type assertion ("Invalid user object") has no
    counterpart in a context whose [user] is typed. *)
Definition RequirePermission (g : Masks) (requiredPermissions : list Z) (c : Context.t) : outcome :=
  match Context.user c with
  | None => Abort StatusUnauthorized (New "User not authenticated")
  | Some userObj =>
      if negb (hasPermissionLoop g (User.Permission userObj) requiredPermissions)
      then Abort StatusForbidden (New "Insufficient permissions")
      else Next c
  end.

Definition RequireRole (g : Masks) (roles : list string) (c : Context.t) : outcome :=
  RequirePermission g (map (GetPermissionForRole g) roles) c.

End middleware.

(* ================================================================== *)
(** ** Package [handlers] *)
(* ================================================================== *)

(** A handler answers with a status and either the error of the JSON body or
    the value it serialises. *)
Module handlers.

Import permissions repository service.

Inductive response (A : Type) : Type :=
| Error (status : Z) (err : error)
| JSON (status : Z) (body : A).
Arguments Error {A} _ _.
Arguments JSON {A} _ _.

Module DashboardHandler.

(** [tenantID] and [permission] are the values [Auth] stored in the
    context. *)
Definition GetStats (g : Masks) (tenantID : N) (permission : Z) (db : DB)
  : DB * response (option DashboardStats.t) :=
  let userPerm := permission in
  let refused :=
    if (userPerm =? -1) || (userPerm =? PermissionAdmin g) then false
    else
      let hasFinancialAccess :=
        HasPermission g userPerm PermissionViewDeposits
        || HasPermission g userPerm PermissionViewExpenses in
      negb hasFinancialAccess in
  if refused
  then (db, Error middleware.StatusForbidden (New "You don't have permission to view dashboard"))
  else
    let '(db, (stats, err)) := DashboardService.GetStats tenantID db in
    match err with
    | Some e => (db, Error middleware.StatusInternalServerError e)
    | None => (db, JSON middleware.StatusOK stats)
    end.

End DashboardHandler.

End handlers.

(* ================================================================== *)
(** * Vocabulary of the specification *)
(* ================================================================== *)

Module spec.

Import permissions repository service.

(** The admin sentinel is the mask with all of its 32 bits set.  Read as a
    signed 32-bit integer it is [-1], read as an unsigned one it is
    [0xFFFFFFFF]; both have the 32 bits set. *)
Definition adminSentinel (m : Z) : Prop :=
  forall i, 0 <= i < 32 -> Z.testbit m i = true.

(** A mask that fits in 32 bits, in either reading. *)
Definition mask32 (m : Z) : Prop := - 2 ^ 31 <= m < 2 ^ 32.

(** Every bit of [p] is set in [m]. *)
Definition bitsSet (p m : Z) : Prop :=
  forall i, 0 <= i -> Z.testbit p i = true -> Z.testbit m i = true.

(** A single permission bit. *)
Definition singleBit (p : Z) : Prop := exists k, 0 <= k /\ p = 2 ^ k.

(** The report as [ReportService.Update] writes it: the request fields that
    are not zero, then the recomputed total. *)
Definition editedReport (req : UpdateReportRequest.t) (total : float) (r : WeeklyReport.t)
  : WeeklyReport.t :=
  let r1 := if negb (IsZero (UpdateReportRequest.WeekStartDate req))
            then WeeklyReport.set_WeekStartDate (UpdateReportRequest.WeekStartDate req) r else r in
  let r2 := if negb (PrimFloat.eqb (UpdateReportRequest.Earnings req) 0)
            then WeeklyReport.set_Earnings (UpdateReportRequest.Earnings req) r1 else r1 in
  let r3 := if negb (String.eqb (UpdateReportRequest.Notes req) "")
            then WeeklyReport.set_Notes (UpdateReportRequest.Notes req) r2 else r2 in
  WeeklyReport.set_TotalExpenses total r3.

(** The expense as [ExpenseService.Update] writes it, or [None] when the
    date of the request does not parse. *)
Definition editedExpense (time_Parse : string -> option Time)
    (req : UpdateExpenseRequest.t) (e : Expense.t) : option Expense.t :=
  let e1 := if negb (String.eqb (UpdateExpenseRequest.Category req) "")
            then Expense.set_Category (UpdateExpenseRequest.Category req) e else e in
  let e2 := if negb (PrimFloat.eqb (UpdateExpenseRequest.Amount req) 0)
            then Expense.set_Amount (UpdateExpenseRequest.Amount req) e1 else e1 in
  let e3 := if negb (String.eqb (UpdateExpenseRequest.Reason req) "")
            then Expense.set_Reason (UpdateExpenseRequest.Reason req) e2 else e2 in
  let e4 := if negb (String.eqb (UpdateExpenseRequest.ReceiptURL req) "")
            then Expense.set_ReceiptURL (UpdateExpenseRequest.ReceiptURL req) e3 else e3 in
  if negb (String.eqb (UpdateExpenseRequest.Date req) "") then
    match time_Parse (UpdateExpenseRequest.Date req) with
    | None => None
    | Some date => Some (Expense.set_Date date e4)
    end
  else Some e4.


(** The recalculation that [ExpenseService.Update] and [ExpenseService.Delete]
    run for the report an expense belongs to ([report != nil] always holds
    there, the repository returns the address of its local struct). *)
Definition refreshReportTotal (reportID : option N) (now : Time) (db : DB) : DB :=
  match reportID with
  | Some reportID =>
      let '(report, _) := GetReportByID reportID db in
      let '(expenses, _) := GetExpensesByReport (WeeklyReport.ID report) db in
      let total := totalAmount expenses in
      let report := WeeklyReport.set_TotalExpenses total report in
      let '(db, _, _) := UpdateReport now report db in
      db
  | None => db
  end.

(** Why [ReportService.Update] refuses, if it does. *)
Definition updateRefusal (g : Masks) (permission : Z) (driverID : N) (r : WeeklyReport.t)
  : option error :=
  if negb (HasPermission g permission PermissionEditReports) then
    if negb (WeeklyReport.DriverID r =? driverID)%N
    then Some (New "unauthorized")
    else if negb (String.eqb (WeeklyReport.Status r) "draft")
    then Some (New "can only edit draft reports")
    else None
  else
    if String.eqb (WeeklyReport.Status r) "approved"
    then Some (New "cannot edit approved reports")
    else None.

(** A session that backs the refresh token [token] at the instant [now]. *)
Definition validSession (db : DB) (token : string) (now : Time) (s : Session.t) : Prop :=
  In s (gorm.rows (sessions db))
  /\ Session.DeletedAt s = None
  /\ Session.Token s = token
  /\ now < Session.ExpiresAt s.

(** The claims of the access token issued to [u] at [now]. *)
Definition accessClaims (cfg : JWTConfig.t) (u : User.t) (now : Time) : MapClaims.t :=
  MapClaims.mk (User.ID u) (Some (User.Email u)) (User.Permission u)
    now (now + JWTConfig.Expiration cfg).

(** The keys of a table were handed out by its sequence, which starts at 1. *)
Definition keysWithin {A : Type} `{gorm.Model A} (t : gorm.Table A) : bool :=
  forallb (fun x => (0 <? gorm.pk x)%N && (gorm.pk x <=? gorm.seq t)%N) (gorm.rows t).

Fixpoint distinct (l : list N) : bool :=
  match l with
  | [] => true
  | k :: rest => negb (existsb (N.eqb k) rest) && distinct rest
  end.

(** The primary key is unique. *)
Definition uniqueKeys {A : Type} `{gorm.Model A} (t : gorm.Table A) : bool :=
  distinct (map gorm.pk (gorm.rows t)).

(** What the schema guarantees of a database, as far as the report and
    expense services rely on it: keys come from the sequences, expense keys
    are unique, and the foreign keys of reports and expenses resolve. *)
Definition integrity (db : DB) : bool :=
  keysWithin (tenants db)
  && keysWithin (weekly_reports db)
  && keysWithin (expenses db)
  && uniqueKeys (expenses db)
  && forallb (report_constraints db) (gorm.rows (weekly_reports db))
  && forallb (expense_constraints db) (gorm.rows (expenses db)).






(** The operations of the report service and of the expense service. *)
Inductive call : Type :=
| ReportCreate (tenantID driverID : N) (req : CreateReportRequest.t)
| ReportGetByID (id tenantID : N)
| ReportList (tenantID userID : N) (permission : Z)
| ReportUpdate (id tenantID driverID : N) (permission : Z) (req : UpdateReportRequest.t)
| ReportSubmit (id tenantID driverID : N)
| ReportApprove (id tenantID approvedByID : N) (permission : Z)
| ReportReject (id tenantID : N)
| ReportDelete (id tenantID driverID : N) (permission : Z)
| ExpenseCreate (tenantID createdByID : N) (req : CreateExpenseRequest.t)
| ExpenseGetByID (id tenantID : N)
| ExpenseList (tenantID : N)
| ExpenseUpdate (id tenantID : N) (req : UpdateExpenseRequest.t)
| ExpenseDelete (id tenantID : N).

(** The database an operation leaves behind, whether it returns an error or
    not. *)
Definition after (g : Masks) (time_Parse : string -> option Time)
    (c : call) (now : Time) (db : DB) : DB :=
  match c with
  | ReportCreate tenantID driverID req =>
      fst (ReportService.Create tenantID driverID req now db)
  | ReportGetByID id tenantID => fst (ReportService.GetByID id tenantID db)
  | ReportList tenantID userID permission =>
      fst (ReportService.List g tenantID userID permission db)
  | ReportUpdate id tenantID driverID permission req =>
      fst (ReportService.Update g id tenantID driverID permission req now db)
  | ReportSubmit id tenantID driverID => fst (ReportService.Submit id tenantID driverID now db)
  | ReportApprove id tenantID approvedByID permission =>
      fst (ReportService.Approve g id tenantID approvedByID permission now db)
  | ReportReject id tenantID => fst (ReportService.Reject id tenantID now db)
  | ReportDelete id tenantID driverID permission =>
      fst (ReportService.Delete g id tenantID driverID permission now db)
  | ExpenseCreate tenantID createdByID req =>
      fst (ExpenseService.Create time_Parse tenantID createdByID req now db)
  | ExpenseGetByID id tenantID => fst (ExpenseService.GetByID id tenantID db)
  | ExpenseList tenantID => fst (ExpenseService.List tenantID db)
  | ExpenseUpdate id tenantID req =>
      fst (ExpenseService.Update time_Parse id tenantID req now db)
  | ExpenseDelete id tenantID => fst (ExpenseService.Delete id tenantID now db)
  end.


(** The laws the key, the soft-delete mark and the timestamps obey in every
    model struct. *)
Class Lawful (A : Type) `{gorm.Writable A} : Prop := {
  pk_set_pk : forall id x, gorm.pk (gorm.set_pk id x) = id;
  deleted_set_pk : forall id x, gorm.deleted_at (gorm.set_pk id x) = gorm.deleted_at x;
  pk_set_deleted : forall d x, gorm.pk (gorm.set_deleted_at d x) = gorm.pk x;
  deleted_set_deleted : forall d x, gorm.deleted_at (gorm.set_deleted_at d x) = d;
  pk_stamp_created : forall now x, gorm.pk (gorm.stamp_created now x) = gorm.pk x;
  deleted_stamp_created :
    forall now x, gorm.deleted_at (gorm.stamp_created now x) = gorm.deleted_at x;
  pk_stamp_updated : forall now x, gorm.pk (gorm.stamp_updated now x) = gorm.pk x;
  deleted_stamp_updated :
    forall now x, gorm.deleted_at (gorm.stamp_updated now x) = gorm.deleted_at x
}.

End spec.

(* ================================================================== *)
(** * A small fleet used to run the operations *)
(* ================================================================== *)

Module fleet.

Import permissions repository service.

(** Tenant 1 has an owner (user 1) and two drivers (users 2 and 3) with the
    plain driver mask; tenant 2 has one owner (user 4). *)
Definition tenantRows : list Tenant.t :=
  [Tenant.mk 1 "Gnakpa Transport" "gnakpa-transport" "" "{}" 10 10 None;
   Tenant.mk 2 "Other Cabs" "other-cabs" "" "{}" 10 10 None].

Definition userRows : list User.t :=
  [User.mk 1 1 "owner@t1" "h1" 0xFFFFF "Tanguy" "Gnakpa" "+1 1" true 10 10 None;
   User.mk 2 1 "driver@t1" "h2" 3 "Test" "Driver" "+1 2" true 10 10 None;
   User.mk 3 1 "second@t1" "h3" 3 "Second" "Driver" "+1 3" true 10 10 None;
   User.mk 4 2 "owner@t2" "h4" 0xFFFFF "Other" "Owner" "+1 4" true 10 10 None].

Definition taxiRows : list Taxi.t :=
  [Taxi.mk 1 1 "ABC-123" "Toyota Camry" 2020 "White" "" "active" (Some 2%N) 10 10 None;
   Taxi.mk 2 2 "XYZ-789" "Honda Accord" 2021 "Black" "" "active" None 10 10 None].

(** Reports of driver 2 in tenant 1 in each state of the lifecycle, and a
    draft of tenant 2. *)
Definition reportRows : list WeeklyReport.t :=
  [WeeklyReport.mk 1 1 1 2 100 500 0 "draft" "" None None None 20 20 None;
   WeeklyReport.mk 2 1 1 2 107 450 0 "submitted" "" (Some 30) None None 21 30 None;
   WeeklyReport.mk 3 1 1 2 114 400 0 "approved" "" (Some 31) (Some 40) (Some 1%N) 22 40 None;
   WeeklyReport.mk 4 2 2 4 100 300 0 "draft" "" None None None 23 23 None].

Definition depositRows : list BankDeposit.t :=
  [BankDeposit.mk 1 1 1000 200 100 107 "ACC-1" "" "" 50 50 None].

Definition sessionRows : list Session.t :=
  [Session.mk 1 2 "refresh-2" 1000 60 None;
   Session.mk 2 3 "refresh-3" 1000 61 None].

(** The same fleet after driver 3 was removed by the administrator: the
    soft delete of the user leaves the session behind. *)
Definition userRowsAfterRemoval : list User.t :=
  [User.mk 1 1 "owner@t1" "h1" 0xFFFFF "Tanguy" "Gnakpa" "+1 1" true 10 10 None;
   User.mk 2 1 "driver@t1" "h2" 3 "Test" "Driver" "+1 2" true 10 10 None;
   User.mk 3 1 "second@t1" "h3" 3 "Second" "Driver" "+1 3" true 10 10 (Some 65);
   User.mk 4 2 "owner@t2" "h4" 0xFFFFF "Other" "Owner" "+1 4" true 10 10 None].

(** A stand-in for the HS256 signer and the token configuration. *)
Definition sign (claims : MapClaims.t) (secret : string) : string :=
  (secret ++ ":" ++ match MapClaims.email claims with Some e => e | None => "" end)%string.

Definition jwt : JWTConfig.t := JWTConfig.mk "secret" 900 604800.

Definition db0 : DB :=
  mkDB (gorm.mkTable tenantRows 2) (gorm.mkTable userRows 4)
       (gorm.mkTable sessionRows 2) (gorm.mkTable taxiRows 2)
       (gorm.mkTable reportRows 4) (gorm.mkTable [] 0) (gorm.mkTable depositRows 1).

Definition dbAfterRemoval : DB :=
  mkDB (tenants db0) (gorm.mkTable userRowsAfterRemoval 4) (sessions db0) (taxis db0)
       (weekly_reports db0) (expenses db0) (bank_deposits db0).

(** A stand-in for [time.Parse("2006-01-02", _)] that knows one date. *)
Definition parse (s : string) : option Time :=
  if String.eqb s "2024-01-15" then Some 1705276800 else None.

End fleet.

(* ================================================================== *)
(** * Vocabulary of the further properties *)
(* ================================================================== *)

From Stdlib Require Import Permutation.

Module notions.

Import permissions repository service.

(** The byte [c] occurs in [s]. *)
Fixpoint hasByte (c : ascii) (s : string) : bool :=
  match s with
  | EmptyString => false
  | String d rest => Ascii.eqb d c || hasByte c rest
  end.

(** The context [middleware.Auth] hands on for the user [u]. *)
Definition contextOf (u : User.t) : middleware.Context.t :=
  middleware.Context.mk (Some u) (Some (User.ID u)) (Some (User.TenantID u))
    (Some (User.Permission u)).

(** The claims of the refresh token issued to [u] at [now]. *)
Definition refreshClaims (cfg : JWTConfig.t) (u : User.t) (now : Time) : MapClaims.t :=
  MapClaims.mk (User.ID u) None (User.Permission u)
    now (now + JWTConfig.RefreshExpiration cfg).

(** One step of the report lifecycle. *)
Definition advances (s s' : string) : Prop :=
  (s = "draft" /\ s' = "submitted")
  \/ (s = "submitted" /\ (s' = "approved" \/ s' = "rejected")).

(** [r'] is a later state of the report [r]: the same key, tenant, taxi and
    driver, not deleted, and a status that is the same or one step further. *)
Definition laterState (r r' : WeeklyReport.t) : Prop :=
  WeeklyReport.ID r' = WeeklyReport.ID r
  /\ WeeklyReport.TenantID r' = WeeklyReport.TenantID r
  /\ WeeklyReport.TaxiID r' = WeeklyReport.TaxiID r
  /\ WeeklyReport.DriverID r' = WeeklyReport.DriverID r
  /\ (WeeklyReport.Status r' = WeeklyReport.Status r
      \/ advances (WeeklyReport.Status r) (WeeklyReport.Status r')).

(** The database a report operation leaves: the one it found, or the result
    of one [UpdateReport] of a later state of the report of key [id]. *)
Definition lifecycleWrite (id : N) (now : Time) (db db' : DB) : Prop :=
  db' = db
  \/ exists r x,
       gorm.First id (weekly_reports db) = Some r
       /\ laterState r x
       /\ db' = fst (fst (UpdateReport now x db)).

(** The keys do not increase along the list. *)
Fixpoint descending {A : Type} (key : A -> Z) (l : list A) : Prop :=
  match l with
  | [] => True
  | x :: rest => (forall y, In y rest -> key y <= key x) /\ descending key rest
  end.

End notions.

(* ================================================================== *)
(** * Properties *)
(* ================================================================== *)

Import permissions repository service spec.

(** ** Permission masks *)

Lemma land_ones_all_bits (m : Z) :
  Z.land m 0xFFFFFFFF = 0xFFFFFFFF <-> adminSentinel m.
Proof.
  change 0xFFFFFFFF with (Z.ones 32). unfold adminSentinel. split.
  - intros E i Hi.
    assert (B : Z.testbit (Z.land m (Z.ones 32)) i = Z.testbit (Z.ones 32) i) by now rewrite E.
    rewrite Z.land_spec, Z.ones_spec_low in B by lia.
    now rewrite andb_true_r in B.
  - intros A. apply Z.bits_inj'. intros n Hn.
    rewrite Z.land_spec. destruct (Z.lt_ge_cases n 32) as [L | G].
    + rewrite Z.ones_spec_low by lia. rewrite A by lia. reflexivity.
    + rewrite Z.ones_spec_high by lia. apply andb_false_r.
Qed.

Lemma adminSentinel_minus_one : adminSentinel (-1).
Proof. intros i Hi. apply Z.bits_m1. lia. Qed.

Lemma adminSentinel_all_ones : adminSentinel 0xFFFFFFFF.
Proof. apply land_ones_all_bits. reflexivity. Qed.

(** Within 32 bits the sentinel has exactly its two representations. *)
Lemma adminSentinel_mask32 (m : Z) :
  mask32 m -> (adminSentinel m <-> m = -1 \/ m = 0xFFFFFFFF).
Proof.
  unfold mask32. intros R. split.
  - intros A. apply land_ones_all_bits in A.
    change 0xFFFFFFFF with (Z.ones 32) in A. rewrite Z.land_ones in A by lia.
    change (Z.ones 32) with 4294967295 in A. change (2 ^ 32) with 4294967296 in *.
    change (2 ^ 31) with 2147483648 in *.
    destruct (Z.lt_ge_cases m 0) as [Neg | Pos].
    + left. rewrite <- (Z.mod_unique m 4294967296 (-1) (m + 4294967296)) in A; lia.
    + right. rewrite Z.mod_small in A by lia. exact A.
  - intros [-> | ->]; [apply adminSentinel_minus_one | apply adminSentinel_all_ones].
Qed.

(** The three admin tests of the source amount to "all 32 bits set" when the
    admin mask is the shipped [0xFFFFFFFF]. *)
Lemma admin_tests (g : Masks) (m : Z) :
  PermissionAdmin g = 0xFFFFFFFF ->
  (((m =? -1) || (m =? PermissionAdmin g)) = true \/
   (Z.land m (PermissionAdmin g) =? PermissionAdmin g) = true) <-> adminSentinel m.
Proof.
  intros ->. rewrite <- land_ones_all_bits, orb_true_iff, !Z.eqb_eq. split.
  - intros [[-> | ->] | E]; [reflexivity | reflexivity | exact E].
  - intros E. right. exact E.
Qed.

Lemma HasPermission_iff (g : Masks) (m r : Z) :
  PermissionAdmin g = 0xFFFFFFFF ->
  HasPermission g m r = true <-> adminSentinel m \/ Z.land m r <> 0.
Proof.
  intros Hg. rewrite <- (admin_tests g m Hg). unfold HasPermission.
  destruct ((m =? -1) || (m =? PermissionAdmin g)) eqn:E1.
  - split; auto.
  - destruct (Z.land m (PermissionAdmin g) =? PermissionAdmin g) eqn:E2.
    + split; auto.
    + rewrite negb_true_iff, Z.eqb_neq. split.
      * auto.
      * intros [[C | C] | N]; [discriminate | discriminate | exact N].
Qed.

(** C5. With the admin mask at its shipped value, [HasPermission m r] is true
    exactly when [m] is the admin sentinel (all 32 bits set) or [m AND r] is
    nonzero; [-1] and [0xFFFFFFFF] are both the sentinel and, among 32-bit
    masks, the only ones; and [HasPermission] answers true on [-1] and on the
    admin mask for every required value. *)
Theorem HasPermission_spec (g : Masks) :
  PermissionAdmin g = 0xFFFFFFFF ->
  (forall m r, HasPermission g m r = true <-> adminSentinel m \/ Z.land m r <> 0)
  /\ (adminSentinel (-1) /\ adminSentinel 0xFFFFFFFF)
  /\ (forall m, mask32 m -> (adminSentinel m <-> m = -1 \/ m = 0xFFFFFFFF))
  /\ (forall r, HasPermission g (-1) r = true /\ HasPermission g (PermissionAdmin g) r = true).
Proof.
  intros Hg. split; [| split; [| split]].
  - intros m r. apply HasPermission_iff. exact Hg.
  - split; [apply adminSentinel_minus_one | apply adminSentinel_all_ones].
  - exact adminSentinel_mask32.
  - intros r. split; [reflexivity |].
    unfold HasPermission. rewrite Z.eqb_refl, orb_true_r. reflexivity.
Qed.

Lemma HasPermission_spec_witness :
  PermissionAdmin initial = 0xFFFFFFFF /\
  (HasPermission initial 3 PermissionEditReports = true <->
   adminSentinel 3 \/ Z.land 3 PermissionEditReports <> 0).
Proof.
  split; [reflexivity |].
  exact (proj1 (HasPermission_spec initial eq_refl) 3 PermissionEditReports).
Defined.

Lemma allLoop_iff (m : Z) (S : list Z) :
  allLoop m S = true <-> forall p, In p S -> Z.land m p <> 0.
Proof.
  induction S as [| q S IH]; simpl.
  - split; [intros _ p [] | reflexivity].
  - destruct (Z.land m q =? 0) eqn:E.
    + apply Z.eqb_eq in E. split; [discriminate |].
      intros A. exfalso. apply (A q); [now left | exact E].
    + apply Z.eqb_neq in E. rewrite IH. split.
      * intros A p [<- | I]; [exact E | now apply A].
      * intros A p I. apply A. now right.
Qed.

Lemma land_pow2_nonzero (m k : Z) :
  0 <= k -> Z.land m (2 ^ k) <> 0 <-> Z.testbit m k = true.
Proof.
  intros Hk. split.
  - intros N. destruct (Z.testbit m k) eqn:B; [reflexivity |].
    exfalso. apply N. apply Z.bits_inj'. intros i Hi.
    rewrite Z.land_spec, Z.bits_0, Z.pow2_bits_eqb by lia.
    destruct (Z.eqb_spec k i) as [<- | D]; [now rewrite B | apply andb_false_r].
  - intros B E.
    assert (T : Z.testbit (Z.land m (2 ^ k)) k = true).
    { rewrite Z.land_spec, B, Z.pow2_bits_true by lia. reflexivity. }
    rewrite E, Z.bits_0 in T. discriminate.
Qed.

Lemma bitsSet_pow2 (m k : Z) :
  0 <= k -> bitsSet (2 ^ k) m <-> Z.testbit m k = true.
Proof.
  intros Hk. unfold bitsSet. split.
  - intros A. apply (A k Hk). apply Z.pow2_bits_true. exact Hk.
  - intros B i Hi T. rewrite Z.pow2_bits_eqb in T by lia.
    apply Z.eqb_eq in T. now subst i.
Qed.

Lemma singleBit_overlap (m p : Z) :
  singleBit p -> Z.land m p <> 0 <-> bitsSet p m.
Proof.
  intros (k & Hk & ->). rewrite land_pow2_nonzero, bitsSet_pow2 by exact Hk. reflexivity.
Qed.

(** C4, as the code has it.  With the admin mask at its shipped value,
    [HasAllPermissions m S] is true exactly when [m] is the admin sentinel or
    every value of [S] shares a set bit with [m]; when every value of [S] is
    a single permission bit this is: [m] is the admin sentinel or every bit
    of every value of [S] is set in [m]. *)
Theorem HasAllPermissions_spec (g : Masks) (m : Z) (S : list Z) :
  PermissionAdmin g = 0xFFFFFFFF ->
  (HasAllPermissions g m S = true <->
   adminSentinel m \/ forall p, In p S -> Z.land m p <> 0)
  /\ ((forall p, In p S -> singleBit p) ->
      (HasAllPermissions g m S = true <->
       adminSentinel m \/ forall p, In p S -> bitsSet p m)).
Proof.
  intros Hg.
  assert (G : HasAllPermissions g m S = true <->
              adminSentinel m \/ forall p, In p S -> Z.land m p <> 0).
  { rewrite <- (admin_tests g m Hg), <- allLoop_iff. unfold HasAllPermissions.
    destruct ((m =? -1) || (m =? PermissionAdmin g)) eqn:E1.
    - split; auto.
    - destruct (Z.land m (PermissionAdmin g) =? PermissionAdmin g) eqn:E2.
      + split; auto.
      + split; [auto |].
        intros [[C | C] | L]; [discriminate | discriminate | exact L]. }
  split; [exact G |].
  intros Hbits. rewrite G. split.
  - intros [A | L]; [now left | right].
    intros p I. apply singleBit_overlap; auto.
  - intros [A | L]; [now left | right].
    intros p I. apply singleBit_overlap; auto.
Qed.

Lemma HasAllPermissions_spec_witness :
  PermissionAdmin initial = 0xFFFFFFFF /\
  (HasAllPermissions initial 3 [PermissionViewReports; PermissionAddReports] = true <->
   adminSentinel 3 \/
   forall p, In p [PermissionViewReports; PermissionAddReports] -> Z.land 3 p <> 0).
Proof.
  split; [reflexivity |].
  exact (proj1 (HasAllPermissions_spec initial 3
                  [PermissionViewReports; PermissionAddReports] eq_refl)).
Defined.

(** A value with two bits is accepted as soon as one of them is set: the
    mask [1] passes for the required value [3] although bit 1 is missing and
    [1] is not the sentinel. *)
Lemma HasAllPermissions_multibit_counterexample :
  ~ (HasAllPermissions initial 1 [3] = true <->
     (forall p, In p [3] -> bitsSet p 1) \/ adminSentinel 1).
Proof.
  intros [H _].
  destruct (H eq_refl) as [A | A].
  - specialize (A 3 (or_introl eq_refl) 1 ltac:(lia) eq_refl). discriminate A.
  - specialize (A 1 ltac:(lia)). discriminate A.
Qed.

(** ** Who may approve and delete a report *)

(** [HasAnyPermission] called with role masks asks for one shared bit only:
    the driver mask passes the owner-or-admin test. *)
Lemma driver_passes_owner_or_admin_test :
  HasAnyPermission initial (PermissionDriver initial)
    [PermissionOwner initial; PermissionAdmin initial] = true
  /\ HasAnyPermission configured (PermissionDriver configured)
       [PermissionOwner configured; PermissionAdmin configured] = true.
Proof. split; reflexivity. Qed.

(** C1, the failing run.  Driver 3, whose mask is the plain driver mask,
    approves the submitted report 2 of tenant 1: the call returns no error
    and the stored report is approved and stamped with the driver's id. *)
Theorem Approve_by_plain_driver_succeeds :
  let out := ReportService.Approve configured 2 1 3 (PermissionDriver configured) 70 fleet.db0 in
  (exists r,
      snd out = (Some r, None)
      /\ gorm.First 2%N (weekly_reports (fst out)) = Some r
      /\ WeeklyReport.Status r = "approved"
      /\ WeeklyReport.ApprovedAt r = Some 70
      /\ WeeklyReport.ApprovedByID r = Some 3%N)
  /\ snd out <> (None, Some (New "only owner or admin can approve reports")).
Proof.
  split.
  - eexists. repeat split; vm_compute; reflexivity.
  - vm_compute. discriminate.
Qed.

(** C2, the failing run.  Driver 3 deletes report 3, which belongs to
    driver 2 and is approved: the call returns no error and the report is
    gone. *)
Theorem Delete_by_plain_driver_succeeds :
  gorm.First 3%N (weekly_reports fleet.db0) =
    Some (WeeklyReport.mk 3 1 1 2 114 400 0 "approved" "" (Some 31) (Some 40) (Some 1%N) 22 40 None)
  /\ let out := ReportService.Delete configured 3 1 3 (PermissionDriver configured) 70 fleet.db0 in
     snd out = None /\ gorm.First 3%N (weekly_reports (fst out)) = None.
Proof. repeat split; vm_compute; reflexivity. Qed.

(** ** Facts about the table operations *)

Section TableFacts.
Context {A : Type} `{gorm.Writable A}.

Lemma First_Some (id : N) (t : gorm.Table A) (x : A) :
  gorm.First id t = Some x ->
  In x (gorm.rows t) /\ gorm.live x = true /\ gorm.pk x = id.
Proof.
  unfold gorm.First. intros F. apply find_some in F. destruct F as [I B].
  apply andb_true_iff in B. destruct B as [L P].
  apply N.eqb_eq in P. auto.
Qed.

Lemma First_exists (id : N) (t : gorm.Table A) (x : A) :
  gorm.First id t = Some x ->
  existsb (fun y => gorm.live y && gorm.has_pk id y) (gorm.rows t) = true.
Proof.
  intros F. apply existsb_exists. exists x.
  destruct (First_Some _ _ _ F) as (I & L & P).
  split; [exact I |]. unfold gorm.has_pk. rewrite L, P, N.eqb_refl. reflexivity.
Qed.

(** Replacing the live rows of key [id] by a live row of key [id] makes that
    row the one [First] returns. *)
Lemma find_replace_where (id : N) (x' : A) (l : list A) :
  gorm.live x' = true -> gorm.pk x' = id ->
  existsb (fun y => gorm.live y && gorm.has_pk id y) l = true ->
  find (fun y => gorm.live y && gorm.has_pk id y)
       (gorm.replace_where (fun y => gorm.live y && gorm.has_pk id y) x' l) = Some x'.
Proof.
  intros L P. induction l as [| y l IH]; simpl; [discriminate |].
  destruct (gorm.live y && gorm.has_pk id y) eqn:E; simpl.
  - intros _. unfold gorm.has_pk at 1. rewrite L, P, N.eqb_refl. reflexivity.
  - intros Ex. rewrite E. apply IH. exact Ex.
Qed.

(** Rows of another key are found as before. *)
Lemma find_replace_where_other (id id' : N) (x' : A) (l : list A) :
  gorm.pk x' = id -> id' <> id ->
  find (fun y => gorm.live y && gorm.has_pk id' y)
       (gorm.replace_where (fun y => gorm.live y && gorm.has_pk id y) x' l)
  = find (fun y => gorm.live y && gorm.has_pk id' y) l.
Proof.
  intros P D. induction l as [| y l IH]; simpl; [reflexivity |].
  destruct (gorm.live y && gorm.has_pk id y) eqn:E.
  - apply andb_true_iff in E. destruct E as [_ E]. unfold gorm.has_pk in E.
    apply N.eqb_eq in E.
    assert (N1 : gorm.has_pk id' x' = false) by (unfold gorm.has_pk; apply N.eqb_neq; congruence).
    assert (N2 : gorm.has_pk id' y = false) by (unfold gorm.has_pk; apply N.eqb_neq; congruence).
    rewrite N1, N2, !andb_false_r. exact IH.
  - rewrite IH. reflexivity.
Qed.

(** [Save] of a struct whose key is that of a live row updates that row. *)
Lemma Save_update (now : Time) (x y : A) (t : gorm.Table A) :
  gorm.pk x <> 0%N ->
  gorm.First (gorm.pk x) t = Some y ->
  gorm.Save true now x t =
    (gorm.mkTable
       (gorm.replace_where (fun z => gorm.live z && gorm.has_pk (gorm.pk x) z)
          (gorm.stamp_updated now x) (gorm.rows t))
       (gorm.seq t),
     gorm.stamp_updated now x, None).
Proof.
  intros NZ F. unfold gorm.Save.
  apply N.eqb_neq in NZ. rewrite NZ. simpl.
  rewrite (First_exists _ _ _ F). reflexivity.
Qed.

End TableFacts.

#[global] Instance WeeklyReport_lawful : Lawful WeeklyReport.t.
Proof. constructor; reflexivity. Qed.



Section LawfulTableFacts.
Context {A : Type} `{Lawful A}.

(** [Save] of a live struct over the live row of its key: the row becomes
    the struct with a fresh [UpdatedAt], the other keys are untouched. *)
Lemma Save_found (now : Time) (x y : A) (t : gorm.Table A) :
  gorm.pk x <> 0%N ->
  gorm.First (gorm.pk x) t = Some y ->
  gorm.live x = true ->
  exists t',
    gorm.Save true now x t = (t', gorm.stamp_updated now x, None)
    /\ gorm.First (gorm.pk x) t' = Some (gorm.stamp_updated now x)
    /\ (forall id', id' <> gorm.pk x -> gorm.First id' t' = gorm.First id' t)
    /\ gorm.seq t' = gorm.seq t
    /\ gorm.rows t' =
       gorm.replace_where (fun z => gorm.live z && gorm.has_pk (gorm.pk x) z)
         (gorm.stamp_updated now x) (gorm.rows t).
Proof.
  intros NZ F L. rewrite (Save_update now x y t NZ F).
  eexists. split; [reflexivity |]. cbn. split; [| split; [| split; reflexivity]].
  - unfold gorm.First. cbn. apply find_replace_where.
    + unfold gorm.live. rewrite deleted_stamp_updated. exact L.
    + apply pk_stamp_updated.
    + exact (First_exists _ _ _ F).
  - intros id' D. unfold gorm.First. cbn.
    apply find_replace_where_other; [apply pk_stamp_updated | exact D].
Qed.

(** A successful [Save] of a struct with a key, over a live row of that key,
    was accepted by the constraints. *)
Lemma Save_ok_constraints (c : bool) (now : Time) (x : A) (t t' : gorm.Table A) (x' : A) :
  gorm.pk x <> 0%N ->
  gorm.Save c now x t = (t', x', None) -> c = true.
Proof.
  intros NZ. unfold gorm.Save. apply N.eqb_neq in NZ. rewrite NZ.
  destruct c; [reflexivity | simpl; discriminate].
Qed.

(** After the soft delete no live row carries the key. *)
Lemma First_Delete (now : Time) (id : N) (t : gorm.Table A) :
  gorm.First id (gorm.Delete now id t) = None.
Proof.
  unfold gorm.First, gorm.Delete. cbn [gorm.rows].
  induction (gorm.rows t) as [| y l IH]; [reflexivity |].
  cbn [map find]. destruct (gorm.live y && gorm.has_pk id y) eqn:E.
  - unfold gorm.live at 1. rewrite deleted_set_deleted. cbn. exact IH.
  - rewrite E. exact IH.
Qed.

End LawfulTableFacts.

(** ** Tenant isolation *)

Lemma neq_negb_eqb (a b : N) : a <> b -> negb (a =? b)%N = true.
Proof. intros D. apply N.eqb_neq in D. now rewrite D. Qed.

(** C7. A report, expense or deposit that belongs to another tenant than the
    caller's is reported as not found by [GetByID], [Update] and [Delete] of
    its service, whatever the caller's permissions and request, and the
    database is left as it was. *)
Theorem cross_tenant_access_not_found
    (g : Masks) (time_Parse : string -> option Time)
    (db : DB) (id tenantID : N) (now : Time) :
  (forall r, gorm.First id (weekly_reports db) = Some r ->
     WeeklyReport.TenantID r <> tenantID ->
     ReportService.GetByID id tenantID db = (db, (None, Some (New "report not found")))
     /\ (forall driverID permission req,
           ReportService.Update g id tenantID driverID permission req now db
           = (db, (None, Some (New "report not found"))))
     /\ (forall driverID permission,
           ReportService.Delete g id tenantID driverID permission now db
           = (db, Some (New "report not found"))))
  /\ (forall e, gorm.First id (expenses db) = Some e ->
     Expense.TenantID e <> tenantID ->
     ExpenseService.GetByID id tenantID db = (db, (None, Some (New "expense not found")))
     /\ (forall req,
           ExpenseService.Update time_Parse id tenantID req now db
           = (db, (None, Some (New "expense not found"))))
     /\ ExpenseService.Delete id tenantID now db = (db, Some (New "expense not found")))
  /\ (forall d, gorm.First id (bank_deposits db) = Some d ->
     BankDeposit.TenantID d <> tenantID ->
     DepositService.GetByID id tenantID db = (db, (None, Some (New "deposit not found")))
     /\ (forall req,
           DepositService.Update time_Parse id tenantID req now db
           = (db, (None, Some (New "deposit not found"))))
     /\ DepositService.Delete id tenantID now db = (db, Some (New "deposit not found"))).
Proof.
  split; [| split].
  - intros r F D. apply neq_negb_eqb in D.
    unfold ReportService.GetByID, ReportService.Update, ReportService.Delete, GetReportByID.
    rewrite F. simpl. rewrite D. repeat split.
  - intros e F D. apply neq_negb_eqb in D.
    unfold ExpenseService.GetByID, ExpenseService.Update, ExpenseService.Delete, GetExpenseByID.
    rewrite F. simpl. rewrite D. repeat split.
  - intros d F D. apply neq_negb_eqb in D.
    unfold DepositService.GetByID, DepositService.Update, DepositService.Delete, GetDepositByID.
    rewrite F. simpl. rewrite D. repeat split.
Qed.

(** The owner of tenant 2 reaches for report 1 and deposit 1 of tenant 1. *)
Lemma cross_tenant_access_not_found_witness :
  ReportService.GetByID 1 2 fleet.db0 = (fleet.db0, (None, Some (New "report not found")))
  /\ ReportService.Delete configured 1 2 4 0xFFFFF 70 fleet.db0
     = (fleet.db0, Some (New "report not found"))
  /\ DepositService.Delete 1 2 70 fleet.db0 = (fleet.db0, Some (New "deposit not found")).
Proof.
  destruct (cross_tenant_access_not_found configured fleet.parse fleet.db0 1 2 70)
    as (R & _ & D).
  destruct (R (WeeklyReport.mk 1 1 1 2 100 500 0 "draft" "" None None None 20 20 None) eq_refl)
    as (R1 & _ & R3); [discriminate |].
  destruct (D (BankDeposit.mk 1 1 1000 200 100 107 "ACC-1" "" "" 50 50 None) eq_refl)
    as (_ & _ & D3); [discriminate |].
  split; [exact R1 | split; [exact (R3 4%N 0xFFFFF) | exact D3]].
Defined.

(** ** What [Update] leaves alone *)


(** [ReportService.Update] on a report that [First] finds. *)
Lemma ReportService_Update_eq g id tenantID driverID permission req now db r :
  gorm.First id (weekly_reports db) = Some r ->
  ReportService.Update g id tenantID driverID permission req now db =
  if negb (WeeklyReport.TenantID r =? tenantID)%N
  then (db, (None, Some (New "report not found"))) else
  if negb (isNil (updateRefusal g permission driverID r))
  then (db, (None, updateRefusal g permission driverID r)) else
  let '(db', x', err) :=
    UpdateReport now
      (editedReport req (totalAmount (gorm.Where (linkedTo (WeeklyReport.ID r)) (expenses db))) r)
      db in
  match err with
  | Some e => (db', (None, Some e))
  | None => let '(r', err) := GetReportByID (WeeklyReport.ID x') db' in (db', (Some r', err))
  end.
Proof.
  intros F. unfold ReportService.Update, GetReportByID. rewrite F. cbn [orZero].
  destruct (negb (WeeklyReport.TenantID r =? tenantID)%N); [reflexivity |].
  unfold updateRefusal, editedReport.
  destruct (negb (HasPermission g permission PermissionEditReports));
    destruct (negb (WeeklyReport.DriverID r =? driverID)%N);
    destruct (negb (String.eqb (WeeklyReport.Status r) "draft"));
    destruct (String.eqb (WeeklyReport.Status r) "approved");
    try reflexivity;
    destruct (negb (IsZero (UpdateReportRequest.WeekStartDate req)));
    destruct (negb (PrimFloat.eqb (UpdateReportRequest.Earnings req) 0));
    destruct (negb (String.eqb (UpdateReportRequest.Notes req) ""));
    reflexivity.
Qed.

(** [UpdateReport] of a live struct over the live row of its key. *)
Lemma UpdateReport_found (now : Time) (r x : WeeklyReport.t) (db : DB) :
  WeeklyReport.ID x <> 0%N ->
  gorm.First (WeeklyReport.ID x) (weekly_reports db) = Some r ->
  WeeklyReport.DeletedAt x = None ->
  report_constraints db x = true ->
  exists t',
    UpdateReport now x db = (set_weekly_reports t' db, WeeklyReport.stamp_updated now x, None)
    /\ gorm.First (WeeklyReport.ID x) t' = Some (WeeklyReport.stamp_updated now x)
    /\ (forall id', id' <> WeeklyReport.ID x ->
          gorm.First id' t' = gorm.First id' (weekly_reports db))
    /\ gorm.seq t' = gorm.seq (weekly_reports db)
    /\ gorm.rows t' =
       gorm.replace_where (fun z => gorm.live z && gorm.has_pk (WeeklyReport.ID x) z)
         (WeeklyReport.stamp_updated now x) (gorm.rows (weekly_reports db)).
Proof.
  intros NZ F L C.
  destruct (@Save_found _ _ _ WeeklyReport_lawful now x r (weekly_reports db) NZ F)
    as (t' & S & P).
  { unfold gorm.live. cbn. rewrite L. reflexivity. }
  exists t'. split; [| exact P].
  unfold UpdateReport. rewrite C. cbn in S. rewrite S. reflexivity.
Qed.

Lemma First_live_report (id : N) (t : gorm.Table WeeklyReport.t) (r : WeeklyReport.t) :
  gorm.First id t = Some r -> WeeklyReport.ID r = id /\ WeeklyReport.DeletedAt r = None.
Proof.
  intros F. destruct (@First_Some _ WeeklyReport.model _ _ _ F) as (_ & L & P).
  split; [exact P |]. unfold gorm.live in L. cbn in L.
  destruct (WeeklyReport.DeletedAt r); [discriminate | reflexivity].
Qed.


(** The same for expenses. *)




Lemma ExpenseService_Update_eq tp id tenantID req now db e :
  gorm.First id (expenses db) = Some e ->
  ExpenseService.Update tp id tenantID req now db =
  if negb (Expense.TenantID e =? tenantID)%N
  then (db, (None, Some (New "expense not found"))) else
  match editedExpense tp req e with
  | None => (db, (None, Some (New "invalid date format")))
  | Some x =>
      let '(db1, x', err) := UpdateExpense now x db in
      match err with
      | Some er => (db1, (None, Some er))
      | None =>
          let db2 := refreshReportTotal (Expense.ReportID x') now db1 in
          let '(e', err) := GetExpenseByID (Expense.ID x') db2 in
          (db2, (Some e', err))
      end
  end.
Proof.
  intros F. unfold ExpenseService.Update, GetExpenseByID. rewrite F. cbn [orZero].
  destruct (negb (Expense.TenantID e =? tenantID)%N); [reflexivity |].
  unfold editedExpense.
  destruct (negb (String.eqb (UpdateExpenseRequest.Date req) ""));
    [destruct (tp _) |]; reflexivity.
Qed.




Lemma ExpenseService_Delete_eq id tenantID now db e :
  gorm.First id (expenses db) = Some e ->
  ExpenseService.Delete id tenantID now db =
  if negb (Expense.TenantID e =? tenantID)%N
  then (db, Some (New "expense not found"))
  else (refreshReportTotal (Expense.ReportID e) now (fst (DeleteExpense now id db)), None).
Proof.
  intros F. unfold ExpenseService.Delete, GetExpenseByID. rewrite F. reflexivity.
Qed.

(** The same for deposits. *)






(** An [Update] either leaves the table it edits as it was or succeeds. *)




(** A zero field of the request leaves the field of the struct alone. *)





(** ** Refreshing an access token *)

Lemma hd_error_filter_none {A : Type} (p : A -> bool) (l : list A) :
  hd_error (filter p l) = None <-> forall x, In x l -> p x = false.
Proof.
  induction l as [| y l IH]; simpl.
  - split; [intros _ x [] | reflexivity].
  - destruct (p y) eqn:E; simpl.
    + split; [discriminate |]. intros A0. rewrite (A0 y) in E by now left. discriminate.
    + rewrite IH. split.
      * intros A0 x [<- | I]; [exact E | now apply A0].
      * intros A0 x I. apply A0. now right.
Qed.

Lemma hd_error_filter_some {A : Type} (p : A -> bool) (l : list A) (x : A) :
  hd_error (filter p l) = Some x -> In x l /\ p x = true.
Proof.
  intros E. assert (I : In x (filter p l)).
  { destruct (filter p l); inversion E. now left. }
  now apply filter_In in I.
Qed.

Lemma validSession_test (db : DB) (token : string) (now : Time) (s : Session.t) :
  In s (gorm.rows (sessions db)) ->
  gorm.live s && (String.eqb (Session.Token s) token && (Session.ExpiresAt s >? now)) = true
  <-> validSession db token now s.
Proof.
  intros I. unfold validSession, gorm.live. cbn.
  rewrite !andb_true_iff, String.eqb_eq, Z.gtb_ltb, Z.ltb_lt.
  destruct (Session.DeletedAt s); cbn; intuition congruence.
Qed.

(** C8, as the code has it.  [RefreshToken] never changes the database.
    Without a live, unexpired session for the token it fails with "invalid
    refresh token".  With one, it returns the access token signed for the
    session's user when that user still exists, and fails with "user not
    found" when the user is gone. *)
Theorem RefreshToken_spec
    (SignedString : MapClaims.t -> string -> string) (cfg : JWTConfig.t)
    (refreshToken : string) (now : Time) (db : DB) :
  let out := AuthService.RefreshToken SignedString cfg refreshToken now db in
  fst out = db
  /\ ((forall s, ~ validSession db refreshToken now s) ->
      snd out = ("", Some (New "invalid refresh token")))
  /\ (forall s, validSession db refreshToken now s ->
      (forall s', validSession db refreshToken now s' -> Session.UserID s' = Session.UserID s) ->
      (forall u, gorm.First (Session.UserID s) (users db) = Some u ->
         snd out = (SignedString (accessClaims cfg u now) (JWTConfig.Secret cfg), None))
      /\ (gorm.First (Session.UserID s) (users db) = None ->
         snd out = ("", Some (New "user not found")))).
Proof.
  unfold AuthService.RefreshToken, GetSessionByToken, GetUserByID, gorm.Where.
  set (p := fun s => gorm.live s && (String.eqb (Session.Token s) refreshToken
                                     && (Session.ExpiresAt s >? now))).
  destruct (hd_error (filter p (gorm.rows (sessions db)))) as [s0 |] eqn:H; cbn [orZero isNil negb].
  - apply hd_error_filter_some in H. destruct H as [I0 P0].
    apply (validSession_test db refreshToken now s0 I0) in P0.
    split; [destruct (gorm.First _ _); reflexivity |]. split.
    + intros No. exfalso. exact (No s0 P0).
    + intros s V Same. rewrite (Same s0 P0). split.
      * intros u F. rewrite F. reflexivity.
      * intros F. rewrite F. reflexivity.
  - split; [reflexivity |]. split; [reflexivity |].
    intros s V _. exfalso.
    rewrite hd_error_filter_none in H. destruct V as (I & V).
    specialize (H s I).
    assert (T : p s = true).
    { apply (validSession_test db refreshToken now s I). split; [exact I | exact V]. }
    congruence.
Qed.

(** Driver 2 refreshes at instant 70 with a session that runs until 1000. *)
Lemma RefreshToken_spec_witness :
  AuthService.RefreshToken fleet.sign fleet.jwt "refresh-2" 70 fleet.db0
  = (fleet.db0, ("secret:driver@t1", None)).
Proof.
  pose proof (RefreshToken_spec fleet.sign fleet.jwt "refresh-2" 70 fleet.db0) as (D & _ & S).
  specialize (S (Session.mk 1 2 "refresh-2" 1000 60 None)).
  destruct S as [S _].
  - unfold validSession. cbn. repeat split; auto.
  - intros s' (I & _ & T & _). cbn in I.
    destruct I as [<- | [<- | []]]; [reflexivity | discriminate T].
  - specialize (S (User.mk 2 1 "driver@t1" "h2" 3 "Test" "Driver" "+1 2" true 10 10 None) eq_refl).
    destruct (AuthService.RefreshToken fleet.sign fleet.jwt "refresh-2" 70 fleet.db0) as [d o].
    cbn in D, S. rewrite D, S. reflexivity.
Defined.

(** The session of driver 3 is live and unexpired, yet no access token is
    issued once the user is removed. *)
Lemma RefreshToken_removed_user_counterexample :
  validSession fleet.dbAfterRemoval "refresh-3" 70 (Session.mk 2 3 "refresh-3" 1000 61 None)
  /\ snd (AuthService.RefreshToken fleet.sign fleet.jwt "refresh-3" 70 fleet.dbAfterRemoval)
     = ("", Some (New "user not found")).
Proof.
  split.
  - unfold validSession. cbn. repeat split; auto.
  - reflexivity.
Qed.

(** ** Consequences of integrity *)

Lemma integrity_parts (db : DB) :
  integrity db = true ->
  keysWithin (tenants db) = true
  /\ keysWithin (weekly_reports db) = true
  /\ keysWithin (expenses db) = true
  /\ uniqueKeys (expenses db) = true
  /\ forallb (report_constraints db) (gorm.rows (weekly_reports db)) = true
  /\ forallb (expense_constraints db) (gorm.rows (expenses db)) = true.
Proof.
  unfold integrity. rewrite !andb_true_iff. tauto.
Qed.


Section KeyFacts.
Context {A : Type} `{gorm.Model A}.

Lemma keysWithin_In (t : gorm.Table A) (x : A) :
  keysWithin t = true -> In x (gorm.rows t) ->
  (0 < gorm.pk x)%N /\ (gorm.pk x <= gorm.seq t)%N.
Proof.
  unfold keysWithin. intros K I. rewrite forallb_forall in K.
  specialize (K x I). apply andb_true_iff in K. destruct K as [K1 K2].
  apply N.ltb_lt in K1. apply N.leb_le in K2. auto.
Qed.

Lemma references_In (id : N) (t : gorm.Table A) :
  gorm.references id t = true <-> exists x, In x (gorm.rows t) /\ gorm.pk x = id.
Proof.
  unfold gorm.references. rewrite existsb_exists. unfold gorm.has_pk.
  split; intros (x & I & E); exists x; (split; [exact I |]);
    [apply N.eqb_eq in E | apply N.eqb_eq]; exact E.
Qed.



Lemma First_nonzero (t : gorm.Table A) (id : N) (x : A) :
  keysWithin t = true -> gorm.First id t = Some x -> id <> 0%N.
Proof.
  intros K F. destruct (First_Some _ _ _ F) as (I & _ & P).
  destruct (keysWithin_In t x K I) as [Q _]. lia.
Qed.


Lemma First_None_not_live (t : gorm.Table A) (id : N) (x : A) :
  gorm.First id t = None -> In x (gorm.rows t) -> gorm.live x = true -> gorm.pk x <> id.
Proof.
  unfold gorm.First. intros F I L E.
  pose proof (find_none _ _ F x I) as N0. cbv beta in N0. unfold gorm.has_pk in N0.
  rewrite L, E, N.eqb_refl in N0. discriminate.
Qed.

End KeyFacts.



Lemma stored_report_constraints (db : DB) (r : WeeklyReport.t) :
  integrity db = true -> In r (gorm.rows (weekly_reports db)) -> report_constraints db r = true.
Proof.
  intros G I. destruct (integrity_parts db G) as (_ & _ & _ & _ & C & _).
  rewrite forallb_forall in C. exact (C r I).
Qed.


(** ** When a report may be edited *)






(** ** What holds of [Approve] and [Delete] for the callers who pass the
    owner-or-admin test *)

Lemma Approve_when_guard_passes g id tenantID approvedByID permission now db r :
  integrity db = true ->
  gorm.First id (weekly_reports db) = Some r ->
  WeeklyReport.TenantID r = tenantID ->
  HasAnyPermission g permission [PermissionOwner g; PermissionAdmin g] = true ->
  gorm.references approvedByID (users db) = true ->
  let out := ReportService.Approve g id tenantID approvedByID permission now db in
  (WeeklyReport.Status r = "submitted" ->
   exists r',
     snd out = (Some r', None)
     /\ gorm.First id (weekly_reports (fst out)) = Some r'
     /\ WeeklyReport.Status r' = "approved"
     /\ WeeklyReport.ApprovedAt r' = Some now
     /\ WeeklyReport.ApprovedByID r' = Some approvedByID)
  /\ (WeeklyReport.Status r = "draft" ->
      out = (db, (None, Some (New "report must be submitted before approval")))).
Proof.
  intros G F T P U out.
  destruct (integrity_parts db G) as (_ & KR & _).
  pose proof (First_nonzero _ _ _ KR F) as NZ.
  destruct (First_live_report _ _ _ F) as [Pk Lv].
  destruct (@First_Some _ WeeklyReport.model _ _ _ F) as (I & _ & _).
  unfold out, ReportService.Approve, GetReportByID. rewrite P, F. cbn [negb orZero].
  rewrite T, N.eqb_refl. cbn [negb]. split.
  - intros S. rewrite S. cbn [String.eqb negb].
    change ("submitted" =? "submitted")%string with true. cbn [negb].
    set (x := WeeklyReport.set_ApprovedByID (Some approvedByID)
                (WeeklyReport.set_ApprovedAt (Some now) (WeeklyReport.set_Status "approved" r))).
    assert (C : report_constraints db x = true).
    { pose proof (stored_report_constraints db r G I) as C0.
      unfold report_constraints in *. cbn.
      rewrite !andb_true_iff in *. destruct C0 as [[[A1 A2] A3] _]. auto. }
    assert (NZx : WeeklyReport.ID x <> 0%N) by (cbn; congruence).
    assert (Fx : gorm.First (WeeklyReport.ID x) (weekly_reports db) = Some r) by (cbn; congruence).
    destruct (UpdateReport_found now r x db NZx Fx Lv C) as (t' & Up & P1 & _).
    rewrite Up. cbv beta iota.
    change (WeeklyReport.ID (WeeklyReport.stamp_updated now x)) with (WeeklyReport.ID r).
    change (weekly_reports (set_weekly_reports t' db)) with t'.
    cbn in P1. rewrite Pk in *. rewrite P1. cbn [orZero fst snd].
    eexists. split; [reflexivity |]. split; [exact P1 |]. repeat split.
  - intros S. rewrite S. reflexivity.
Qed.

Lemma Delete_when_guard_passes g id tenantID driverID permission now db r :
  gorm.First id (weekly_reports db) = Some r ->
  WeeklyReport.TenantID r = tenantID ->
  HasAnyPermission g permission [PermissionOwner g; PermissionAdmin g] = true ->
  let out := ReportService.Delete g id tenantID driverID permission now db in
  snd out = None /\ gorm.First id (weekly_reports (fst out)) = None.
Proof.
  intros F T P out.
  unfold out, ReportService.Delete, GetReportByID. rewrite F. cbn [orZero].
  rewrite T, N.eqb_refl, P. cbn [negb]. unfold DeleteReport. cbn [fst snd].
  split; [reflexivity |].
  exact (@First_Delete _ _ _ WeeklyReport_lawful now id (weekly_reports db)).
Qed.

(** ** An expense on a report of another tenant *)




(** ** The totals of the reports *)

(** *** Lists *)


Lemma filter_map_if {A : Type} (q p : A -> bool) (f : A -> A) (l : list A) :
  (forall y, In y l -> p y = true -> q y = false /\ q (f y) = false) ->
  filter q (map (fun y => if p y then f y else y) l) = filter q l.
Proof.
  induction l as [| y l IH]; simpl; [reflexivity |].
  intros F. rewrite IH by (intros z I; apply F; now right).
  destruct (p y) eqn:E; [| reflexivity].
  destruct (F y (or_introl eq_refl) E) as [-> ->]. reflexivity.
Qed.


Lemma In_map_if {A : Type} (p : A -> bool) (f : A -> A) (l : list A) (z : A) :
  In z (map (fun y => if p y then f y else y) l) ->
  (exists y, In y l /\ p y = true /\ z = f y) \/ (In z l /\ p z = false).
Proof.
  induction l as [| y l IH]; simpl; [intros [] |].
  intros [E | I].
  - destruct (p y) eqn:P.
    + left. exists y. auto.
    + right. subst z. auto.
  - destruct (IH I) as [(y' & I' & P' & E') | (I' & P')].
    + left. exists y'. auto.
    + right. auto.
Qed.

Lemma distinct_spec (l : list N) : distinct l = true <-> NoDup l.
Proof.
  induction l as [| k l IH]; simpl.
  - split; [constructor | reflexivity].
  - rewrite andb_true_iff, negb_true_iff, IH. split.
    + intros [E D]. constructor; [| exact D].
      intros I. assert (X : existsb (N.eqb k) l = true).
      { apply existsb_exists. exists k. split; [exact I | apply N.eqb_refl]. }
      congruence.
    + intros D. inversion D as [| ? ? NI D']; subst. split; [| exact D'].
      destruct (existsb (N.eqb k) l) eqn:X; [| reflexivity].
      apply existsb_exists in X. destruct X as (k' & I & E).
      apply N.eqb_eq in E. subst k'. contradiction.
Qed.


Lemma NoDup_map_inj {A : Type} (k : A -> N) (l : list A) (a b : A) :
  NoDup (map k l) -> In a l -> In b l -> k a = k b -> a = b.
Proof.
  induction l as [| y l IH]; simpl; [intros _ [] |].
  intros D Ia Ib E. inversion D as [| ? ? NI D']; subst.
  destruct Ia as [<- | Ia], Ib as [<- | Ib]; auto.
  - exfalso. apply NI. rewrite E. now apply in_map.
  - exfalso. apply NI. rewrite <- E. now apply in_map.
Qed.


(** *** Tables *)

Section UniqueFacts.
Context {A : Type} `{gorm.Model A}.

Lemma uniqueKeys_same_row (t : gorm.Table A) (a b : A) :
  uniqueKeys t = true -> In a (gorm.rows t) -> In b (gorm.rows t) ->
  gorm.pk a = gorm.pk b -> a = b.
Proof.
  unfold uniqueKeys. rewrite distinct_spec. apply NoDup_map_inj.
Qed.




End UniqueFacts.

(** *** Writes to the table of reports *)








(** *** The report service *)













(** *** Writes to the table of expenses *)






(** *** The recalculation *)


(** *** The expense service *)



(** The step of [ExpenseService.Create] after the insert: the recalculation,
    run only when the report it reads carries the caller's tenant. *)
Lemma Create_expense_refresh (tenantID : N) (reportID : option N) (now : Time) (db : DB) :
  match reportID with
  | Some rid =>
      let '(report, _) := GetReportByID rid db in
      if (WeeklyReport.TenantID report =? tenantID)%N then
        let '(expenses, _) := GetExpensesByReport (WeeklyReport.ID report) db in
        let total := totalAmount expenses in
        let report := WeeklyReport.set_TotalExpenses total report in
        let '(db, _, _) := UpdateReport now report db in
        db
      else db
  | None => db
  end
  = match reportID with
    | Some rid =>
        if (WeeklyReport.TenantID (fst (GetReportByID rid db)) =? tenantID)%N
        then refreshReportTotal (Some rid) now db
        else db
    | None => db
    end.
Proof.
  destruct reportID as [rid |]; [| reflexivity].
  unfold refreshReportTotal.
  destruct (GetReportByID rid db) as [report e]. reflexivity.
Qed.


(** *** Every operation *)


(** *** Adding an expense to a report and deleting it again *)








(** ** The operations on the example fleet *)








(* ================================================================== *)
(** * Further properties: permissions, middleware and the dashboard guard *)
(* ================================================================== *)

Import notions.

Lemma anyLoop_iff (m : Z) (S : list Z) :
  anyLoop m S = true <-> exists p, In p S /\ Z.land m p <> 0.
Proof.
  induction S as [| q S IH]; simpl.
  - split; [discriminate | intros (p & [] & _)].
  - destruct (Z.land m q =? 0) eqn:E; simpl.
    + apply Z.eqb_eq in E. rewrite IH. split.
      * intros (p & I & N). exists p. auto.
      * intros (p & [<- | I] & N); [contradiction | exists p; auto].
    + apply Z.eqb_neq in E. split; [| reflexivity].
      intros _. exists q. auto.
Qed.

Lemma HasAnyPermission_iff (g : Masks) (m : Z) (S : list Z) :
  PermissionAdmin g = 0xFFFFFFFF ->
  HasAnyPermission g m S = true <->
  adminSentinel m \/ exists p, In p S /\ Z.land m p <> 0.
Proof.
  intros Hg. rewrite <- (admin_tests g m Hg), <- anyLoop_iff. unfold HasAnyPermission.
  destruct ((m =? -1) || (m =? PermissionAdmin g)) eqn:E1.
  - split; auto.
  - destruct (Z.land m (PermissionAdmin g) =? PermissionAdmin g) eqn:E2.
    + split; auto.
    + split; [auto |].
      intros [[C | C] | L]; [discriminate | discriminate | exact L].
Qed.

(** X1. With the admin mask at its shipped value, [HasAnyPermission m S] is
    true exactly when [m] is the admin sentinel or some value of [S] shares a
    set bit with [m]; on an empty [S] only the admin sentinel passes; and
    when every value of [S] is a single permission bit the test is: [m] is
    the sentinel or has one of those bits. *)
Theorem HasAnyPermission_spec (g : Masks) (m : Z) (S : list Z) :
  PermissionAdmin g = 0xFFFFFFFF ->
  (HasAnyPermission g m S = true <->
   adminSentinel m \/ exists p, In p S /\ Z.land m p <> 0)
  /\ (HasAnyPermission g m [] = true <-> adminSentinel m)
  /\ ((forall p, In p S -> singleBit p) ->
      (HasAnyPermission g m S = true <->
       adminSentinel m \/ exists p, In p S /\ bitsSet p m)).
Proof.
  intros Hg.
  pose proof (fun S0 => HasAnyPermission_iff g m S0 Hg) as G.
  split; [apply G | split].
  - rewrite G. split; [| auto]. intros [A | (p & [] & _)]. exact A.
  - intros Hbits. rewrite G. split.
    + intros [A | (p & I & N)]; [now left | right].
      exists p. split; [exact I |]. apply singleBit_overlap; auto.
    + intros [A | (p & I & N)]; [now left | right].
      exists p. split; [exact I |]. apply singleBit_overlap; auto.
Qed.

Lemma HasAnyPermission_spec_witness :
  PermissionAdmin configured = 0xFFFFFFFF /\
  (HasAnyPermission configured 3 [PermissionOwner configured; PermissionAdmin configured] = true <->
   adminSentinel 3 \/
   exists p, In p [PermissionOwner configured; PermissionAdmin configured] /\ Z.land 3 p <> 0).
Proof.
  split; [reflexivity |].
  apply (HasAnyPermission_spec configured 3
           [PermissionOwner configured; PermissionAdmin configured]).
  reflexivity.
Defined.

Lemma hasPermissionLoop_iff (g : Masks) (m : Z) (S : list Z) :
  middleware.hasPermissionLoop g m S = true <-> S <> [] /\ HasAnyPermission g m S = true.
Proof.
  unfold HasAnyPermission.
  induction S as [| q S IH]; simpl.
  - split; [discriminate | intros [C _]; now contradiction C].
  - unfold HasPermission at 1.
    destruct ((m =? -1) || (m =? PermissionAdmin g)) eqn:E1.
    + split; [split; [discriminate | reflexivity] | reflexivity].
    + destruct (Z.land m (PermissionAdmin g) =? PermissionAdmin g) eqn:E2.
      * split; [split; [discriminate | reflexivity] | reflexivity].
      * destruct (negb (Z.land m q =? 0)) eqn:E3.
        -- split; [split; [discriminate | reflexivity] | reflexivity].
        -- rewrite IH. split.
           ++ intros [_ A]. split; [discriminate | exact A].
           ++ intros [_ A]. split; [| exact A].
              intros ->. simpl in A. discriminate.
Qed.

Lemma RequirePermission_passes (g : Masks) (S : list Z) (c c' : middleware.Context.t) :
  middleware.RequirePermission g S c = middleware.Next c' <->
  c' = c /\ exists u, middleware.Context.user c = Some u /\ S <> []
                      /\ HasAnyPermission g (User.Permission u) S = true.
Proof.
  unfold middleware.RequirePermission.
  destruct (middleware.Context.user c) as [u |] eqn:U.
  - pose proof (hasPermissionLoop_iff g (User.Permission u) S) as L.
    destruct (middleware.hasPermissionLoop g (User.Permission u) S) eqn:E; simpl.
    + destruct L as [L _]. specialize (L eq_refl). split.
      * intros [= <-]. split; [reflexivity |]. exists u. tauto.
      * intros [-> _]. reflexivity.
    + split; [discriminate |].
      intros [_ (u' & [= <-] & NE & A)].
      destruct L as [_ L]. assert (F : false = true) by (apply L; auto). discriminate F.
  - split; [discriminate |]. intros [_ (u & [=] & _)].
Qed.

(** X2. [RequirePermission] lets a request pass, with its context
    unchanged, exactly when [Auth] stored a user, the list of required
    values is not empty and [HasAnyPermission] holds of the user's mask and
    the list; with an empty list it refuses every user, the administrator
    included.  Without a user it answers 401, otherwise 403; it never
    panics. *)
Theorem RequirePermission_spec (g : Masks) (S : list Z) (c : middleware.Context.t) :
  (forall c', middleware.RequirePermission g S c = middleware.Next c' <->
     c' = c /\ exists u, middleware.Context.user c = Some u /\ S <> []
                         /\ HasAnyPermission g (User.Permission u) S = true)
  /\ middleware.RequirePermission g [] c <> middleware.Next c
  /\ (forall status err, middleware.RequirePermission g S c = middleware.Abort status err ->
        (middleware.Context.user c = None /\ status = 401
         /\ err = New "User not authenticated")
        \/ (middleware.Context.user c <> None /\ status = 403
            /\ err = New "Insufficient permissions"))
  /\ middleware.RequirePermission g S c <> middleware.Panic.
Proof.
  split; [intros c'; apply RequirePermission_passes |].
  unfold middleware.RequirePermission.
  destruct (middleware.Context.user c) as [u |] eqn:U.
  - split; [simpl; discriminate |].
    destruct (middleware.hasPermissionLoop g (User.Permission u) S); simpl.
    + split; [intros status err [=] | discriminate].
    + split; [| discriminate].
      intros status err [= <- <-]. right. split; [discriminate | split; reflexivity].
  - split; [discriminate | split; [| discriminate]].
    intros status err [= <- <-]. left. repeat split.
Qed.

(** X3. [RequireRole] with one role name admits, besides the administrator,
    every user whose mask shares a set bit with the mask of that role: the
    role masks are composite and the test asks for one common bit.  With the
    masks [main] installs a plain driver passes [RequireRole("owner")]. *)
Theorem RequireRole_admits_shared_bit (g : Masks) (role : string) (c : middleware.Context.t) :
  PermissionAdmin g = 0xFFFFFFFF ->
  middleware.RequireRole g [role] c = middleware.Next c <->
  exists u, middleware.Context.user c = Some u
            /\ (adminSentinel (User.Permission u)
                \/ Z.land (User.Permission u) (GetPermissionForRole g role) <> 0).
Proof.
  intros Hg. unfold middleware.RequireRole.
  rewrite RequirePermission_passes. cbn [map]. split.
  - intros [_ (u & U & _ & A)]. exists u. split; [exact U |].
    apply (HasAnyPermission_iff g _ _ Hg) in A.
    destruct A as [A | (p & [<- | []] & N)]; auto.
  - intros (u & U & A). split; [reflexivity |]. exists u.
    split; [exact U | split; [discriminate |]].
    apply (HasAnyPermission_iff g _ _ Hg).
    destruct A as [A | N]; [now left | right].
    eexists. split; [left; reflexivity | exact N].
Qed.

Lemma RequireRole_admits_shared_bit_witness :
  PermissionAdmin configured = 0xFFFFFFFF /\
  (middleware.RequireRole configured ["owner"]
     (contextOf (User.mk 2 1 "driver@t1" "h2" 3 "Test" "Driver" "+1 2" true 10 10 None))
   = middleware.Next
       (contextOf (User.mk 2 1 "driver@t1" "h2" 3 "Test" "Driver" "+1 2" true 10 10 None)) <->
   exists u,
     middleware.Context.user
       (contextOf (User.mk 2 1 "driver@t1" "h2" 3 "Test" "Driver" "+1 2" true 10 10 None))
     = Some u
     /\ (adminSentinel (User.Permission u)
         \/ Z.land (User.Permission u) (GetPermissionForRole configured "owner") <> 0)).
Proof.
  split; [reflexivity |].
  apply (RequireRole_admits_shared_bit configured "owner"
           (contextOf (User.mk 2 1 "driver@t1" "h2" 3 "Test" "Driver" "+1 2" true 10 10 None))).
  reflexivity.
Defined.

(** ** Role names *)

Lemma admin_test_below (g : Masks) (p : Z) :
  PermissionAdmin g = 0xFFFFFFFF -> 0 <= p < 0xFFFFFFFF ->
  (p =? -1) || (p =? PermissionAdmin g)
  || (negb (Z.land p (PermissionAdmin g) =? 0)
      && (Z.land p (PermissionAdmin g) =? PermissionAdmin g)) = false.
Proof.
  intros -> R.
  assert (L : Z.land p 0xFFFFFFFF = p).
  { change 0xFFFFFFFF with (Z.ones 32). rewrite Z.land_ones by lia.
    apply Z.mod_small. change (2 ^ 32) with 4294967296. lia. }
  rewrite L.
  assert (E1 : (p =? -1) = false) by (apply Z.eqb_neq; lia).
  assert (E2 : (p =? 0xFFFFFFFF) = false) by (apply Z.eqb_neq; lia).
  rewrite E1, E2. apply andb_false_r.
Qed.

(** X4. When the admin mask has its shipped value and the four other role
    masks are different non-negative values below it, [GetRoleName] undoes
    [GetPermissionForRole] on the five role names. *)
Theorem GetRoleName_GetPermissionForRole (g : Masks) (role : string) :
  PermissionAdmin g = 0xFFFFFFFF ->
  (forall p, In p [PermissionOwner g; PermissionManager g; PermissionMechanic g;
                   PermissionDriver g] -> 0 <= p < 0xFFFFFFFF) ->
  NoDup [PermissionOwner g; PermissionManager g; PermissionMechanic g; PermissionDriver g] ->
  In role ["admin"; "owner"; "manager"; "mechanic"; "driver"] ->
  GetRoleName g (GetPermissionForRole g role) = role.
Proof.
  intros Hg R D I.
  assert (Ro : 0 <= PermissionOwner g < 0xFFFFFFFF) by (apply R; simpl; auto).
  assert (Rm : 0 <= PermissionManager g < 0xFFFFFFFF) by (apply R; simpl; auto).
  assert (Rc : 0 <= PermissionMechanic g < 0xFFFFFFFF) by (apply R; simpl; auto).
  assert (Rd : 0 <= PermissionDriver g < 0xFFFFFFFF) by (apply R; simpl; auto).
  inversion D as [| ? ? N1 D1]; subst. inversion D1 as [| ? ? N2 D2]; subst.
  inversion D2 as [| ? ? N3 D3]; subst. simpl in N1, N2, N3.
  assert (MO : (PermissionManager g =? PermissionOwner g) = false)
    by (apply Z.eqb_neq; intros E; apply N1; auto).
  assert (CO : (PermissionMechanic g =? PermissionOwner g) = false)
    by (apply Z.eqb_neq; intros E; apply N1; auto).
  assert (DO : (PermissionDriver g =? PermissionOwner g) = false)
    by (apply Z.eqb_neq; intros E; apply N1; auto).
  assert (CM : (PermissionMechanic g =? PermissionManager g) = false)
    by (apply Z.eqb_neq; intros E; apply N2; auto).
  assert (DM : (PermissionDriver g =? PermissionManager g) = false)
    by (apply Z.eqb_neq; intros E; apply N2; auto).
  assert (DC : (PermissionDriver g =? PermissionMechanic g) = false)
    by (apply Z.eqb_neq; intros E; apply N3; auto).
  simpl in I. destruct I as [<- | [<- | [<- | [<- | [<- | []]]]]];
    unfold GetPermissionForRole, GetRoleName; cbn [String.eqb Ascii.eqb Bool.eqb].
  - rewrite Z.eqb_refl, orb_true_r. reflexivity.
  - rewrite (admin_test_below g _ Hg Ro), Z.eqb_refl. reflexivity.
  - rewrite (admin_test_below g _ Hg Rm), MO, Z.eqb_refl. reflexivity.
  - rewrite (admin_test_below g _ Hg Rc), CO, CM, Z.eqb_refl. reflexivity.
  - rewrite (admin_test_below g _ Hg Rd), DO, DM, DC, Z.eqb_refl. reflexivity.
Qed.

Lemma GetRoleName_GetPermissionForRole_witness :
  GetRoleName initial (GetPermissionForRole initial "mechanic") = "mechanic".
Proof.
  apply (GetRoleName_GetPermissionForRole initial "mechanic").
  - reflexivity.
  - intros p I. vm_compute in I.
    destruct I as [<- | [<- | [<- | [<- | []]]]]; lia.
  - repeat constructor; vm_compute; intuition discriminate.
  - simpl. auto.
Defined.

(** X5. When the driver mask equals the owner, manager or mechanic mask, as
    it does with the masks [main] installs (manager and driver are both
    [0x3]), no permission value is ever named "driver": the earlier
    comparison wins. *)
Theorem GetRoleName_never_driver (g : Masks) (p : Z) :
  In (PermissionDriver g) [PermissionOwner g; PermissionManager g; PermissionMechanic g] ->
  GetRoleName g p <> "driver".
Proof.
  intros I. unfold GetRoleName.
  destruct ((p =? -1) || (p =? PermissionAdmin g)
            || (negb (Z.land p (PermissionAdmin g) =? 0)
                && (Z.land p (PermissionAdmin g) =? PermissionAdmin g)));
    [discriminate |].
  destruct (p =? PermissionOwner g) eqn:EO; [discriminate |].
  destruct (p =? PermissionManager g) eqn:EM; [discriminate |].
  destruct (p =? PermissionMechanic g) eqn:EC; [discriminate |].
  destruct (p =? PermissionDriver g) eqn:ED; [| discriminate].
  exfalso. apply Z.eqb_eq in ED. apply Z.eqb_neq in EO, EM, EC.
  simpl in I. destruct I as [E | [E | [E | []]]]; congruence.
Qed.

Lemma GetRoleName_never_driver_witness :
  GetRoleName configured (PermissionDriver configured) <> "driver".
Proof.
  apply (GetRoleName_never_driver configured (PermissionDriver configured)).
  simpl. right. left. reflexivity.
Defined.

(** ** The dashboard *)

Lemma DashboardService_GetStats_ok (tenantID : N) (db : DB) :
  exists stats, DashboardService.GetStats tenantID db = (db, (Some stats, None)).
Proof.
  unfold DashboardService.GetStats, GetTaxisByTenant, GetReportsByTenant, GetExpensesByTenant.
  destruct (fold_left _ (orderDesc WeeklyReport.WeekStartDate _) (0, 0%float)) as [p r].
  eexists. reflexivity.
Qed.

(** X6. With the admin mask at its shipped value, the dashboard handler
    answers 403 exactly when the caller's mask is not the admin sentinel and
    has neither the view-deposits bit (12) nor the view-expenses bit (8);
    every other caller gets 200 with the statistics of the service, and the
    database is left as it was. *)
Theorem DashboardHandler_GetStats_access (g : Masks) (tenantID : N) (permission : Z) (db : DB) :
  PermissionAdmin g = 0xFFFFFFFF ->
  (handlers.DashboardHandler.GetStats g tenantID permission db
   = (db, handlers.Error 403 (New "You don't have permission to view dashboard"))
   <-> ~ adminSentinel permission
       /\ Z.testbit permission 12 = false /\ Z.testbit permission 8 = false)
  /\ (adminSentinel permission
      \/ Z.testbit permission 12 = true \/ Z.testbit permission 8 = true ->
      handlers.DashboardHandler.GetStats g tenantID permission db
      = (db, handlers.JSON 200 (fst (snd (DashboardService.GetStats tenantID db))))).
Proof.
  intros Hg.
  assert (D : HasPermission g permission PermissionViewDeposits = true <->
              adminSentinel permission \/ Z.testbit permission 12 = true).
  { rewrite (HasPermission_iff g _ _ Hg). change PermissionViewDeposits with (2 ^ 12).
    rewrite land_pow2_nonzero by lia. reflexivity. }
  assert (X : HasPermission g permission PermissionViewExpenses = true <->
              adminSentinel permission \/ Z.testbit permission 8 = true).
  { rewrite (HasPermission_iff g _ _ Hg). change PermissionViewExpenses with (2 ^ 8).
    rewrite land_pow2_nonzero by lia. reflexivity. }
  pose proof (admin_tests g permission Hg) as T.
  destruct (DashboardService_GetStats_ok tenantID db) as (stats & S).
  unfold handlers.DashboardHandler.GetStats. rewrite S. cbn [fst snd].
  destruct ((permission =? -1) || (permission =? PermissionAdmin g)) eqn:E1.
  - assert (A : adminSentinel permission) by (apply T; auto).
    split; [| reflexivity].
    split; [discriminate | intros (N & _); contradiction].
  - destruct (HasPermission g permission PermissionViewDeposits) eqn:ED;
      destruct (HasPermission g permission PermissionViewExpenses) eqn:EX; cbn [orb negb].
    + split; [| reflexivity]. split; [discriminate |].
      intros (N & B & _). destruct D as [D _]. destruct (D eq_refl); congruence.
    + split; [| reflexivity]. split; [discriminate |].
      intros (N & B & _). destruct D as [D _]. destruct (D eq_refl); congruence.
    + split; [| reflexivity]. split; [discriminate |].
      intros (N & _ & B). destruct X as [X _]. destruct (X eq_refl); congruence.
    + assert (ND : ~ (adminSentinel permission \/ Z.testbit permission 12 = true))
        by (intros C; apply D in C; discriminate).
      assert (NX : ~ (adminSentinel permission \/ Z.testbit permission 8 = true))
        by (intros C; apply X in C; discriminate).
      split.
      * split; [intros _ | reflexivity].
        split; [tauto |].
        split; [destruct (Z.testbit permission 12); tauto
               | destruct (Z.testbit permission 8); tauto].
      * intros [A | [B | B]]; tauto.
Qed.

Lemma DashboardHandler_GetStats_access_witness :
  handlers.DashboardHandler.GetStats configured 1 (PermissionManager configured) fleet.db0
  = (fleet.db0, handlers.Error 403 (New "You don't have permission to view dashboard"))
  <-> ~ adminSentinel (PermissionManager configured)
      /\ Z.testbit (PermissionManager configured) 12 = false
      /\ Z.testbit (PermissionManager configured) 8 = false.
Proof.
  apply (DashboardHandler_GetStats_access configured 1 (PermissionManager configured) fleet.db0).
  reflexivity.
Defined.

(** ** The bearer token *)

Lemma Split_nonempty (s : string) (sep : ascii) : strings.Split s sep <> [].
Proof.
  destruct s as [| c s]; simpl; [discriminate |].
  destruct (Ascii.eqb c sep); [discriminate |].
  destruct (strings.Split s sep); discriminate.
Qed.

(** A result of one piece: the separator does not occur. *)
Lemma Split_one (s : string) (sep : ascii) (p : string) :
  strings.Split s sep = [p] <-> s = p /\ hasByte sep p = false.
Proof.
  revert p. induction s as [| c s IH]; intros p; simpl.
  - split.
    + intros [= <-]. auto.
    + intros [<- _]. reflexivity.
  - destruct (Ascii.eqb c sep) eqn:E.
    + split.
      * intros [= <- C]. exfalso. exact (Split_nonempty _ _ C).
      * intros [<- B]. simpl in B. rewrite E in B. discriminate.
    + destruct (strings.Split s sep) as [| q qs] eqn:S.
      * exfalso. exact (Split_nonempty _ _ S).
      * split.
        -- intros [= <- ->]. destruct (IH q) as [I _]. destruct (I eq_refl) as [-> B].
           split; [reflexivity |]. simpl. rewrite E. exact B.
        -- intros [<- B]. simpl in B. rewrite E in B. simpl in B.
           destruct (IH s) as [_ I]. specialize (I (conj eq_refl B)).
           injection I as -> ->. reflexivity.
Qed.

(** A result of more pieces: the first ends at the first separator. *)
Lemma Split_more (s : string) (sep : ascii) (p q : string) (rest : list string) :
  strings.Split s sep = p :: q :: rest <->
  exists s', s = (p ++ String sep s')%string /\ hasByte sep p = false
             /\ strings.Split s' sep = q :: rest.
Proof.
  revert p. induction s as [| c s IH]; intros p; simpl.
  - split; [discriminate |].
    intros (s' & E & _). destruct p; discriminate.
  - destruct (Ascii.eqb c sep) eqn:E.
    + apply Ascii.eqb_eq in E. subst c. split.
      * intros [= <- S]. exists s. auto.
      * intros (s' & Es & B & S). destruct p as [| d p].
        -- simpl in Es. injection Es as <-. rewrite S. reflexivity.
        -- simpl in Es. injection Es as <- _. simpl in B.
           rewrite Ascii.eqb_refl in B. discriminate.
    + destruct (strings.Split s sep) as [| r rs] eqn:S.
      * exfalso. exact (Split_nonempty _ _ S).
      * split.
        -- intros [= <- ->]. destruct (IH r) as [I _].
           destruct (I eq_refl) as (s' & -> & B & S').
           exists s'. split; [reflexivity |]. split; [| exact S'].
           simpl. rewrite E. exact B.
        -- intros (s' & Es & B & S'). destruct p as [| d p].
           ++ simpl in Es. injection Es as -> _. rewrite Ascii.eqb_refl in E. discriminate.
           ++ simpl in Es. injection Es as <- ->. simpl in B. rewrite E in B. simpl in B.
              destruct (IH p) as [_ I].
              assert (G : r :: rs = p :: q :: rest) by (apply I; exists s'; auto).
              injection G as -> ->. reflexivity.
Qed.

Lemma Split_two (s : string) (sep : ascii) (a b : string) :
  strings.Split s sep = [a; b] <->
  s = (a ++ String sep b)%string /\ hasByte sep a = false /\ hasByte sep b = false.
Proof.
  rewrite Split_more. split.
  - intros (s' & -> & A & S). apply Split_one in S. destruct S as [-> B]. auto.
  - intros (-> & A & B). exists b. split; [reflexivity |]. split; [exact A |].
    apply Split_one. auto.
Qed.

Lemma ValidateToken_ok (jwt_Parse : string -> string -> Time -> AuthService.Parsed)
    (cfg : JWTConfig.t) (t : string) (now : Time) (db : DB) (u : User.t) :
  snd (AuthService.ValidateToken jwt_Parse cfg t now db) = (Some u, None) <->
  exists id, jwt_Parse t (JWTConfig.Secret cfg) now = AuthService.Token true (Some id)
             /\ gorm.First id (users db) = Some u /\ User.Active u = true.
Proof.
  unfold AuthService.ValidateToken, GetUserByID.
  destruct (jwt_Parse t (JWTConfig.Secret cfg) now) as [expired | valid [id |]].
  - split; [destruct expired; discriminate | intros (id & [=] & _)].
  - destruct valid; simpl.
    + destruct (gorm.First id (users db)) as [x |] eqn:F; simpl.
      * destruct (User.Active x) eqn:A; simpl.
        -- split.
           ++ intros [= <-]. exists id. auto.
           ++ intros (id' & [= <-] & F' & _). congruence.
        -- split; [discriminate |].
           intros (id' & [= <-] & F' & A'). congruence.
      * split; [discriminate |]. intros (id' & [= <-] & F' & _). congruence.
    + split; [discriminate | intros (id' & [=] & _)].
  - destruct valid; simpl; (split; [discriminate | intros (id' & [=] & _)]).
Qed.

Lemma ValidateToken_outcome (jwt_Parse : string -> string -> Time -> AuthService.Parsed)
    (cfg : JWTConfig.t) (t : string) (now : Time) (db : DB) :
  (exists u, AuthService.ValidateToken jwt_Parse cfg t now db = (db, (Some u, None)))
  \/ (exists e, AuthService.ValidateToken jwt_Parse cfg t now db = (db, (None, Some e))).
Proof.
  unfold AuthService.ValidateToken, GetUserByID.
  destruct (jwt_Parse t (JWTConfig.Secret cfg) now) as [expired | valid [id |]].
  - right. destruct expired; eexists; reflexivity.
  - destruct valid; simpl; [| right; eexists; reflexivity].
    destruct (gorm.First id (users db)) as [x |]; simpl; [| right; eexists; reflexivity].
    destruct (User.Active x); simpl; [left | right]; eexists; reflexivity.
  - right. destruct valid; simpl; eexists; reflexivity.
Qed.

(** X7. [Auth] hands the request on exactly when the header is the word
    [Bearer], one space and a non-empty token without a space, the token
    parses as valid with a numeric [user_id], and that key is the key of a
    user that is neither deleted nor inactive; the context then carries that
    user's current row, tenant and mask as stored, not the claims of the
    token.  Every refusal is a 401, and the nil dereference cannot occur. *)
Theorem Auth_spec (jwt_Parse : string -> string -> Time -> AuthService.Parsed)
    (cfg : JWTConfig.t) (authHeader : string) (now : Time) (db : DB)
    (c : middleware.Context.t) :
  (forall c', middleware.Auth jwt_Parse cfg authHeader now db c = middleware.Next c' <->
     exists token id u,
       authHeader = ("Bearer " ++ token)%string
       /\ token <> "" /\ hasByte " " token = false
       /\ jwt_Parse token (JWTConfig.Secret cfg) now = AuthService.Token true (Some id)
       /\ gorm.First id (users db) = Some u /\ User.Active u = true
       /\ c' = contextOf u)
  /\ (forall status err,
        middleware.Auth jwt_Parse cfg authHeader now db c = middleware.Abort status err ->
        status = 401)
  /\ middleware.Auth jwt_Parse cfg authHeader now db c <> middleware.Panic.
Proof.
  unfold middleware.Auth.
  destruct (String.eqb authHeader "") eqn:E0.
  { apply String.eqb_eq in E0. subst authHeader.
    split; [| split]; [| intros status err [= <- _]; reflexivity | discriminate].
    intros c'. split; [discriminate |]. intros (t & _ & _ & C & _). discriminate. }
  destruct (strings.Split authHeader " ") as [| a [| b [| x xs]]] eqn:S.
  - exfalso. exact (Split_nonempty _ _ S).
  - split; [| split]; [| intros status err [= <- _]; reflexivity | discriminate].
    intros c'. split; [discriminate |].
    intros (t & _ & _ & -> & _ & B & _). exfalso.
    assert (S2 : strings.Split ("Bearer " ++ t) " " = ["Bearer"; t]).
    { apply Split_two. split; [reflexivity | split; [reflexivity | exact B]]. }
    congruence.
  - apply Split_two in S. destruct S as (-> & Ha & Hb).
    destruct (String.eqb a "Bearer") eqn:EB; simpl.
    + apply String.eqb_eq in EB. subst a.
      destruct (String.eqb b "") eqn:EE.
      * apply String.eqb_eq in EE. subst b.
        split; [| split]; [| intros status err [= <- _]; reflexivity | discriminate].
        intros c'. split; [discriminate |].
        intros (t & _ & _ & Et & NE & _). injection Et as <-. contradiction.
      * apply String.eqb_neq in EE.
        pose proof (ValidateToken_ok jwt_Parse cfg b now db) as V.
        destruct (ValidateToken_outcome jwt_Parse cfg b now db) as [(u & R) | (e & R)];
          rewrite R in *; cbn [snd] in V.
        -- split; [| split]; [| discriminate | discriminate].
           intros c'. split.
           ++ intros [= <-]. destruct (V u) as [V1 _].
              destruct (V1 eq_refl) as (id & P & F & A).
              exists b, id, u. repeat split; auto.
           ++ intros (t & id & u' & Et & _ & _ & P & F & A & ->).
              injection Et as <-. destruct (V u') as [_ V2].
              assert (G : (Some u, @None error) = (Some u', None))
                by (apply V2; exists id; auto).
              injection G as ->. reflexivity.
        -- split; [| split]; [| intros status err [= <- _]; reflexivity | discriminate].
           intros c'. split; [discriminate |].
           intros (t & id & u' & Et & _ & _ & P & F & A & _).
           injection Et as <-. destruct (V u') as [_ V2].
           assert (G : (@None User.t, Some e) = (Some u', None))
             by (apply V2; exists id; auto).
           discriminate G.
    + apply String.eqb_neq in EB.
      split; [| split]; [| intros status err [= <- _]; reflexivity | discriminate].
      intros c'. split; [discriminate |].
      intros (t & _ & _ & Et & _ & B & _). exfalso.
      assert (S2 : strings.Split (a ++ String " " b) " " = ["Bearer"; t]).
      { rewrite Et. apply Split_two. split; [reflexivity | split; [reflexivity | exact B]]. }
      assert (S1 : strings.Split (a ++ String " " b) " " = [a; b])
        by (apply Split_two; auto).
      congruence.
  - split; [| split]; [| intros status err [= <- _]; reflexivity | discriminate].
    intros c'. split; [discriminate |].
    intros (t & _ & _ & -> & _ & B & _). exfalso.
    assert (S2 : strings.Split ("Bearer " ++ t) " " = ["Bearer"; t]).
    { apply Split_two. split; [reflexivity | split; [reflexivity | exact B]]. }
    congruence.
Qed.

(* ================================================================== *)
(** * Further properties: the life of a report *)
(* ================================================================== *)

(** ** What a write leaves of the rows that were there *)

Lemma find_app_found {A : Type} (p : A -> bool) (l l' : list A) (x : A) :
  find p l = Some x -> find p (l ++ l') = Some x.
Proof.
  induction l as [| y l IH]; simpl; [discriminate |].
  destruct (p y); [auto | exact IH].
Qed.

Section WrittenTableFacts.
Context {A : Type} `{Lawful A}.

Lemma Create_First_kept (c : bool) (now : Time) (x : A) (t : gorm.Table A) (id : N) (r : A) :
  gorm.First id t = Some r ->
  gorm.First id (fst (fst (gorm.Create c now x t))) = Some r.
Proof.
  intros F. unfold gorm.Create. destruct c; cbn [fst]; unfold gorm.First; cbn [gorm.rows].
  - apply find_app_found. exact F.
  - exact F.
Qed.

(** Where every row that passes a test was replaced by [x'], a row found by
    that test is [x']. *)
Lemma find_replace_same (p : A -> bool) (x' r' : A) (l : list A) :
  find p (gorm.replace_where p x' l) = Some r' -> r' = x'.
Proof.
  intros F. apply find_some in F. destruct F as [I P].
  unfold gorm.replace_where in I. apply in_map_iff in I. destruct I as (y & E & _).
  destruct (p y) eqn:Py; [congruence |]. subst r'. congruence.
Qed.

Lemma find_replace_pk_other (id : N) (x' : A) (l : list A) :
  id <> gorm.pk x' ->
  find (fun y => gorm.live y && gorm.has_pk id y)
       (gorm.replace_where (gorm.has_pk (gorm.pk x')) x' l)
  = find (fun y => gorm.live y && gorm.has_pk id y) l.
Proof.
  intros D. induction l as [| y l IH]; simpl; [reflexivity |].
  destruct (gorm.has_pk (gorm.pk x') y) eqn:E.
  - unfold gorm.has_pk in E. apply N.eqb_eq in E.
    assert (N1 : gorm.has_pk id x' = false) by (unfold gorm.has_pk; apply N.eqb_neq; congruence).
    assert (N2 : gorm.has_pk id y = false) by (unfold gorm.has_pk; apply N.eqb_neq; congruence).
    rewrite N1, N2, !andb_false_r. exact IH.
  - rewrite IH. reflexivity.
Qed.

(** After a [Save], a key that had a live row has the same row, unless it is
    the key of the saved struct, whose live row is then the struct itself
    with its new [UpdatedAt]. *)
Lemma Save_First_inv (c : bool) (now : Time) (x : A) (t : gorm.Table A) (id : N) (r r' : A) :
  gorm.First id t = Some r ->
  gorm.First id (fst (fst (gorm.Save c now x t))) = Some r' ->
  r' = r \/ (id = gorm.pk x /\ gorm.pk x <> 0%N /\ r' = gorm.stamp_updated now x).
Proof.
  intros F. unfold gorm.Save.
  destruct (gorm.pk x =? 0)%N eqn:Z0.
  - rewrite (Create_First_kept c now x t id r F). intros [= <-]. now left.
  - apply N.eqb_neq in Z0. destruct c; cbn [negb fst].
    + destruct (existsb (fun y => gorm.live y && gorm.has_pk (gorm.pk x) y) (gorm.rows t)) eqn:Ex.
      * cbn [fst]. unfold gorm.First at 1. cbn [gorm.rows].
        destruct (N.eq_dec id (gorm.pk x)) as [-> | D].
        -- intros F'. apply find_replace_same in F'. right. auto.
        -- rewrite find_replace_where_other by (try apply pk_stamp_updated; exact D).
           unfold gorm.First in F. rewrite F. intros [= <-]. now left.
      * assert (D : id <> gorm.pk x).
        { intros ->. rewrite (First_exists _ _ _ F) in Ex. discriminate. }
        destruct (gorm.references (gorm.pk x) t); cbn [fst]; unfold gorm.First at 1;
          cbn [gorm.rows].
        -- rewrite <- (pk_stamp_updated now x) at 1.
           rewrite find_replace_pk_other by (rewrite pk_stamp_updated; exact D).
           unfold gorm.First in F. rewrite F. intros [= <-]. now left.
        -- unfold gorm.First in F. rewrite (find_app_found _ _ _ _ F). intros [= <-]. now left.
    + rewrite F. intros [= <-]. now left.
Qed.

(** A soft delete leaves the live rows of the other keys and removes those
    of its key. *)
Lemma First_Delete_inv (now : Time) (id0 id : N) (t : gorm.Table A) (r' : A) :
  gorm.First id (gorm.Delete now id0 t) = Some r' ->
  gorm.First id t = Some r' /\ id <> id0.
Proof.
  destruct (N.eq_dec id id0) as [-> | D].
  - rewrite First_Delete. discriminate.
  - intros F. split; [| exact D]. revert F.
    unfold gorm.First, gorm.Delete. cbn [gorm.rows].
    induction (gorm.rows t) as [| y l IH]; [discriminate |].
    cbn [map find]. destruct (gorm.live y && gorm.has_pk id0 y) eqn:E.
    + apply andb_true_iff in E. destruct E as [_ E]. unfold gorm.has_pk in E.
      apply N.eqb_eq in E.
      assert (N1 : gorm.has_pk id (gorm.set_deleted_at (Some now) y) = false).
      { unfold gorm.has_pk. rewrite pk_set_deleted. apply N.eqb_neq. congruence. }
      assert (N2 : gorm.has_pk id y = false) by (unfold gorm.has_pk; apply N.eqb_neq; congruence).
      rewrite N1, N2, !andb_false_r. exact IH.
    + destruct (gorm.live y && gorm.has_pk id y); [auto | exact IH].
Qed.

End WrittenTableFacts.

(** ** Reports only move forward *)

Lemma laterState_refl (r : WeeklyReport.t) : laterState r r.
Proof. unfold laterState. auto 6. Qed.

Lemma laterState_stamp (now : Time) (r x : WeeklyReport.t) :
  laterState r x -> laterState r (WeeklyReport.stamp_updated now x).
Proof. intros L. exact L. Qed.

(** One [UpdateReport] of a later state of a stored report leaves every
    stored report in a later state of itself. *)
Lemma UpdateReport_later (now : Time) (x : WeeklyReport.t) (db : DB) (id0 id : N)
    (r0 r r' : WeeklyReport.t) :
  gorm.First id0 (weekly_reports db) = Some r0 ->
  laterState r0 x ->
  gorm.First id (weekly_reports db) = Some r ->
  gorm.First id (weekly_reports (fst (fst (UpdateReport now x db)))) = Some r' ->
  laterState r r'.
Proof.
  intros F0 L F. unfold UpdateReport.
  pose proof (@Save_First_inv _ _ _ WeeklyReport_lawful (report_constraints db x) now x
                (weekly_reports db) id r r' F) as Inv.
  destruct (gorm.Save (report_constraints db x) now x (weekly_reports db)) as [[t x'] err].
  cbn [fst weekly_reports set_weekly_reports] in *. intros F'.
  destruct (Inv F') as [-> | (E & _ & ->)]; [apply laterState_refl |].
  destruct (First_live_report _ _ _ F0) as [Pk _].
  assert (E0 : id = id0) by (destruct L as (K & _); cbn in E; congruence).
  subst id0. assert (r = r0) by congruence. subst r0.
  apply laterState_stamp. exact L.
Qed.

(** A write of a struct whose key is zero is an insert and leaves the stored
    reports as they are. *)
Lemma UpdateReport_zero_key (now : Time) (x : WeeklyReport.t) (db : DB) (id : N)
    (r r' : WeeklyReport.t) :
  WeeklyReport.ID x = 0%N ->
  gorm.First id (weekly_reports db) = Some r ->
  gorm.First id (weekly_reports (fst (fst (UpdateReport now x db)))) = Some r' ->
  r' = r.
Proof.
  intros Z0 F. unfold UpdateReport.
  pose proof (@Save_First_inv _ _ _ WeeklyReport_lawful (report_constraints db x) now x
                (weekly_reports db) id r r' F) as Inv.
  destruct (gorm.Save (report_constraints db x) now x (weekly_reports db)) as [[t x'] err].
  cbn [fst weekly_reports set_weekly_reports] in *. intros F'.
  destruct (Inv F') as [-> | (_ & NZ & _)]; [reflexivity |].
  cbn in NZ. contradiction.
Qed.

Lemma lifecycleWrite_later (id0 : N) (now : Time) (db db' : DB) (id : N)
    (r r' : WeeklyReport.t) :
  lifecycleWrite id0 now db db' ->
  gorm.First id (weekly_reports db) = Some r ->
  gorm.First id (weekly_reports db') = Some r' ->
  laterState r r'.
Proof.
  intros [-> | (r0 & x & F0 & L & ->)] F F'.
  - assert (r' = r) by congruence. subst r'. apply laterState_refl.
  - exact (UpdateReport_later now x db id0 id r0 r r' F0 L F F').
Qed.

Lemma editedReport_later (req : UpdateReportRequest.t) (total : float) (r : WeeklyReport.t) :
  laterState r (editedReport req total r).
Proof.
  unfold editedReport, laterState.
  destruct (negb (IsZero (UpdateReportRequest.WeekStartDate req)));
    destruct (negb (PrimFloat.eqb (UpdateReportRequest.Earnings req) 0));
    destruct (negb (String.eqb (UpdateReportRequest.Notes req) ""));
    cbn; auto 6.
Qed.

Lemma Update_lifecycleWrite g id tenantID driverID permission req now db :
  lifecycleWrite id now db
    (fst (ReportService.Update g id tenantID driverID permission req now db)).
Proof.
  destruct (gorm.First id (weekly_reports db)) as [r |] eqn:F.
  - rewrite (ReportService_Update_eq _ _ _ _ _ _ _ _ _ F).
    destruct (negb (WeeklyReport.TenantID r =? tenantID)%N); [now left |].
    destruct (negb (isNil (updateRefusal g permission driverID r))); [now left |].
    set (x := editedReport req _ r).
    right. exists r, x. split; [exact F |]. split; [apply editedReport_later |].
    destruct (UpdateReport now x db) as [[db1 x1] [e |]]; cbn; [reflexivity |].
    destruct (GetReportByID (WeeklyReport.ID x1) db1); reflexivity.
  - left. unfold ReportService.Update, GetReportByID. rewrite F. reflexivity.
Qed.

Lemma Submit_lifecycleWrite id tenantID driverID now db :
  lifecycleWrite id now db (fst (ReportService.Submit id tenantID driverID now db)).
Proof.
  unfold ReportService.Submit, GetReportByID.
  destruct (gorm.First id (weekly_reports db)) as [r |] eqn:F; cbn [orZero]; [| now left].
  destruct (negb (WeeklyReport.TenantID r =? tenantID)%N); [now left |].
  destruct (negb (WeeklyReport.DriverID r =? driverID)%N); [now left |].
  destruct (String.eqb (WeeklyReport.Status r) "draft") eqn:S; cbn [negb]; [| now left].
  apply String.eqb_eq in S.
  set (x := WeeklyReport.set_SubmittedAt (Some now) (WeeklyReport.set_Status "submitted" r)).
  right. exists r, x. split; [exact F |]. split.
  - unfold laterState, advances. cbn. repeat (split; [reflexivity |]).
    right. left. split; [exact S | reflexivity].
  - destruct (UpdateReport now x db) as [[db1 x1] [e |]]; cbn; [reflexivity |].
    destruct (orZero _ _); reflexivity.
Qed.

Lemma Approve_lifecycleWrite g id tenantID approvedByID permission now db :
  lifecycleWrite id now db
    (fst (ReportService.Approve g id tenantID approvedByID permission now db)).
Proof.
  unfold ReportService.Approve, GetReportByID.
  destruct (negb (HasAnyPermission g permission _)); [now left |].
  destruct (gorm.First id (weekly_reports db)) as [r |] eqn:F; cbn [orZero]; [| now left].
  destruct (negb (WeeklyReport.TenantID r =? tenantID)%N); [now left |].
  destruct (String.eqb (WeeklyReport.Status r) "submitted") eqn:S; cbn [negb]; [| now left].
  apply String.eqb_eq in S.
  set (x := WeeklyReport.set_ApprovedByID (Some approvedByID)
              (WeeklyReport.set_ApprovedAt (Some now) (WeeklyReport.set_Status "approved" r))).
  right. exists r, x. split; [exact F |]. split.
  - unfold laterState, advances. cbn. repeat (split; [reflexivity |]).
    right. right. split; [exact S | left; reflexivity].
  - destruct (UpdateReport now x db) as [[db1 x1] [e |]]; cbn; [reflexivity |].
    destruct (orZero _ _); reflexivity.
Qed.

Lemma Reject_lifecycleWrite id tenantID now db :
  lifecycleWrite id now db (fst (ReportService.Reject id tenantID now db)).
Proof.
  unfold ReportService.Reject, GetReportByID.
  destruct (gorm.First id (weekly_reports db)) as [r |] eqn:F; cbn [orZero]; [| now left].
  destruct (negb (WeeklyReport.TenantID r =? tenantID)%N); [now left |].
  destruct (String.eqb (WeeklyReport.Status r) "submitted") eqn:S; cbn [negb]; [| now left].
  apply String.eqb_eq in S.
  set (x := WeeklyReport.set_Status "rejected" r).
  right. exists r, x. split; [exact F |]. split.
  - unfold laterState, advances. cbn. repeat (split; [reflexivity |]).
    right. right. split; [exact S | right; reflexivity].
  - destruct (UpdateReport now x db) as [[db1 x1] [e |]]; cbn; [reflexivity |].
    destruct (orZero _ _); reflexivity.
Qed.

(** The recalculation of a total keeps every stored report in a later state
    of itself, whatever database of the same reports it starts from. *)
Lemma refreshReportTotal_later (rid : option N) (now : Time) (db db1 : DB) (id : N)
    (r r' : WeeklyReport.t) :
  weekly_reports db1 = weekly_reports db ->
  gorm.First id (weekly_reports db) = Some r ->
  gorm.First id (weekly_reports (refreshReportTotal rid now db1)) = Some r' ->
  laterState r r'.
Proof.
  intros W F. rewrite <- W in F. clear W. unfold refreshReportTotal.
  destruct rid as [rid |].
  2: { intros F'. assert (r' = r) by congruence. subst. apply laterState_refl. }
  unfold GetReportByID.
  destruct (gorm.First rid (weekly_reports db1)) as [r0 |] eqn:F0; cbn [orZero GetExpensesByReport].
  - set (x := WeeklyReport.set_TotalExpenses _ r0).
    pose proof (UpdateReport_later now x db1 rid id r0 r r' F0) as U.
    destruct (UpdateReport now x db1) as [[db2 x2] err]. cbn [fst] in U.
    apply U; [| exact F]. unfold laterState. cbn. auto 6.
  - set (x := WeeklyReport.set_TotalExpenses _ WeeklyReport.zero).
    pose proof (UpdateReport_zero_key now x db1 id r r' eq_refl F) as U.
    destruct (UpdateReport now x db1) as [[db2 x2] err]. cbn [fst] in U.
    intros F'. rewrite (U F'). apply laterState_refl.
Qed.

Lemma CreateReport_kept (now : Time) (x : WeeklyReport.t) (db : DB) (id : N) (r : WeeklyReport.t) :
  gorm.First id (weekly_reports db) = Some r ->
  gorm.First id (weekly_reports (fst (fst (CreateReport now x db)))) = Some r.
Proof.
  intros F. unfold CreateReport.
  pose proof (@Create_First_kept _ _ WeeklyReport.writable (report_constraints db x) now x
                (weekly_reports db) id r F) as K.
  destruct (gorm.Create (report_constraints db x) now x (weekly_reports db)) as [[t x'] err].
  exact K.
Qed.

Lemma ReportService_Create_kept tenantID driverID req now db id r :
  gorm.First id (weekly_reports db) = Some r ->
  gorm.First id (weekly_reports (fst (ReportService.Create tenantID driverID req now db)))
  = Some r.
Proof.
  intros F. unfold ReportService.Create.
  destruct (GetTaxiByID (CreateReportRequest.TaxiID req) db) as [taxi err].
  destruct (negb (isNil err)); [exact F |].
  destruct (negb (Taxi.TenantID taxi =? tenantID)%N); [exact F |].
  set (x := WeeklyReport.mk _ _ _ _ _ _ _ _ _ _ _ _ _ _ _).
  pose proof (CreateReport_kept now x db id r F) as K.
  destruct (CreateReport now x db) as [[db1 x1] [e |]]; cbn [fst] in *; [exact K |].
  destruct (GetReportByID (WeeklyReport.ID x1) db1). exact K.
Qed.

Lemma ReportService_Delete_kept g id0 tenantID driverID permission now db id r' :
  gorm.First id
    (weekly_reports (fst (ReportService.Delete g id0 tenantID driverID permission now db)))
  = Some r' ->
  gorm.First id (weekly_reports db) = Some r'.
Proof.
  unfold ReportService.Delete.
  destruct (GetReportByID id0 db) as [report [e |]]; [auto |].
  destruct (negb (WeeklyReport.TenantID report =? tenantID)%N); [auto |].
  assert (D : gorm.First id (weekly_reports (fst (DeleteReport now id0 db))) = Some r' ->
              gorm.First id (weekly_reports db) = Some r').
  { unfold DeleteReport. cbn [fst weekly_reports set_weekly_reports]. intros F.
    exact (proj1 (@First_Delete_inv _ _ _ WeeklyReport_lawful now id0 id _ r' F)). }
  destruct (HasAnyPermission g permission _); [exact D |].
  destruct (permission =? PermissionDriver g); [| auto].
  destruct (negb (WeeklyReport.DriverID report =? driverID)%N); [auto |].
  destruct (negb (String.eqb (WeeklyReport.Status report) "draft")); [auto | exact D].
Qed.

Lemma CreateExpense_reports now x db :
  weekly_reports (fst (fst (CreateExpense now x db))) = weekly_reports db.
Proof.
  unfold CreateExpense. destruct (gorm.Create _ now x (expenses db)) as [[t x'] err]. reflexivity.
Qed.

Lemma UpdateExpense_reports now x db :
  weekly_reports (fst (fst (UpdateExpense now x db))) = weekly_reports db.
Proof.
  unfold UpdateExpense. destruct (gorm.Save _ now x (expenses db)) as [[t x'] err]. reflexivity.
Qed.

Lemma ExpenseService_Create_later tp tenantID createdByID req now db id r r' :
  gorm.First id (weekly_reports db) = Some r ->
  gorm.First id
    (weekly_reports (fst (ExpenseService.Create tp tenantID createdByID req now db))) = Some r' ->
  laterState r r'.
Proof.
  intros F. unfold ExpenseService.Create.
  destruct (if negb (String.eqb (CreateExpenseRequest.Date req) "")
            then tp (CreateExpenseRequest.Date req) else Some now) as [d |].
  2: { intros F'. assert (r' = r) by (cbn in F'; congruence). subst. apply laterState_refl. }
  set (x := Expense.set_Date d _).
  pose proof (CreateExpense_reports now x db) as W.
  destruct (CreateExpense now x db) as [[db1 x1] [e |]]; cbn [fst] in W.
  { cbn [fst]. rewrite W. intros F'. assert (r' = r) by congruence. subst.
    apply laterState_refl. }
  set (db2 := match CreateExpenseRequest.ReportID req with Some _ => _ | None => _ end).
  assert (E2 : db2 = match CreateExpenseRequest.ReportID req with
                     | Some rid =>
                         if (WeeklyReport.TenantID (fst (GetReportByID rid db1)) =? tenantID)%N
                         then refreshReportTotal (Some rid) now db1
                         else db1
                     | None => db1
                     end)
    by exact (Create_expense_refresh tenantID (CreateExpenseRequest.ReportID req) now db1).
  clearbody db2. subst db2.
  match goal with |- context [GetExpenseByID ?i ?d] => destruct (GetExpenseByID i d) end.
  cbn [fst].
  destruct (CreateExpenseRequest.ReportID req) as [rid |].
  - destruct (WeeklyReport.TenantID (fst (GetReportByID rid db1)) =? tenantID)%N.
    + exact (refreshReportTotal_later (Some rid) now db db1 id r r' W F).
    + rewrite W. intros F'. assert (r' = r) by congruence. subst. apply laterState_refl.
  - rewrite W. intros F'. assert (r' = r) by congruence. subst. apply laterState_refl.
Qed.

Lemma ExpenseService_Update_later tp id0 tenantID req now db id r r' :
  gorm.First id (weekly_reports db) = Some r ->
  gorm.First id (weekly_reports (fst (ExpenseService.Update tp id0 tenantID req now db)))
  = Some r' ->
  laterState r r'.
Proof.
  intros F.
  assert (Same : gorm.First id (weekly_reports db) = Some r' -> laterState r r').
  { intros F'. assert (r' = r) by congruence. subst. apply laterState_refl. }
  destruct (gorm.First id0 (expenses db)) as [e |] eqn:Fe.
  2: { unfold ExpenseService.Update, GetExpenseByID. rewrite Fe. exact Same. }
  rewrite (ExpenseService_Update_eq _ _ _ _ _ _ _ Fe).
  destruct (negb (Expense.TenantID e =? tenantID)%N); [exact Same |].
  destruct (editedExpense tp req e) as [x |]; [| exact Same].
  pose proof (UpdateExpense_reports now x db) as W.
  destruct (UpdateExpense now x db) as [[db1 x1] [er |]]; cbn [fst] in W.
  { cbn [fst]. rewrite W. exact Same. }
  cbv zeta.
  match goal with |- context [GetExpenseByID ?i ?d] => destruct (GetExpenseByID i d) end.
  cbn [fst]. exact (refreshReportTotal_later _ now db db1 id r r' W F).
Qed.

Lemma ExpenseService_Delete_later id0 tenantID now db id r r' :
  gorm.First id (weekly_reports db) = Some r ->
  gorm.First id (weekly_reports (fst (ExpenseService.Delete id0 tenantID now db))) = Some r' ->
  laterState r r'.
Proof.
  intros F.
  assert (Same : gorm.First id (weekly_reports db) = Some r' -> laterState r r').
  { intros F'. assert (r' = r) by congruence. subst. apply laterState_refl. }
  destruct (gorm.First id0 (expenses db)) as [e |] eqn:Fe.
  2: { unfold ExpenseService.Delete, GetExpenseByID. rewrite Fe. exact Same. }
  rewrite (ExpenseService_Delete_eq _ _ _ _ _ Fe).
  destruct (negb (Expense.TenantID e =? tenantID)%N); [exact Same |].
  cbn [fst]. apply (refreshReportTotal_later _ now db _ id r r'); [reflexivity | exact F].
Qed.

(** X8. No operation of the report service or of the expense service moves
    a report backwards or hands it to someone else: a report that is still
    there after the operation has the key, tenant, taxi and driver it had,
    and its status is the one it had or one step further along
    draft, submitted, then approved or rejected.  This holds of every
    database, whatever the call returns. *)
Theorem reports_only_move_forward (g : Masks) (time_Parse : string -> option Time)
    (c : call) (now : Time) (db : DB) (id : N) (r r' : WeeklyReport.t) :
  gorm.First id (weekly_reports db) = Some r ->
  gorm.First id (weekly_reports (after g time_Parse c now db)) = Some r' ->
  laterState r r'.
Proof.
  intros F.
  assert (Same : gorm.First id (weekly_reports db) = Some r' -> laterState r r').
  { intros F'. assert (r' = r) by congruence. subst. apply laterState_refl. }
  destruct c; cbn [after].
  - rewrite (ReportService_Create_kept _ _ _ _ _ _ _ F). intros [= <-]. apply laterState_refl.
  - unfold ReportService.GetByID. destruct (GetReportByID id0 db) as [x [e |]]; [exact Same |].
    destruct (negb (WeeklyReport.TenantID x =? tenantID)%N); exact Same.
  - unfold ReportService.List. destruct (permission =? PermissionDriver g); exact Same.
  - intros F'. exact (lifecycleWrite_later id0 now db _ id r r'
                        (Update_lifecycleWrite g id0 tenantID driverID permission req now db) F F').
  - intros F'. exact (lifecycleWrite_later id0 now db _ id r r'
                        (Submit_lifecycleWrite id0 tenantID driverID now db) F F').
  - intros F'. exact (lifecycleWrite_later id0 now db _ id r r'
                        (Approve_lifecycleWrite g id0 tenantID approvedByID permission now db)
                        F F').
  - intros F'. exact (lifecycleWrite_later id0 now db _ id r r'
                        (Reject_lifecycleWrite id0 tenantID now db) F F').
  - intros F'. apply Same. exact (ReportService_Delete_kept _ _ _ _ _ _ _ _ _ F').
  - exact (ExpenseService_Create_later _ _ _ _ _ _ _ _ _ F).
  - unfold ExpenseService.GetByID. destruct (GetExpenseByID id0 db) as [x [e |]]; [exact Same |].
    destruct (negb (Expense.TenantID x =? tenantID)%N); exact Same.
  - exact Same.
  - exact (ExpenseService_Update_later _ _ _ _ _ _ _ _ _ F).
  - exact (ExpenseService_Delete_later _ _ _ _ _ _ _ F).
Qed.

Lemma reports_only_move_forward_witness :
  laterState
    (WeeklyReport.mk 1 1 1 2 100 500 0 "draft" "" None None None 20 20 None)
    (WeeklyReport.mk 1 1 1 2 100 500 0 "submitted" "" (Some 70) None None 20 70 None).
Proof.
  apply (reports_only_move_forward configured fleet.parse (ReportSubmit 1 1 2) 70 fleet.db0 1);
    reflexivity.
Defined.

(** ** The steps of the lifecycle, one by one *)

(** On a sound database the write of a changed copy of a stored report is
    accepted, and the report is then found as written. *)
Lemma lifecycle_write_found (now : Time) (db : DB) (id : N) (r x : WeeklyReport.t) :
  integrity db = true ->
  gorm.First id (weekly_reports db) = Some r ->
  WeeklyReport.ID x = WeeklyReport.ID r ->
  WeeklyReport.TenantID x = WeeklyReport.TenantID r ->
  WeeklyReport.TaxiID x = WeeklyReport.TaxiID r ->
  WeeklyReport.DriverID x = WeeklyReport.DriverID r ->
  WeeklyReport.DeletedAt x = WeeklyReport.DeletedAt r ->
  references_opt (WeeklyReport.ApprovedByID x) (users db) = true ->
  exists db',
    UpdateReport now x db = (db', WeeklyReport.stamp_updated now x, None)
    /\ GetReportByID (WeeklyReport.ID (WeeklyReport.stamp_updated now x)) db'
       = (WeeklyReport.stamp_updated now x, None)
    /\ gorm.First id (weekly_reports db') = Some (WeeklyReport.stamp_updated now x).
Proof.
  intros G F K1 K2 K3 K4 K5 RA.
  destruct (integrity_parts db G) as (_ & KR & _).
  pose proof (First_nonzero _ _ _ KR F) as NZ.
  destruct (First_live_report _ _ _ F) as [Pk Lv].
  destruct (@First_Some _ WeeklyReport.model _ _ _ F) as (I & _ & _).
  assert (C : report_constraints db x = true).
  { pose proof (stored_report_constraints db r G I) as C0.
    unfold report_constraints in *. rewrite K2, K3, K4, RA.
    rewrite !andb_true_iff in *. destruct C0 as [[[A1 A2] A3] _]. auto. }
  assert (NZx : WeeklyReport.ID x <> 0%N) by congruence.
  assert (Fx : gorm.First (WeeklyReport.ID x) (weekly_reports db) = Some r) by congruence.
  assert (Lx : WeeklyReport.DeletedAt x = None) by congruence.
  destruct (UpdateReport_found now r x db NZx Fx Lx C) as (t' & Up & P1 & _).
  exists (set_weekly_reports t' db). split; [exact Up |].
  change (WeeklyReport.ID (WeeklyReport.stamp_updated now x)) with (WeeklyReport.ID x).
  unfold GetReportByID. change (weekly_reports (set_weekly_reports t' db)) with t'.
  rewrite P1. split; [reflexivity |]. rewrite <- Pk, <- K1. exact P1.
Qed.

(** X9. [Submit] on a sound database, for a report of the caller's tenant:
    a caller who is not the driver of the report gets "unauthorized"; the
    driver gets "report already submitted" unless the report is a draft;
    the driver's draft becomes "submitted" with [submitted_at] set to the
    instant of the call, every other field but [updated_at] as it was, and
    that is the report returned and stored. *)
Theorem ReportService_Submit_spec (id tenantID driverID : N) (now : Time) (db : DB)
    (r : WeeklyReport.t) :
  integrity db = true ->
  gorm.First id (weekly_reports db) = Some r ->
  WeeklyReport.TenantID r = tenantID ->
  let out := ReportService.Submit id tenantID driverID now db in
  (WeeklyReport.DriverID r <> driverID ->
   out = (db, (None, Some (New "unauthorized"))))
  /\ (WeeklyReport.DriverID r = driverID -> WeeklyReport.Status r <> "draft" ->
      out = (db, (None, Some (New "report already submitted"))))
  /\ (WeeklyReport.DriverID r = driverID -> WeeklyReport.Status r = "draft" ->
      let r' := WeeklyReport.stamp_updated now
                  (WeeklyReport.set_SubmittedAt (Some now)
                     (WeeklyReport.set_Status "submitted" r)) in
      snd out = (Some r', None)
      /\ gorm.First id (weekly_reports (fst out)) = Some r').
Proof.
  intros G F T out. unfold out, ReportService.Submit, GetReportByID.
  rewrite F. cbn [orZero]. rewrite T, N.eqb_refl. cbn [negb].
  split; [| split].
  - intros D. apply N.eqb_neq in D. rewrite D. reflexivity.
  - intros D S. rewrite D, N.eqb_refl. cbn [negb].
    apply String.eqb_neq in S. rewrite S. reflexivity.
  - intros D S. rewrite D, N.eqb_refl. cbn [negb].
    rewrite S. change (String.eqb "draft" "draft") with true. cbn [negb].
    set (x := WeeklyReport.set_SubmittedAt (Some now) (WeeklyReport.set_Status "submitted" r)).
    destruct (lifecycle_write_found now db id r x G F) as (db' & Up & Get & F');
      try reflexivity.
    { pose proof (stored_report_constraints db r G
                    (proj1 (@First_Some _ WeeklyReport.model _ _ _ F))) as C0.
      unfold report_constraints in C0. rewrite !andb_true_iff in C0. apply C0. }
    unfold GetReportByID in Get. rewrite Up. cbv beta iota. rewrite Get. cbn [fst snd]. auto.
Qed.

Lemma ReportService_Submit_spec_witness :
  snd (ReportService.Submit 1 1 2 70 fleet.db0)
  = (Some (WeeklyReport.stamp_updated 70
             (WeeklyReport.set_SubmittedAt (Some 70)
                (WeeklyReport.set_Status "submitted"
                   (WeeklyReport.mk 1 1 1 2 100 500 0 "draft" "" None None None 20 20 None)))),
     None).
Proof.
  apply (ReportService_Submit_spec 1 1 2 70 fleet.db0
           (WeeklyReport.mk 1 1 1 2 100 500 0 "draft" "" None None None 20 20 None));
    reflexivity.
Defined.

(** X10. [Reject] takes no caller: on a sound database, for a report of the
    given tenant, it answers "report must be submitted before rejection"
    unless the status is "submitted", and then stores and returns the report
    with status "rejected" and nothing else changed but [updated_at]; who
    rejected it is recorded nowhere. *)
Theorem ReportService_Reject_spec (id tenantID : N) (now : Time) (db : DB) (r : WeeklyReport.t) :
  integrity db = true ->
  gorm.First id (weekly_reports db) = Some r ->
  WeeklyReport.TenantID r = tenantID ->
  let out := ReportService.Reject id tenantID now db in
  (WeeklyReport.Status r <> "submitted" ->
   out = (db, (None, Some (New "report must be submitted before rejection"))))
  /\ (WeeklyReport.Status r = "submitted" ->
      let r' := WeeklyReport.stamp_updated now (WeeklyReport.set_Status "rejected" r) in
      snd out = (Some r', None)
      /\ gorm.First id (weekly_reports (fst out)) = Some r'
      /\ WeeklyReport.ApprovedByID r' = WeeklyReport.ApprovedByID r
      /\ WeeklyReport.ApprovedAt r' = WeeklyReport.ApprovedAt r).
Proof.
  intros G F T out. unfold out, ReportService.Reject, GetReportByID.
  rewrite F. cbn [orZero]. rewrite T, N.eqb_refl. cbn [negb].
  split.
  - intros S. apply String.eqb_neq in S. rewrite S. reflexivity.
  - intros S. rewrite S. change (String.eqb "submitted" "submitted") with true. cbn [negb].
    set (x := WeeklyReport.set_Status "rejected" r).
    destruct (lifecycle_write_found now db id r x G F) as (db' & Up & Get & F');
      try reflexivity.
    { pose proof (stored_report_constraints db r G
                    (proj1 (@First_Some _ WeeklyReport.model _ _ _ F))) as C0.
      unfold report_constraints in C0. rewrite !andb_true_iff in C0. apply C0. }
    unfold GetReportByID in Get. rewrite Up. cbv beta iota. rewrite Get. cbn [fst snd]. auto.
Qed.

Lemma ReportService_Reject_spec_witness :
  snd (ReportService.Reject 2 1 70 fleet.db0)
  = (Some (WeeklyReport.stamp_updated 70
             (WeeklyReport.set_Status "rejected"
                (WeeklyReport.mk 2 1 1 2 107 450 0 "submitted" "" (Some 30) None None 21 30
                   None))),
     None).
Proof.
  apply (ReportService_Reject_spec 2 1 70 fleet.db0
           (WeeklyReport.mk 2 1 1 2 107 450 0 "submitted" "" (Some 30) None None 21 30 None));
    reflexivity.
Defined.

(** X11. An approved or rejected report is at the end of its life: whoever
    calls, [Submit], [Approve] and [Reject] return an error and leave the
    database as it was, and so does [Update] on an approved report.  (A
    rejected report can still be edited by a caller with the edit bit, and
    either can be deleted.) *)
Theorem finished_reports_stay (g : Masks) (id tenantID userID : N) (permission : Z)
    (req : UpdateReportRequest.t) (now : Time) (db : DB) (r : WeeklyReport.t) :
  gorm.First id (weekly_reports db) = Some r ->
  WeeklyReport.Status r = "approved" \/ WeeklyReport.Status r = "rejected" ->
  (exists e, ReportService.Submit id tenantID userID now db = (db, (None, Some e)))
  /\ (exists e, ReportService.Approve g id tenantID userID permission now db
                = (db, (None, Some e)))
  /\ (exists e, ReportService.Reject id tenantID now db = (db, (None, Some e)))
  /\ (WeeklyReport.Status r = "approved" ->
      exists e, ReportService.Update g id tenantID userID permission req now db
                = (db, (None, Some e))).
Proof.
  intros F S.
  assert (ND : String.eqb (WeeklyReport.Status r) "draft" = false)
    by (destruct S as [-> | ->]; reflexivity).
  assert (NS : String.eqb (WeeklyReport.Status r) "submitted" = false)
    by (destruct S as [-> | ->]; reflexivity).
  split; [| split; [| split]].
  - unfold ReportService.Submit, GetReportByID. rewrite F. cbn [orZero].
    destruct (negb (WeeklyReport.TenantID r =? tenantID)%N); [eexists; reflexivity |].
    destruct (negb (WeeklyReport.DriverID r =? userID)%N); [eexists; reflexivity |].
    rewrite ND. eexists. reflexivity.
  - unfold ReportService.Approve, GetReportByID.
    destruct (negb (HasAnyPermission g permission _)); [eexists; reflexivity |].
    rewrite F. cbn [orZero].
    destruct (negb (WeeklyReport.TenantID r =? tenantID)%N); [eexists; reflexivity |].
    rewrite NS. eexists. reflexivity.
  - unfold ReportService.Reject, GetReportByID. rewrite F. cbn [orZero].
    destruct (negb (WeeklyReport.TenantID r =? tenantID)%N); [eexists; reflexivity |].
    rewrite NS. eexists. reflexivity.
  - intros A. rewrite (ReportService_Update_eq _ _ _ _ _ _ _ _ _ F).
    destruct (negb (WeeklyReport.TenantID r =? tenantID)%N); [eexists; reflexivity |].
    unfold updateRefusal. rewrite A.
    change (String.eqb "approved" "approved") with true.
    change (String.eqb "approved" "draft") with false.
    destruct (negb (HasPermission g permission PermissionEditReports)); cbn [negb isNil].
    + destruct (negb (WeeklyReport.DriverID r =? userID)%N); cbn [negb isNil];
        eexists; reflexivity.
    + eexists. reflexivity.
Qed.

Lemma finished_reports_stay_witness :
  exists e, ReportService.Submit 3 1 2 70 fleet.db0 = (fleet.db0, (None, Some e)).
Proof.
  apply (finished_reports_stay configured 3 1 2 3
           (UpdateReportRequest.mk 0 0 "") 70 fleet.db0
           (WeeklyReport.mk 3 1 1 2 114 400 0 "approved" "" (Some 31) (Some 40) (Some 1%N)
              22 40 None)).
  - reflexivity.
  - left. reflexivity.
Defined.

(** X12. [Approve], for the callers who pass its owner-or-admin test, on a
    sound database and for a report of the given tenant: the answer is
    "report must be submitted before approval" unless the status is
    "submitted"; a submitted report that names no approver yet is stored
    and returned with status "approved", [approved_at] the instant of the
    call and [approved_by_id] the caller, everything else but [updated_at]
    as it was.  A caller who
    fails the test gets "only owner or admin can approve reports" before
    the report is even looked up. *)
Theorem ReportService_Approve_spec (g : Masks) (id tenantID approvedByID : N) (permission : Z)
    (now : Time) (db : DB) (r : WeeklyReport.t) :
  integrity db = true ->
  gorm.First id (weekly_reports db) = Some r ->
  WeeklyReport.TenantID r = tenantID ->
  gorm.references approvedByID (users db) = true ->
  let out := ReportService.Approve g id tenantID approvedByID permission now db in
  (HasAnyPermission g permission [PermissionOwner g; PermissionAdmin g] = false ->
   out = (db, (None, Some (New "only owner or admin can approve reports"))))
  /\ (HasAnyPermission g permission [PermissionOwner g; PermissionAdmin g] = true ->
      (WeeklyReport.Status r <> "submitted" ->
       out = (db, (None, Some (New "report must be submitted before approval"))))
      /\ (WeeklyReport.Status r = "submitted" ->
          WeeklyReport.ApprovedByID r = None ->
          let r' := WeeklyReport.stamp_updated now
                      (WeeklyReport.set_ApprovedByID (Some approvedByID)
                         (WeeklyReport.set_ApprovedAt (Some now)
                            (WeeklyReport.set_Status "approved" r))) in
          snd out = (Some r', None)
          /\ gorm.First id (weekly_reports (fst out)) = Some r')).
Proof.
  intros G F T U out. unfold out, ReportService.Approve, GetReportByID.
  split.
  - intros P. rewrite P. reflexivity.
  - intros P. rewrite P. cbn [negb]. rewrite F. cbn [orZero].
    rewrite T, N.eqb_refl. cbn [negb]. split.
    + intros S. apply String.eqb_neq in S. rewrite S. reflexivity.
    + intros S _. rewrite S. change (String.eqb "submitted" "submitted") with true. cbn [negb].
      set (x := WeeklyReport.set_ApprovedByID (Some approvedByID)
                  (WeeklyReport.set_ApprovedAt (Some now)
                     (WeeklyReport.set_Status "approved" r))).
      destruct (lifecycle_write_found now db id r x G F) as (db' & Up & Get & F');
        try reflexivity.
      { exact U. }
      unfold GetReportByID in Get. rewrite Up. cbv beta iota. rewrite Get. cbn [fst snd]. auto.
Qed.

Lemma ReportService_Approve_spec_witness :
  snd (ReportService.Approve configured 2 1 1 0xFFFFF 70 fleet.db0)
  = (Some (WeeklyReport.stamp_updated 70
             (WeeklyReport.set_ApprovedByID (Some 1%N)
                (WeeklyReport.set_ApprovedAt (Some 70)
                   (WeeklyReport.set_Status "approved"
                      (WeeklyReport.mk 2 1 1 2 107 450 0 "submitted" "" (Some 30) None None
                         21 30 None))))),
     None).
Proof.
  apply (ReportService_Approve_spec configured 2 1 1 0xFFFFF 70 fleet.db0
           (WeeklyReport.mk 2 1 1 2 107 450 0 "submitted" "" (Some 30) None None 21 30 None));
    reflexivity.
Defined.



(* ================================================================== *)
(** * Further properties: the lists *)
(* ================================================================== *)

Lemma insertDesc_perm {A : Type} (key : A -> Z) (x : A) (l : list A) :
  Permutation (insertDesc key x l) (x :: l).
Proof.
  induction l as [| y l IH]; simpl; [apply Permutation_refl |].
  destruct (key y <? key x); [apply Permutation_refl |].
  apply perm_trans with (y :: x :: l); [now apply perm_skip | apply perm_swap].
Qed.

Lemma orderDesc_perm {A : Type} (key : A -> Z) (l : list A) :
  Permutation (orderDesc key l) l.
Proof.
  unfold orderDesc. induction l as [| x l IH]; simpl; [apply Permutation_refl |].
  apply perm_trans with (x :: fold_right (insertDesc key) [] l);
    [apply insertDesc_perm | now apply perm_skip].
Qed.

Lemma insertDesc_descending {A : Type} (key : A -> Z) (x : A) (l : list A) :
  descending key l -> descending key (insertDesc key x l).
Proof.
  induction l as [| y l IH]; simpl.
  - intros _. split; [intros y [] | exact I].
  - intros [B D]. destruct (key y <? key x) eqn:E.
    + apply Z.ltb_lt in E. simpl. split; [| split; assumption].
      intros z [<- | Iz]; [lia |]. specialize (B z Iz). lia.
    + apply Z.ltb_ge in E. simpl. split; [| exact (IH D)].
      intros z Iz. apply (Permutation_in _ (insertDesc_perm key x l)) in Iz.
      destruct Iz as [<- | Iz]; [exact E | exact (B z Iz)].
Qed.

Lemma orderDesc_descending {A : Type} (key : A -> Z) (l : list A) :
  descending key (orderDesc key l).
Proof.
  unfold orderDesc. induction l as [| x l IH]; simpl; [exact I |].
  now apply insertDesc_descending.
Qed.

(** X14. What the four [List] operations return.  None fails or writes.
    Reports: for a caller whose mask equals the driver mask, the live
    reports whose driver is the caller, of whatever tenant; for every other
    caller the live reports of the tenant; by week start date, latest
    first.  Expenses and deposits: the live rows of the tenant, latest date
    first.  Taxis: the live rows of the tenant; their query names no
    order. *)
Theorem List_spec (g : Masks) (tenantID userID : N) (permission : Z) (db : DB) :
  (let out := ReportService.List g tenantID userID permission db in
   fst out = db /\ snd (snd out) = None
   /\ descending WeeklyReport.WeekStartDate (fst (snd out))
   /\ Permutation (fst (snd out))
        (filter (fun r => gorm.live r
                          && (if permission =? PermissionDriver g
                              then (WeeklyReport.DriverID r =? userID)%N
                              else (WeeklyReport.TenantID r =? tenantID)%N))
           (gorm.rows (weekly_reports db))))
  /\ (let out := ExpenseService.List tenantID db in
      fst out = db /\ snd (snd out) = None
      /\ descending Expense.Date (fst (snd out))
      /\ Permutation (fst (snd out))
           (filter (fun e => gorm.live e && (Expense.TenantID e =? tenantID)%N)
              (gorm.rows (expenses db))))
  /\ (let out := DepositService.List tenantID db in
      fst out = db /\ snd (snd out) = None
      /\ descending BankDeposit.DepositDate (fst (snd out))
      /\ Permutation (fst (snd out))
           (filter (fun d => gorm.live d && (BankDeposit.TenantID d =? tenantID)%N)
              (gorm.rows (bank_deposits db))))
  /\ (let out := TaxiService.List tenantID db in
      fst out = db /\ snd (snd out) = None
      /\ Permutation (fst (snd out))
           (filter (fun t => gorm.live t && (Taxi.TenantID t =? tenantID)%N)
              (gorm.rows (taxis db)))).
Proof.
  split; [| split; [| split]].
  - unfold ReportService.List, GetReportsByDriver, GetReportsByTenant.
    destruct (permission =? PermissionDriver g); cbn [fst snd];
      (split; [reflexivity | split; [reflexivity | split]]);
      [apply orderDesc_descending | apply orderDesc_perm
      | apply orderDesc_descending | apply orderDesc_perm].
  - cbn. split; [reflexivity | split; [reflexivity | split]];
      [apply orderDesc_descending | apply orderDesc_perm].
  - cbn. split; [reflexivity | split; [reflexivity | split]];
      [apply orderDesc_descending | apply orderDesc_perm].
  - cbn. split; [reflexivity | split; [reflexivity | apply Permutation_refl]].
Qed.

(* ================================================================== *)
(** * Further properties: taxis *)
(* ================================================================== *)

#[global] Instance Taxi_lawful : Lawful Taxi.t.
Proof. constructor; reflexivity. Qed.

#[global] Instance Session_lawful : Lawful Session.t.
Proof. constructor; reflexivity. Qed.

#[global] Instance User_lawful : Lawful User.t.
Proof. constructor; reflexivity. Qed.






(** X17. Taxis are scoped to their tenant: for a stored taxi of another
    tenant than the caller's, [GetByID], [Update] and [Delete] answer
    "taxi not found" and leave the database as it was; and a key that has
    no live taxi gives the record-not-found error of the repository. *)
Theorem TaxiService_cross_tenant (id tenantID : N) (req : UpdateTaxiRequest.t) (now : Time)
    (db : DB) :
  (forall t, gorm.First id (taxis db) = Some t -> Taxi.TenantID t <> tenantID ->
     TaxiService.GetByID id tenantID db = (db, (None, Some (New "taxi not found")))
     /\ TaxiService.Update id tenantID req now db = (db, (None, Some (New "taxi not found")))
     /\ TaxiService.Delete id tenantID now db = (db, Some (New "taxi not found")))
  /\ (gorm.First id (taxis db) = None ->
      TaxiService.GetByID id tenantID db = (db, (None, Some ErrRecordNotFound))
      /\ TaxiService.Update id tenantID req now db = (db, (None, Some ErrRecordNotFound))
      /\ TaxiService.Delete id tenantID now db = (db, Some ErrRecordNotFound)).
Proof.
  split.
  - intros t F D. apply N.eqb_neq in D.
    unfold TaxiService.GetByID, TaxiService.Update, TaxiService.Delete, GetTaxiByID.
    rewrite F. cbn [orZero]. rewrite D. cbn [negb]. auto.
  - intros F.
    unfold TaxiService.GetByID, TaxiService.Update, TaxiService.Delete, GetTaxiByID.
    rewrite F. cbn [orZero]. auto.
Qed.

Lemma TaxiService_cross_tenant_witness :
  TaxiService.Delete 2 1 70 fleet.db0 = (fleet.db0, Some (New "taxi not found")).
Proof.
  pose proof (TaxiService_cross_tenant 2 1 (UpdateTaxiRequest.mk "" "" 0 "" "" "" None) 70
                fleet.db0) as [H _].
  apply (H (Taxi.mk 2 2 "XYZ-789" "Honda Accord" 2021 "Black" "" "active" None 10 10 None)).
  - reflexivity.
  - discriminate.
Defined.

(** X18. Deleting a taxi is a soft delete of that row only.  After a
    successful [Delete] the taxi is no longer found by its key, no report
    can be created for it ("taxi not found", nothing written), and the
    reports and expenses that name it are left as they were. *)
Theorem TaxiService_Delete_spec (id tenantID : N) (now : Time) (db : DB) (t : Taxi.t) :
  gorm.First id (taxis db) = Some t ->
  Taxi.TenantID t = tenantID ->
  let out := TaxiService.Delete id tenantID now db in
  snd out = None
  /\ gorm.First id (taxis (fst out)) = None
  /\ TaxiService.GetByID id tenantID (fst out) = (fst out, (None, Some ErrRecordNotFound))
  /\ weekly_reports (fst out) = weekly_reports db
  /\ expenses (fst out) = expenses db
  /\ (forall tenantID' driverID req now',
        CreateReportRequest.TaxiID req = id ->
        ReportService.Create tenantID' driverID req now' (fst out)
        = (fst out, (None, Some (New "taxi not found")))).
Proof.
  intros F T out.
  assert (E : out = DeleteTaxi now id db).
  { unfold out, TaxiService.Delete, GetTaxiByID. rewrite F. cbn [orZero].
    rewrite T, N.eqb_refl. reflexivity. }
  rewrite E. unfold DeleteTaxi. cbn [fst snd].
  assert (Gone : gorm.First id (taxis (set_taxis (gorm.Delete now id (taxis db)) db)) = None).
  { cbn [taxis set_taxis]. exact (@First_Delete _ _ _ Taxi_lawful now id (taxis db)). }
  split; [reflexivity | split; [exact Gone | split; [| split; [| split]]]].
  - unfold TaxiService.GetByID, GetTaxiByID. rewrite Gone. reflexivity.
  - reflexivity.
  - reflexivity.
  - intros tenantID' driverID req now' Et.
    unfold ReportService.Create, GetTaxiByID. rewrite Et, Gone. reflexivity.
Qed.

Lemma TaxiService_Delete_spec_witness :
  gorm.First 1 (taxis (fst (TaxiService.Delete 1 1 70 fleet.db0))) = None.
Proof.
  pose proof (TaxiService_Delete_spec 1 1 70 fleet.db0
                (Taxi.mk 1 1 "ABC-123" "Toyota Camry" 2020 "White" "" "active" (Some 2%N) 10 10
                   None)
                eq_refl eq_refl) as H.
  cbv zeta in H. destruct H as (_ & H & _). exact H.
Defined.

(* ================================================================== *)
(** * Further properties: logging in and out *)
(* ================================================================== *)

Section FirstWhereFacts.
Context {A : Type} `{gorm.Model A}.

Let step (best : option A) (x : A) : option A :=
  match best with
  | None => Some x
  | Some b => if (gorm.pk x <? gorm.pk b)%N then Some x else Some b
  end.

Lemma fold_min_Some (l : list A) (b : A) :
  exists m, fold_left step l (Some b) = Some m /\ (m = b \/ In m l).
Proof.
  revert b. induction l as [| y l IH]; intros b; simpl.
  - exists b. auto.
  - destruct (gorm.pk y <? gorm.pk b)%N.
    + destruct (IH y) as (m & E & [Em | I]); exists m; auto.
    + destruct (IH b) as (m & E & [Em | I]); exists m; auto.
Qed.

(** [FirstWhere] fails exactly when no live row passes the condition. *)
Lemma FirstWhere_None (cond : A -> bool) (t : gorm.Table A) :
  gorm.FirstWhere cond t = None <->
  forall x, In x (gorm.rows t) -> gorm.live x && cond x = false.
Proof.
  unfold gorm.FirstWhere, gorm.Where. fold step.
  rewrite <- (hd_error_filter_none (fun x => gorm.live x && cond x) (gorm.rows t)).
  destruct (filter _ (gorm.rows t)) as [| y l]; simpl.
  - split; reflexivity.
  - destruct (fold_min_Some l y) as (m & E & _). rewrite E. split; discriminate.
Qed.

(** What it finds is a live row that passes the condition. *)
Lemma FirstWhere_Some (cond : A -> bool) (t : gorm.Table A) (x : A) :
  gorm.FirstWhere cond t = Some x ->
  In x (gorm.rows t) /\ gorm.live x = true /\ cond x = true.
Proof.
  unfold gorm.FirstWhere, gorm.Where. fold step.
  destruct (filter _ (gorm.rows t)) as [| y l] eqn:Fl; simpl; [discriminate |].
  destruct (fold_min_Some l y) as (m & E & I). rewrite E. intros [= <-].
  assert (Im : In m (filter (fun x => gorm.live x && cond x) (gorm.rows t))).
  { rewrite Fl. destruct I as [-> | I]; [now left | now right]. }
  apply filter_In in Im. destruct Im as [Im P]. apply andb_true_iff in P. tauto.
Qed.

End FirstWhereFacts.

Lemma GetUserByEmail_found (email : string) (db : DB) (u : User.t) :
  GetUserByEmail email db = (u, None) ->
  In u (gorm.rows (users db)) /\ User.DeletedAt u = None /\ User.Email u = email.
Proof.
  unfold GetUserByEmail.
  destruct (gorm.FirstWhere _ (users db)) as [x |] eqn:F; cbn [orZero]; [| discriminate].
  intros [= <-]. apply FirstWhere_Some in F. destruct F as (I & L & E).
  apply String.eqb_eq in E. unfold gorm.live in L. cbn in L.
  destruct (User.DeletedAt x); [discriminate | auto].
Qed.

Lemma GetUserByEmail_outcome (email : string) (db : DB) :
  (exists u, GetUserByEmail email db = (u, None))
  \/ (GetUserByEmail email db = (User.zero, Some ErrRecordNotFound)
      /\ forall u, In u (gorm.rows (users db)) -> User.DeletedAt u = None ->
                   User.Email u <> email).
Proof.
  unfold GetUserByEmail.
  destruct (gorm.FirstWhere _ (users db)) as [x |] eqn:F; cbn [orZero].
  - left. eexists. reflexivity.
  - right. split; [reflexivity |]. intros u I L E.
    rewrite FirstWhere_None in F. specialize (F u I).
    unfold gorm.live in F. cbn in F. rewrite L in F. cbn in F.
    apply String.eqb_neq in F. contradiction.
Qed.

(** The refresh token [generateTokens] signs. *)
Lemma generateTokens_eq SignedString cfg u now :
  AuthService.generateTokens SignedString cfg u now
  = (SignedString (accessClaims cfg u now) (JWTConfig.Secret cfg),
     SignedString (refreshClaims cfg u now) (JWTConfig.Secret cfg), None).
Proof. reflexivity. Qed.

(** [Login] when the repository finds a user for the email. *)
Lemma Login_found (SignedString : MapClaims.t -> string -> string)
    (CompareHashAndPassword : string -> string -> bool) (cfg : JWTConfig.t)
    (req : LoginRequest.t) (now : Time) (db : DB) (u : User.t) :
  GetUserByEmail (LoginRequest.Email req) db = (u, None) ->
  let out := AuthService.Login SignedString CompareHashAndPassword cfg req now db in
  let ok := CompareHashAndPassword (User.PasswordHash u) (LoginRequest.Password req) in
  let access := SignedString (accessClaims cfg u now) (JWTConfig.Secret cfg) in
  let refresh := SignedString (refreshClaims cfg u now) (JWTConfig.Secret cfg) in
  (ok = false -> out = (db, (None, Some (New "invalid credentials"))))
  /\ (ok = true -> User.Active u = false ->
      out = (db, (None, Some (New "user account is inactive"))))
  /\ (ok = true -> User.Active u = true ->
      existsb (hasToken refresh) (gorm.rows (sessions db)) = false ->
      out = (set_sessions
               (gorm.mkTable
                  (gorm.rows (sessions db)
                   ++ [Session.mk (N.succ (gorm.seq (sessions db))) (User.ID u) refresh
                         (now + JWTConfig.RefreshExpiration cfg) now None])
                  (N.succ (gorm.seq (sessions db)))) db,
             (Some (AuthResponse.mk access refresh u), None)))
  /\ (ok = true -> User.Active u = true ->
      existsb (hasToken refresh) (gorm.rows (sessions db)) = true ->
      out = (set_sessions (gorm.mkTable (gorm.rows (sessions db))
                             (N.succ (gorm.seq (sessions db)))) db,
             (None, Some ErrConstraint))).
Proof.
  intros E out ok access refresh.
  destruct (GetUserByEmail_found _ _ _ E) as (I & L & Em).
  unfold out, AuthService.Login. rewrite E. cbn [isNil negb]. fold ok.
  split; [| split; [| split]].
  - intros ->. reflexivity.
  - intros -> ->. reflexivity.
  - intros -> -> Fresh. cbn [negb]. rewrite generateTokens_eq. fold access refresh.
    unfold CreateSession, session_constraints. cbn [Session.UserID Session.Token].
    rewrite Fresh.
    assert (R : gorm.references (User.ID u) (users db) = true)
      by (apply references_In; exists u; auto).
    rewrite R. reflexivity.
  - intros -> -> Clash. cbn [negb]. rewrite generateTokens_eq. fold access refresh.
    unfold CreateSession, session_constraints. cbn [Session.UserID Session.Token].
    rewrite Clash, andb_false_r. reflexivity.
Qed.

(** X19. [Login] step by step.  An email that no live user carries and a
    wrong password give the same "invalid credentials"; the password is
    checked before the account's [active] flag, so "user account is
    inactive" is told only to a caller who knows the password; none of
    these writes.  Otherwise the caller gets the two tokens signed for the
    user and the row found, and one session is appended for the refresh
    token, expiring after the configured refresh period; unless a session
    row, deleted or not, already holds that token: then the database
    refuses, the login fails and no session is added. *)
Theorem Login_spec (SignedString : MapClaims.t -> string -> string)
    (CompareHashAndPassword : string -> string -> bool) (cfg : JWTConfig.t)
    (req : LoginRequest.t) (now : Time) (db : DB) :
  let out := AuthService.Login SignedString CompareHashAndPassword cfg req now db in
  ((forall u, In u (gorm.rows (users db)) -> User.DeletedAt u = None ->
              User.Email u <> LoginRequest.Email req) ->
   out = (db, (None, Some (New "invalid credentials"))))
  /\ (forall u, GetUserByEmail (LoginRequest.Email req) db = (u, None) ->
      let ok := CompareHashAndPassword (User.PasswordHash u) (LoginRequest.Password req) in
      let access := SignedString (accessClaims cfg u now) (JWTConfig.Secret cfg) in
      let refresh := SignedString (refreshClaims cfg u now) (JWTConfig.Secret cfg) in
      In u (gorm.rows (users db)) /\ User.DeletedAt u = None
      /\ User.Email u = LoginRequest.Email req
      /\ (ok = false -> out = (db, (None, Some (New "invalid credentials"))))
      /\ (ok = true -> User.Active u = false ->
          out = (db, (None, Some (New "user account is inactive"))))
      /\ (ok = true -> User.Active u = true ->
          existsb (hasToken refresh) (gorm.rows (sessions db)) = false ->
          snd out = (Some (AuthResponse.mk access refresh u), None)
          /\ gorm.rows (sessions (fst out))
             = (gorm.rows (sessions db)
                ++ [Session.mk (N.succ (gorm.seq (sessions db))) (User.ID u) refresh
                      (now + JWTConfig.RefreshExpiration cfg) now None])%list
          /\ users (fst out) = users db)
      /\ (ok = true -> User.Active u = true ->
          existsb (hasToken refresh) (gorm.rows (sessions db)) = true ->
          snd out = (None, Some ErrConstraint)
          /\ gorm.rows (sessions (fst out)) = gorm.rows (sessions db))).
Proof.
  intros out. split.
  - intros No. unfold out, AuthService.Login.
    destruct (GetUserByEmail_outcome (LoginRequest.Email req) db) as [(u & E) | (E & _)].
    + exfalso. destruct (GetUserByEmail_found _ _ _ E) as (I & L & Em). exact (No u I L Em).
    + rewrite E. reflexivity.
  - intros u E ok access refresh.
    destruct (GetUserByEmail_found _ _ _ E) as (I & L & Em).
    destruct (Login_found SignedString CompareHashAndPassword cfg req now db u E)
      as (S1 & S2 & S3 & S4).
    fold out ok access refresh in S1, S2, S3, S4.
    split; [exact I | split; [exact L | split; [exact Em |]]].
    split; [exact S1 | split; [exact S2 | split]].
    + intros A B C. rewrite (S3 A B C). auto.
    + intros A B C. rewrite (S4 A B C). auto.
Qed.

(** What a successful [Login] did. *)
Lemma Login_ok SignedString CompareHashAndPassword cfg req now db db' resp :
  AuthService.Login SignedString CompareHashAndPassword cfg req now db = (db', (Some resp, None)) ->
  exists u,
    let refresh := SignedString (refreshClaims cfg u now) (JWTConfig.Secret cfg) in
    GetUserByEmail (LoginRequest.Email req) db = (u, None)
    /\ CompareHashAndPassword (User.PasswordHash u) (LoginRequest.Password req) = true
    /\ User.Active u = true
    /\ existsb (hasToken refresh) (gorm.rows (sessions db)) = false
    /\ resp = AuthResponse.mk (SignedString (accessClaims cfg u now) (JWTConfig.Secret cfg))
                refresh u
    /\ db' = set_sessions
               (gorm.mkTable
                  (gorm.rows (sessions db)
                   ++ [Session.mk (N.succ (gorm.seq (sessions db))) (User.ID u) refresh
                         (now + JWTConfig.RefreshExpiration cfg) now None])
                  (N.succ (gorm.seq (sessions db)))) db.
Proof.
  intros L.
  destruct (GetUserByEmail_outcome (LoginRequest.Email req) db) as [(u & E) | (E & _)].
  2: { unfold AuthService.Login in L. rewrite E in L. discriminate L. }
  exists u. cbv zeta.
  destruct (Login_found SignedString CompareHashAndPassword cfg req now db u E)
    as (S1 & S2 & S3 & S4).
  destruct (CompareHashAndPassword (User.PasswordHash u) (LoginRequest.Password req)) eqn:Ok.
  2: { rewrite (S1 eq_refl) in L. discriminate L. }
  destruct (User.Active u) eqn:Act.
  2: { rewrite (S2 eq_refl eq_refl) in L. discriminate L. }
  destruct (existsb (hasToken (SignedString (refreshClaims cfg u now) (JWTConfig.Secret cfg)))
              (gorm.rows (sessions db))) eqn:Ex.
  { rewrite (S4 eq_refl eq_refl eq_refl) in L. discriminate L. }
  rewrite (S3 eq_refl eq_refl eq_refl) in L. inversion L. auto 6.
Qed.

Lemma filter_none {A : Type} (p : A -> bool) (l : list A) :
  (forall x, In x l -> p x = false) -> filter p l = [].
Proof.
  induction l as [| y l IH]; simpl; [reflexivity |].
  intros No. rewrite (No y) by now left. apply IH. intros x I. apply No. now right.
Qed.

Lemma First_unique {A : Type} `{gorm.Model A} (t : gorm.Table A) (x : A) :
  uniqueKeys t = true -> In x (gorm.rows t) -> gorm.live x = true ->
  gorm.First (gorm.pk x) t = Some x.
Proof.
  intros U I L. unfold gorm.First.
  destruct (find (fun y => gorm.live y && gorm.has_pk (gorm.pk x) y) (gorm.rows t)) as [y |] eqn:F.
  - apply find_some in F. destruct F as [Iy P]. apply andb_true_iff in P. destruct P as [_ P].
    unfold gorm.has_pk in P. apply N.eqb_eq in P.
    f_equal. exact (uniqueKeys_same_row t y x U Iy I P).
  - exfalso. apply (find_none _ _ F) in I. unfold gorm.has_pk in I.
    rewrite L, N.eqb_refl in I. discriminate.
Qed.

Lemma token_absent (token : string) (l : list Session.t) :
  existsb (hasToken token) l = false <-> forall s, In s l -> Session.Token s <> token.
Proof.
  split.
  - intros E s I T.
    assert (X : existsb (hasToken token) l = true).
    { apply existsb_exists. exists s. split; [exact I |]. unfold hasToken.
      now apply String.eqb_eq. }
    congruence.
  - intros No. destruct (existsb (hasToken token) l) eqn:E; [| reflexivity].
    apply existsb_exists in E. destruct E as (s & I & T). unfold hasToken in T.
    apply String.eqb_eq in T. exfalso. exact (No s I T).
Qed.

(** X20. The refresh token of a login works until it expires.  After a
    successful [Login] at [now], on a database whose user keys are unique,
    [RefreshToken] with the refresh token of the response, at any instant
    before [now] plus the configured refresh period, returns the access
    token signed for the user of the response at that instant, and writes
    nothing. *)
Theorem Login_then_RefreshToken (SignedString : MapClaims.t -> string -> string)
    (CompareHashAndPassword : string -> string -> bool) (cfg : JWTConfig.t)
    (req : LoginRequest.t) (now now' : Time) (db db' : DB) (resp : AuthResponse.t) :
  uniqueKeys (users db) = true ->
  AuthService.Login SignedString CompareHashAndPassword cfg req now db
  = (db', (Some resp, None)) ->
  now' < now + JWTConfig.RefreshExpiration cfg ->
  AuthService.RefreshToken SignedString cfg (AuthResponse.RefreshToken resp) now' db'
  = (db', (SignedString (accessClaims cfg (AuthResponse.User resp) now') (JWTConfig.Secret cfg),
           None)).
Proof.
  intros U L Before.
  destruct (Login_ok _ _ _ _ _ _ _ _ L) as (u & E & _ & _ & Fresh & -> & ->).
  destruct (GetUserByEmail_found _ _ _ E) as (I & Lv & _).
  cbn [AuthResponse.RefreshToken AuthResponse.User].
  set (refresh := SignedString (refreshClaims cfg u now) (JWTConfig.Secret cfg)) in *.
  set (new := Session.mk _ (User.ID u) refresh _ now None).
  unfold AuthService.RefreshToken, GetSessionByToken, gorm.Where.
  cbn [sessions set_sessions gorm.rows].
  rewrite filter_app, filter_none.
  2: { intros s Is. rewrite token_absent in Fresh. specialize (Fresh s Is).
       apply String.eqb_neq in Fresh. rewrite Fresh. apply andb_false_r. }
  cbn [app filter]. unfold gorm.live at 1.
  cbn [gorm.deleted_at Session.model Session.DeletedAt Session.Token Session.ExpiresAt new isNil].
  rewrite String.eqb_refl.
  assert (G : (now + JWTConfig.RefreshExpiration cfg >? now') = true)
    by (rewrite Z.gtb_ltb; apply Z.ltb_lt; exact Before).
  rewrite G. cbn [andb hd_error orZero isNil negb Session.UserID].
  unfold GetUserByID. cbn [users set_sessions].
  change (Session.UserID new) with (gorm.pk u).
  rewrite (First_unique (users db) u U I)
    by (unfold gorm.live; cbn; rewrite Lv; reflexivity).
  cbn [orZero isNil negb]. reflexivity.
Qed.

Lemma Login_then_RefreshToken_witness :
  AuthService.RefreshToken fleet.sign fleet.jwt
    (fleet.sign (refreshClaims fleet.jwt
                   (User.mk 1 1 "owner@t1" "h1" 0xFFFFF "Tanguy" "Gnakpa" "+1 1" true 10 10 None)
                   70) "secret") 100
    (fst (AuthService.Login fleet.sign String.eqb fleet.jwt
            (LoginRequest.mk "owner@t1" "h1") 70 fleet.db0))
  = (fst (AuthService.Login fleet.sign String.eqb fleet.jwt
            (LoginRequest.mk "owner@t1" "h1") 70 fleet.db0),
     ("secret:owner@t1", None)).
Proof.
  apply (Login_then_RefreshToken fleet.sign String.eqb fleet.jwt
           (LoginRequest.mk "owner@t1" "h1") 70 100 fleet.db0 _
           (AuthResponse.mk "secret:owner@t1" "secret:"
              (User.mk 1 1 "owner@t1" "h1" 0xFFFFF "Tanguy" "Gnakpa" "+1 1" true 10 10 None))).
  - reflexivity.
  - reflexivity.
  - reflexivity.
Defined.

(** X21. Two logins of one user at the same instant cannot both succeed.
    The refresh token is a signature over the user and the instant, so the
    second login signs the token the first one stored; the table admits a
    token once, whether or not its session was ended since; the second
    login returns the database's error and adds no session. *)
Theorem Login_twice_same_instant (SignedString : MapClaims.t -> string -> string)
    (CompareHashAndPassword : string -> string -> bool) (cfg : JWTConfig.t)
    (req : LoginRequest.t) (now : Time) (db db' : DB) (resp : AuthResponse.t) :
  AuthService.Login SignedString CompareHashAndPassword cfg req now db
  = (db', (Some resp, None)) ->
  (let out := AuthService.Login SignedString CompareHashAndPassword cfg req now db' in
   snd out = (None, Some ErrConstraint)
   /\ gorm.rows (sessions (fst out)) = gorm.rows (sessions db'))
  /\ (forall later,
        let db'' := fst (AuthService.Logout (AuthResponse.RefreshToken resp) later db') in
        snd (AuthService.Login SignedString CompareHashAndPassword cfg req now db'')
        = (None, Some ErrConstraint)).
Proof.
  intros L.
  destruct (Login_ok _ _ _ _ _ _ _ _ L) as (u & E & Ok & Act & Fresh & -> & ->).
  cbn [AuthResponse.RefreshToken].
  set (refresh := SignedString (refreshClaims cfg u now) (JWTConfig.Secret cfg)) in *.
  set (new := Session.mk _ (User.ID u) refresh _ now None).
  set (db' := set_sessions _ db).
  split.
  - assert (E' : GetUserByEmail (LoginRequest.Email req) db' = (u, None)) by exact E.
    destruct (Login_found SignedString CompareHashAndPassword cfg req now db' u E')
      as (_ & _ & _ & S4).
    rewrite S4; [cbn; auto | exact Ok | exact Act |].
    apply existsb_exists. exists new. split.
    + unfold db'. cbn [sessions set_sessions gorm.rows]. apply in_or_app. right. now left.
    + unfold hasToken, new. cbn. apply String.eqb_refl.
  - intros later. set (db'' := fst (AuthService.Logout refresh later db')).
    assert (E'' : GetUserByEmail (LoginRequest.Email req) db'' = (u, None)) by exact E.
    destruct (Login_found SignedString CompareHashAndPassword cfg req now db'' u E'')
      as (_ & _ & _ & S4).
    rewrite S4; [reflexivity | exact Ok | exact Act |].
    apply existsb_exists.
    exists (if gorm.live new && hasToken refresh new
            then gorm.set_deleted_at (Some later) new else new).
    split.
    + unfold db'', AuthService.Logout, DeleteSession, gorm.DeleteWhere, db'.
      cbn [fst sessions set_sessions gorm.rows]. rewrite map_app. apply in_or_app. right.
      now left.
    + unfold hasToken, new. cbn. rewrite String.eqb_refl. cbn. apply String.eqb_refl.
Qed.

Lemma Login_twice_same_instant_witness :
  snd (AuthService.Login fleet.sign String.eqb fleet.jwt (LoginRequest.mk "owner@t1" "h1") 70
         (fst (AuthService.Login fleet.sign String.eqb fleet.jwt
                 (LoginRequest.mk "owner@t1" "h1") 70 fleet.db0)))
  = (None, Some ErrConstraint).
Proof.
  pose proof (Login_twice_same_instant fleet.sign String.eqb fleet.jwt
                (LoginRequest.mk "owner@t1" "h1") 70 fleet.db0 _
                (AuthResponse.mk "secret:owner@t1" "secret:"
                   (User.mk 1 1 "owner@t1" "h1" 0xFFFFF "Tanguy" "Gnakpa" "+1 1" true 10 10
                      None))
                eq_refl) as [H _].
  cbv zeta in H. destruct H as [H _]. exact H.
Defined.

(** After [DeleteSession] no live session carries the token. *)
Lemma DeleteSession_no_live (token : string) (now : Time) (db : DB) (s : Session.t) :
  In s (gorm.rows (sessions (fst (DeleteSession now token db)))) ->
  gorm.live s && hasToken token s = false.
Proof.
  unfold DeleteSession, gorm.DeleteWhere. cbn [fst sessions set_sessions gorm.rows].
  intros I. apply In_map_if in I. destruct I as [(y & _ & _ & ->) | (_ & P)]; [| exact P].
  reflexivity.
Qed.

(** X22. [Logout] ends the sessions of a refresh token and nothing else.
    It never returns an error, also for a token no session carries.
    Afterwards [RefreshToken] with that token answers "invalid refresh
    token" at every instant; every other token is answered as before; the
    users are untouched; and a second [Logout] of the token changes
    nothing. *)
Theorem Logout_spec (token : string) (now : Time) (db : DB) :
  let out := AuthService.Logout token now db in
  snd out = None
  /\ users (fst out) = users db
  /\ (forall SignedString cfg now',
        AuthService.RefreshToken SignedString cfg token now' (fst out)
        = (fst out, ("", Some (New "invalid refresh token"))))
  /\ (forall SignedString cfg token' now',
        token' <> token ->
        snd (AuthService.RefreshToken SignedString cfg token' now' (fst out))
        = snd (AuthService.RefreshToken SignedString cfg token' now' db))
  /\ (forall later, fst (AuthService.Logout token later (fst out)) = fst out).
Proof.
  intros out. unfold out, AuthService.Logout.
  split; [reflexivity | split; [reflexivity | split; [| split]]].
  - intros SignedString cfg now'.
    unfold AuthService.RefreshToken, GetSessionByToken, gorm.Where.
    rewrite filter_none; [reflexivity |].
    intros s I. pose proof (DeleteSession_no_live token now db s I) as P.
    unfold hasToken in P.
    destruct (gorm.live s); [| reflexivity]. cbn [andb] in *. rewrite P. reflexivity.
  - intros SignedString cfg token' now' D.
    unfold AuthService.RefreshToken, GetSessionByToken, gorm.Where, GetUserByID.
    unfold DeleteSession, gorm.DeleteWhere. cbn [fst sessions users set_sessions gorm.rows].
    rewrite filter_map_if.
    + destruct (hd_error _) as [s |]; cbn [orZero isNil negb]; [| reflexivity].
      destruct (gorm.First (Session.UserID s) (users db)); reflexivity.
    + intros y _ P. apply andb_true_iff in P. destruct P as [_ P]. unfold hasToken in P.
      apply String.eqb_eq in P.
      assert (T : String.eqb (Session.Token y) token' = false)
        by (apply String.eqb_neq; congruence).
      split.
      * rewrite T. cbn. apply andb_false_r.
      * reflexivity.
  - intros later. unfold DeleteSession at 1. cbn [fst]. unfold gorm.DeleteWhere at 1.
    set (db1 := fst (DeleteSession now token db)).
    replace (map _ (gorm.rows (sessions db1))) with (gorm.rows (sessions db1)).
    + destruct db as [a b c d e f h]. reflexivity.
    + rewrite <- (map_id (gorm.rows (sessions db1))) at 1. apply map_ext_in.
      intros s I. rewrite (DeleteSession_no_live token now db s I). reflexivity.
Qed.

(** X23. What the removal of a user does and does not do.
    [AdminService.DeleteUser] marks the user's row deleted and touches no
    other table: the user's sessions stay.  Afterwards no bearer token is
    validated as that user, no login returns that user, and a refresh with
    one of the user's sessions ends in "user not found". *)
Theorem DeleteUser_locks_out (id : N) (now : Time) (db : DB) :
  let out := AdminService.DeleteUser id now db in
  snd out = None
  /\ sessions (fst out) = sessions db
  /\ weekly_reports (fst out) = weekly_reports db
  /\ gorm.First id (users (fst out)) = None
  /\ (forall jwt_Parse cfg token now' u,
        snd (AuthService.ValidateToken jwt_Parse cfg token now' (fst out)) = (Some u, None) ->
        User.ID u <> id)
  /\ (forall SignedString CompareHashAndPassword cfg req now' db' resp,
        AuthService.Login SignedString CompareHashAndPassword cfg req now' (fst out)
        = (db', (Some resp, None)) ->
        User.ID (AuthResponse.User resp) <> id)
  /\ (forall SignedString cfg token now' s,
        GetSessionByToken token now' db = (s, None) ->
        Session.UserID s = id ->
        AuthService.RefreshToken SignedString cfg token now' (fst out)
        = (fst out, ("", Some (New "user not found")))).
Proof.
  intros out. unfold out, AdminService.DeleteUser, DeleteUser. cbn [fst snd].
  assert (Gone : gorm.First id (users (set_users (gorm.Delete now id (users db)) db)) = None).
  { cbn [users set_users]. exact (@First_Delete _ _ _ User_lawful now id (users db)). }
  split; [reflexivity | split; [reflexivity | split; [reflexivity | split; [exact Gone |]]]].
  split; [| split].
  - intros jwt_Parse cfg token now' u V E.
    apply ValidateToken_ok in V. destruct V as (uid & _ & F & _).
    destruct (@First_Some _ User.model _ _ _ F) as (_ & _ & P). cbn in P.
    assert (uid = id) by congruence. subst uid. congruence.
  - intros SignedString CompareHashAndPassword cfg req now' db' resp L E.
    destruct (Login_ok _ _ _ _ _ _ _ _ L) as (u & Eu & _ & _ & _ & -> & _).
    cbn in E. destruct (GetUserByEmail_found _ _ _ Eu) as (I & Lv & _).
    apply (@First_None_not_live _ User.model _ id u Gone I); [| exact E].
    unfold gorm.live. cbn. rewrite Lv. reflexivity.
  - intros SignedString cfg token now' s S E.
    unfold AuthService.RefreshToken.
    change (GetSessionByToken token now' (set_users (gorm.Delete now id (users db)) db))
      with (GetSessionByToken token now' db).
    rewrite S. cbn [isNil negb]. unfold GetUserByID. rewrite E, Gone. reflexivity.
Qed.

(** ** The subdomain of a registration *)

Lemma length_app (s t : string) :
  String.length (s ++ t) = (String.length s + String.length t)%nat.
Proof. induction s as [| c s IH]; simpl; [reflexivity | now rewrite IH]. Qed.

Lemma substring_zero (s : string) : substring 0 0 s = "".
Proof. destruct s; reflexivity. Qed.

Lemma substring_prefix (s t : string) : substring 0 (String.length s) (s ++ t) = s.
Proof.
  induction s as [| c s IH]; simpl; [apply substring_zero | now rewrite IH].
Qed.

Lemma substring_split (e : string) (n : nat) :
  (n <= String.length e)%nat ->
  exists suffix, e = (substring 0 n e ++ suffix)%string
                 /\ String.length suffix = (String.length e - n)%nat.
Proof.
  revert n. induction e as [| c e IH]; intros n Le; simpl in Le.
  - assert (n = 0)%nat by lia. subst n. exists "". split; reflexivity.
  - destruct n as [| n].
    + exists (String c e). split; reflexivity.
    + destruct (IH n) as (suffix & E & L); [lia |].
      exists suffix. simpl. split; [now rewrite <- E | exact L].
Qed.


(** X24. [generateSubdomain] does not look at the domain of the email: it
    cuts the last twelve bytes, whatever they are.  It panics on an email
    shorter than twelve bytes; on any other email the result is what is
    left of the email before its last twelve bytes; so it returns the local
    part exactly for the addresses at [example.com]. *)
Theorem generateSubdomain_spec (email : string) :
  (AuthService.generateSubdomain email = None <-> (String.length email < 12)%nat)
  /\ (forall s, AuthService.generateSubdomain email = Some s <->
                exists suffix, email = (s ++ suffix)%string
                               /\ String.length suffix = 12%nat)
  /\ (forall localPart,
        AuthService.generateSubdomain (localPart ++ "@example.com") = Some localPart).
Proof.
  assert (Back : forall s suffix, String.length suffix = 12%nat ->
                                  AuthService.generateSubdomain (s ++ suffix) = Some s).
  { intros s suffix L. unfold AuthService.generateSubdomain.
    rewrite length_app, L. change (String.length "@example.com") with 12%nat.
    replace (Z.of_nat (String.length s + 12) - Z.of_nat 12) with (Z.of_nat (String.length s))
      by lia.
    destruct (Z.ltb_spec (Z.of_nat (String.length s)) 0) as [C | _]; [lia |].
    rewrite Nat2Z.id, substring_prefix. reflexivity. }
  split; [| split].
  - unfold AuthService.generateSubdomain. change (String.length "@example.com") with 12%nat.
    destruct (Z.ltb_spec (Z.of_nat (String.length email) - Z.of_nat 12) 0) as [C | C].
    + split; [lia | reflexivity].
    + split; [discriminate | lia].
  - intros s. split.
    + unfold AuthService.generateSubdomain. change (String.length "@example.com") with 12%nat.
      destruct (Z.ltb_spec (Z.of_nat (String.length email) - Z.of_nat 12) 0) as [C | C];
        [discriminate |].
      intros [= <-].
      destruct (substring_split email (Z.to_nat (Z.of_nat (String.length email) - Z.of_nat 12)))
        as (suffix & E & L); [lia |].
      exists suffix. split; [exact E | lia].
    + intros (suffix & -> & L). exact (Back s suffix L).
  - intros localPart. apply Back. reflexivity.
Qed.

(* ================================================================== *)
(** * Further properties: the dashboard statistics *)
(* ================================================================== *)







(* ================================================================== *)
(** * Further properties: deposits and dates *)
(* ================================================================== *)



(** The expense service, unlike the deposit service, refuses a date it
    cannot parse, and then writes nothing: [Create] with a date that is not
    empty and does not parse, and [Update] of an expense of the caller's
    tenant with such a date, answer "invalid date format" and leave the
    database as it was, whatever the other fields of the request are. *)
Theorem ExpenseService_invalid_date (time_Parse : string -> option Time)
    (tenantID createdByID id : N) (create : CreateExpenseRequest.t)
    (update : UpdateExpenseRequest.t) (now : Time) (db : DB) :
  (CreateExpenseRequest.Date create <> "" ->
   time_Parse (CreateExpenseRequest.Date create) = None ->
   ExpenseService.Create time_Parse tenantID createdByID create now db
   = (db, (None, Some (New "invalid date format"))))
  /\ (forall e,
        gorm.First id (expenses db) = Some e -> Expense.TenantID e = tenantID ->
        UpdateExpenseRequest.Date update <> "" ->
        time_Parse (UpdateExpenseRequest.Date update) = None ->
        ExpenseService.Update time_Parse id tenantID update now db
        = (db, (None, Some (New "invalid date format")))).
Proof.
  split.
  - intros NE P. unfold ExpenseService.Create.
    apply String.eqb_neq in NE. rewrite NE, P. reflexivity.
  - intros e F T NE P. rewrite (ExpenseService_Update_eq _ _ _ _ _ _ _ F).
    rewrite T, N.eqb_refl. cbn [negb]. unfold editedExpense.
    apply String.eqb_neq in NE. rewrite NE, P. reflexivity.
Qed.

Lemma ExpenseService_invalid_date_witness :
  ExpenseService.Create fleet.parse 1 2
    (CreateExpenseRequest.mk None None "fuel" 10 "" "" "15/01/2024") 70 fleet.db0
  = (fleet.db0, (None, Some (New "invalid date format"))).
Proof.
  pose proof (ExpenseService_invalid_date fleet.parse 1 2 1
                (CreateExpenseRequest.mk None None "fuel" 10 "" "" "15/01/2024")
                (UpdateExpenseRequest.mk "" 0 "" "" "") 70 fleet.db0) as [H _].
  apply H; [discriminate | reflexivity].
Defined.

(* ================================================================== *)
(** * Further properties: registration and administration *)
(* ================================================================== *)






Lemma GetUserByPhone_found (phone : string) (db : DB) (u : User.t) :
  GetUserByPhone phone db = (u, None) ->
  In u (gorm.rows (users db)) /\ User.DeletedAt u = None /\ User.Phone u = phone.
Proof.
  unfold GetUserByPhone.
  destruct (gorm.FirstWhere _ (users db)) as [x |] eqn:F; cbn [orZero]; [| discriminate].
  intros [= <-]. apply FirstWhere_Some in F. destruct F as (I & L & E).
  apply String.eqb_eq in E. unfold gorm.live in L. cbn in L.
  destruct (User.DeletedAt x); [discriminate | auto].
Qed.





Lemma First_live_user (id : N) (t : gorm.Table User.t) (x : User.t) :
  gorm.First id t = Some x -> User.ID x = id /\ User.DeletedAt x = None.
Proof.
  intros F. destruct (@First_Some _ User.model _ _ _ F) as (_ & L & P).
  split; [exact P |]. unfold gorm.live in L. cbn in L.
  destruct (User.DeletedAt x); [discriminate | reflexivity].
Qed.

(** X30. [UpdateUser] of the administration never applies a zero value.  After
    a successful update of a stored user, on a table whose keys come from
    the sequence, the user stored and returned has the mask of the request
    unless that is 0, so no update can take every permission away; each
    text field of the request that is not empty and otherwise the stored
    one; a new password hash only for a password that is not empty; the
    [active] flag of the request when it carries one; and the tenant it
    had when the request names none or the same one. *)
Theorem AdminService_UpdateUser_spec (GenerateFromPassword : string -> string * option error)
    (id : N) (req : UpdateUserRequest.t) (now : Time) (db db' : DB) (u u' : User.t) :
  keysWithin (users db) = true ->
  gorm.First id (users db) = Some u ->
  AdminService.UpdateUser GenerateFromPassword id req now db = (db', (Some u', None)) ->
  let pick (new old : string) := if String.eqb new "" then old else new in
  User.ID u' = id
  /\ User.Permission u'
     = (if UpdateUserRequest.Permission req =? 0 then User.Permission u
        else UpdateUserRequest.Permission req)
  /\ User.Active u'
     = match UpdateUserRequest.Active req with Some a => a | None => User.Active u end
  /\ (UpdateUserRequest.TenantID req = 0%N
      \/ UpdateUserRequest.TenantID req = User.TenantID u ->
      User.TenantID u' = User.TenantID u)
  /\ User.Email u' = pick (UpdateUserRequest.Email req) (User.Email u)
  /\ User.FirstName u' = pick (UpdateUserRequest.FirstName req) (User.FirstName u)
  /\ User.LastName u' = pick (UpdateUserRequest.LastName req) (User.LastName u)
  /\ User.Phone u' = pick (UpdateUserRequest.Phone req) (User.Phone u)
  /\ User.PasswordHash u'
     = (if String.eqb (UpdateUserRequest.Password req) "" then User.PasswordHash u
        else fst (GenerateFromPassword (UpdateUserRequest.Password req)))
  /\ User.CreatedAt u' = User.CreatedAt u
  /\ User.UpdatedAt u' = now
  /\ gorm.First id (users db') = Some u'.
Proof.
  intros K F Run pick.
  destruct (First_live_user _ _ _ F) as [Pk Lv].
  pose proof (First_nonzero _ _ _ K F) as NZ.
  unfold AdminService.UpdateUser in Run. unfold GetUserByID at 1 in Run.
  rewrite F in Run. cbn [orZero isNil negb] in Run.
  (* the tenant *)
  set (s1 := if negb (UpdateUserRequest.TenantID req =? 0)%N then _ else _) in Run.
  assert (S1 : s1 = inl (if negb (UpdateUserRequest.TenantID req =? 0)%N
                         then User.set_TenantID (UpdateUserRequest.TenantID req) u else u)
               \/ exists e, s1 = inr e).
  { unfold s1. destruct (negb (UpdateUserRequest.TenantID req =? 0)%N); [| now left].
    destruct (GetTenantByID (UpdateUserRequest.TenantID req) db) as [t err].
    destruct (negb (isNil err)); [right; eexists; reflexivity | now left]. }
  destruct S1 as [E1 | (e & E1)]; rewrite E1 in Run; [| discriminate Run]. clear E1 s1.
  set (u1 := if negb (UpdateUserRequest.TenantID req =? 0)%N then _ else _) in Run.
  (* the email *)
  set (s2 := if negb (String.eqb (UpdateUserRequest.Email req) "") then _ else _) in Run.
  assert (S2 : (exists u2, s2 = inl u2
                           /\ User.Email u2 = pick (UpdateUserRequest.Email req) (User.Email u1)
                           /\ (u2 = u1 \/ u2 = User.set_Email (UpdateUserRequest.Email req) u1))
               \/ exists e, s2 = inr e).
  { unfold s2, pick.
    destruct (String.eqb (UpdateUserRequest.Email req) ""); cbn [negb];
      [left; exists u1; auto |].
    destruct (String.eqb_spec (User.Email u1) (UpdateUserRequest.Email req)) as [Same | Diff];
      cbn [negb]; [left; exists u1; auto |].
    destruct (GetUserByEmail (UpdateUserRequest.Email req) db) as [x [[| | m] |]];
      cbn [isNil isRecordNotFound negb];
      try (right; eexists; reflexivity).
    left. eexists. split; [reflexivity |]. split; [reflexivity | now right]. }
  destruct S2 as [(u2 & Es & E2 & Sh2) | (e & Es)]; rewrite Es in Run; [| discriminate Run].
  clear Es s2.
  (* the phone *)
  match type of Run with
  | match ?s with Some _ => _ | None => _ end = _ => destruct s as [e |]
  end; [discriminate Run |].
  (* the password *)
  set (s4 := if negb (String.eqb (UpdateUserRequest.Password req) "") then _ else _) in Run.
  assert (S4 : (exists u4, s4 = inl u4
                           /\ (u4 = u2
                               /\ String.eqb (UpdateUserRequest.Password req) "" = true
                               \/ u4 = User.set_PasswordHash
                                         (fst (GenerateFromPassword
                                                 (UpdateUserRequest.Password req))) u2
                                  /\ String.eqb (UpdateUserRequest.Password req) "" = false))
               \/ exists e, s4 = inr e).
  { unfold s4.
    destruct (String.eqb (UpdateUserRequest.Password req) ""); cbn [negb];
      [left; exists u2; auto |].
    unfold AdminService.hashPassword.
    destruct (GenerateFromPassword (UpdateUserRequest.Password req)) as [h [e |]];
      cbn [isNil negb fst]; [right; eexists; reflexivity |].
    left. eexists. split; [reflexivity |]. right. auto. }
  destruct S4 as [(u4 & Es & Sh4) | (e & Es)]; rewrite Es in Run; [| discriminate Run].
  clear Es s4.
  (* the remaining fields and the write *)
  set (x := match UpdateUserRequest.Active req with Some _ => _ | None => _ end) in Run.
  assert (Fields :
            User.ID x = id /\ User.DeletedAt x = None
            /\ User.Permission x
               = (if UpdateUserRequest.Permission req =? 0 then User.Permission u
                  else UpdateUserRequest.Permission req)
            /\ User.Active x
               = match UpdateUserRequest.Active req with
                 | Some a => a
                 | None => User.Active u
                 end
            /\ User.TenantID x
               = (if (UpdateUserRequest.TenantID req =? 0)%N then User.TenantID u
                  else UpdateUserRequest.TenantID req)
            /\ User.Email x = pick (UpdateUserRequest.Email req) (User.Email u)
            /\ User.FirstName x = pick (UpdateUserRequest.FirstName req) (User.FirstName u)
            /\ User.LastName x = pick (UpdateUserRequest.LastName req) (User.LastName u)
            /\ User.Phone x = pick (UpdateUserRequest.Phone req) (User.Phone u)
            /\ User.PasswordHash x
               = (if String.eqb (UpdateUserRequest.Password req) "" then User.PasswordHash u
                  else fst (GenerateFromPassword (UpdateUserRequest.Password req)))
            /\ User.CreatedAt x = User.CreatedAt u).
  { assert (E1 : User.Email u1 = User.Email u)
      by (unfold u1; destruct (negb (UpdateUserRequest.TenantID req =? 0)%N); reflexivity).
    rewrite E1 in E2.
    assert (Base : User.ID u2 = id /\ User.DeletedAt u2 = None
                   /\ User.Permission u2 = User.Permission u
                   /\ User.Active u2 = User.Active u
                   /\ User.TenantID u2
                      = (if (UpdateUserRequest.TenantID req =? 0)%N then User.TenantID u
                         else UpdateUserRequest.TenantID req)
                   /\ User.FirstName u2 = User.FirstName u
                   /\ User.LastName u2 = User.LastName u
                   /\ User.Phone u2 = User.Phone u
                   /\ User.PasswordHash u2 = User.PasswordHash u
                   /\ User.CreatedAt u2 = User.CreatedAt u).
    { destruct Sh2 as [-> | ->]; unfold u1;
        destruct (UpdateUserRequest.TenantID req =? 0)%N; cbn; auto 12. }
    destruct Base as (B1 & B2 & B3 & B4 & B5 & B6 & B7 & B8 & B9 & B10).
    unfold x, pick.
    destruct Sh4 as [[-> ->] | [-> ->]];
      destruct (UpdateUserRequest.Active req);
      destruct (UpdateUserRequest.Permission req =? 0);
      destruct (String.eqb (UpdateUserRequest.FirstName req) "");
      destruct (String.eqb (UpdateUserRequest.LastName req) "");
      destruct (String.eqb (UpdateUserRequest.Phone req) "");
      cbn; repeat split; assumption. }
  clearbody x. destruct Fields as (X1 & X2 & Rest).
  assert (NZx : gorm.pk x <> 0%N) by (cbn; congruence).
  assert (Fx : gorm.First (gorm.pk x) (users db) = Some u) by (cbn; congruence).
  assert (Lx : gorm.live x = true) by (unfold gorm.live; cbn; rewrite X2; reflexivity).
  unfold UpdateUser in Run.
  destruct (user_constraints db x) eqn:C.
  - destruct (@Save_found _ _ _ User_lawful now x u (users db) NZx Fx Lx) as (tb & S & P1 & _).
    rewrite S in Run. cbv beta iota in Run. unfold GetUserByID in Run.
    cbn [users set_users gorm.pk User.model gorm.stamp_updated User.writable] in *.
    change (User.ID (User.stamp_updated now x)) with (User.ID x) in Run.
    rewrite P1 in Run. cbn [orZero] in Run. inversion Run; subst db' u'.
    cbn [users set_users].
    destruct Rest as (R3 & R4 & R5 & R6 & R7 & R8 & R9 & R10 & R11).
    repeat split; try assumption.
    + intros [Z0 | Same]; (etransitivity; [exact R5 |]).
      * rewrite Z0. reflexivity.
      * destruct (UpdateUserRequest.TenantID req =? 0)%N; [reflexivity | exact Same].
    + rewrite <- X1. exact P1.
  - destruct (gorm.Save false now x (users db)) as [[tb x'] err] eqn:S.
    pose proof (@Save_ok_constraints _ _ User.writable false now x (users db) tb x' NZx) as Ok.
    destruct err as [e |]; [discriminate Run |].
    discriminate (Ok S).
Qed.

Lemma AdminService_UpdateUser_spec_witness :
  User.Permission (User.mk 3 1 "second@t1" "h3" 3 "Second" "Driver" "+1 3" false 10 70 None) = 3
  /\ User.Active (User.mk 3 1 "second@t1" "h3" 3 "Second" "Driver" "+1 3" false 10 70 None)
     = false.
Proof.
  pose proof (AdminService_UpdateUser_spec (fun p => (p, None)) 3
                (UpdateUserRequest.mk 0 "" "" 0 "" "" "" (Some false)) 70 fleet.db0
                (fst (AdminService.UpdateUser (fun p => (p, None)) 3
                        (UpdateUserRequest.mk 0 "" "" 0 "" "" "" (Some false)) 70 fleet.db0))
                (User.mk 3 1 "second@t1" "h3" 3 "Second" "Driver" "+1 3" true 10 10 None)
                (User.mk 3 1 "second@t1" "h3" 3 "Second" "Driver" "+1 3" false 10 70 None)
                eq_refl eq_refl eq_refl) as H.
  cbv zeta in H. destruct H as (_ & P & A & _). split; [exact P | exact A].
Defined.
